(* ===== verification/_CoqProject ===== *)
-Q . S2P
Prelude.v
PyStr.v
Digits.v
Args.v
Floats.v
Waveform.v
Expected.v
Tolerance.v
Serial.v
ArgParse.v
Session.v
Runner.v
LogFormat.v
FloatStr.v
Draft.v
Cli.v
