(* ===== verification/Prelude.v ===== *)
(** * ADC sampling-engine test: a verified model of [src/ADC_Test.py]
      and of the code its draft [src/ADC_Test_V0_2.py] shares with it

    [src/ADC_Test.py] (V1.0) is a Python 2 host script that tests a device (the
    DUT) sampling a sine wave with its ADC.  It drives a signal-generating
    controller over one serial port ([ser1]) and reads the DUT's reports
    over another ([ser2]).  [main] parses the command line and calls
    [LoopAndLog], which opens both ports, performs a one-time readiness
    handshake (two DUT lines discarded, the stimulus command
    ['2,<amplitude>,<frequency>\r'] sent to the controller, one controller
    line read), and then for each test calls [SamplingTest.RunTest].
    [RunTest] reads two DUT lines [header,channel,mean,min,max], computes
    the counts expected for the amplitude from a sine model of the DAC
    output, checks each reported count against expected +/- 20 and
    returns a pass/fail pair.  The loop counts passes per channel, logs a
    pass rate per channel and sleeps; at the end it closes the ports and
    logs ['Finished'] to ['SamplingEngine_Results.log'].

    [src/ADC_Test_V0_2.py] is an earlier draft that does not compile
    (line 261 has no right-hand side; lines 413-414 are
    [global x = v]), so Python never runs any of it.  Its [SerialConnecter],
    [CheckMaxTests], [CheckInterval], the splitting of the readings and the
    [logging] calls are the same code as V1.0's: the V1.0 definitions
    model them, and the map places them on the draft's lines.  Its
    [GetInput] differs ([type=str]) and is modelled on its own.

    ** Files, in dependency order

    - [Prelude] (this file): the exception-and-state monad [st_exc] that
      models Python statement sequences (a raise keeps the updates made
      before it), its notations in [pym_scope], the monadic fold [mfold]
      that models a [for] loop, [py_range], the hint databases [pym] and
      [pym_rw], and the monad laws.  It also holds a small program logic
      for the monad: [frame obs m] (running [m] leaves [obs] of the state
      unchanged, whether it returns or raises), Hoare triples
      [hoare P m Q R] with a postcondition [Q] for a return and [R] for a
      raise, their rules, and [mfold_py_range_inv], the invariant rule for
      a loop over [range(a, b)].
    - [PyStr]: the Python built-ins the script uses on byte strings:
      [str.rstrip], [str.split(',')], [','.join], [int()] (whitespace,
      sign, whitespace, digits; [None] for [ValueError]), [str] of an
      integer, and [str] of a float ([py_str_float]: twelve significant
      digits rounded half to even, [round12]; trailing zeros dropped,
      [strip_zeros]; the layout of [format_float_short], [fmt_g]).
    - [Digits]: a reference for the digits of [str(n)] by well-founded
      recursion (Equations), and the digit-string facts the parsers need.
    - [Args]: the parsed command line of V1.0 ([Args], [GetInput]) and
      the class [ParsedArgs] of what [SamplingTest] reads of [args];
      [CheckInterval], [CalculateMean] and [CheckMaxTests] are written
      once against it (the two versions share their code, lines 325-340
      of the draft).
    - [Floats]: [float()] of a string as Python 2.7 reads it
      ([PyFloat_FromString]: whitespace, sign, digits, point, exponent,
      [inf]/[infinity]/[nan], overflow to [inf]), which V1.0's parser
      applies to the amplitude.
    - [Waveform]: the calibration constants of [RunTest] (lines 181-189)
      and, in [Module WaveformR], a line-by-line transcription over the
      reals of the expected-value computation (lines 245-289).
    - [Expected]: [Module WaveformQ], an executable closed form over [Q]
      of the same computation, proved equal to [WaveformR] for every
      rational amplitude; the global ranges [Amplitudes], [Frequencies].
    - [Tolerance]: [Module Tolerance], the three limit dictionaries, their
      reset around the expected values, the band check and the channel
      verdict (lines 204-218, 291-357), refining the contract [inBand].
    - [Serial]: the world the script acts on ([World]: both ports with
      their state, pending input lines and written commands; the log; the
      sleeps), the pyserial operations and the methods of
      [SerialConnecter] (lines 97-159 of V1.0, lines 94-156 of the draft).
      [PyExn] lists the Python exceptions the model raises.  A [readline]
      with nothing to read models the timeout and returns the empty
      string.  Every transport operation is proved to leave the log alone
      ([frame w_log]) and, except [write_port], what was written to the
      devices ([frame tx_of]).
    - [ArgParse]: [parse_args] of Python 2.7's [argparse] for the parser
      [GetInput] builds (six positionals, [-h], [-i/--interval],
      [-m/--maxtest]), as its source does it: [classify] is
      [_parse_optional], [consume] the main loop of [_parse_known_args],
      [exec] the actions with [_get_values] and the [type] conversions,
      and [parse_args] the final checks; exits are [SystemExit 0] and
      [SystemExit 2], and ['-h='] raises [IndexError].
    - [Session]: [RunTest] (lines 179-376) as one [PyM] computation, and
      the reading-line format of the spec ([Reading], [render]).
    - [Runner]: [MESSAGE_PING], the loop state [LoopState],
      [record_channel], [first_iteration_handshake], [loop_body],
      [LoopAndLog] and [main] (lines 414-535); the abstract runner
      [spec_loop].  The log invariants are proved once, in
      [Section LogInvariant], for any predicate on records; what a run
      writes to the devices, in [Section Stimulus].
    - [LogFormat]: the text [logging] writes ([basicConfig] at line 429 of
      V1.0, 357 of the draft): [message] ([msg % args] of each
      [logging.info]), [asctime] (the [datefmt]
      ['%d/%m/%Y %I:%M:%S %p'] of a time stamp [Stamp]), [format_record],
      [log_file] (one line per record), a reader [parse_log], and the log
      file of a complete run.
    - [FloatStr]: what [float()] reads back from [py_str_float], and so
      what the controller reads from the amplitude field of the stimulus
      command.
    - [Draft]: [Module V02], the namespace the draft's [GetInput] produces
      (amplitude and frequency kept as strings).
    - [Cli]: [Module CommandLine], the draft's [GetInput] (lines 58-89)
      and, in [Module V1], V1.0's (lines 61-92 of [src/ADC_Test.py]) from
      the command line, and [namespace_args], which reads a namespace
      with well-typed values as a [V02.Args] or an [Args].

    ** What is proved

    - Runner: a run on well-formed input terminates, produces exactly the
      log records of the abstract runner [spec_loop] between the start
      record and ['Finished'], sends the stimulus once, closes both ports
      and sleeps once per iteration ([LoopAndLog_wellformed], through the
      refinement lemma [loop_refines]); the pass counters count the
      passes; each log record carries the truncated rate
      [100 * passes / testCounter]; a malformed reading aborts the whole
      run with the ports open.  For any device behaviour, returning or
      raising: every log record has a positive test number and a rate in
      [0, 100] ([LoopAndLog_log_sound], with the loop invariant
      [counters_ok]); nothing is written to the DUT and at most one
      command, the stimulus, to the controller, exactly one when the run
      returns ([LoopAndLog_writes_once]).  The stimulus command splits
      back into its three fields ([MESSAGE_PING_fields]).
    - Log file: the text written for any records with valid time stamps
      and one-line messages parses back to them ([log_file_roundtrip]:
      the 12-hour clock with AM/PM loses nothing); the file of a complete
      run reads back as the records of [spec_loop]
      ([LoopAndLog_log_file]).
    - Stimulus amplitude: the controller reads from the command a float
      within [|fAMP| / (2 * 10^11)] of [fAMP], and [fAMP] itself when it
      has at most twelve significant digits ([MESSAGE_PING_amplitude]).
    - Session: [RunTest] on two well-formed lines returns the two channel
      verdicts and consumes exactly those lines; a malformed first line or
      a timeout raises [ValueError]; on two five-field lines the first
      count [int()] rejects, in the code's order, raises [ValueError]
      after both lines are read ([RunTest_int_error]); the verdict is the
      conjunction of three inclusive band checks of width 20.
    - Expected counts: the executable [Q] form refines the real
      transcription; the expected mean does not depend on the amplitude
      and is 99/100 of the offset (404 counts, not the 408 of a constant
      signal); at amplitude 0.43 the counts are 404/0/817; the counts of
      all 100 samples lie between the expected minimum and maximum; the
      peaks stay within [0, 817] on the amplitude range.
    - Command line: a command line built from a namespace (options at any
      place, any integers, negative ones included) parses back to it
      ([GetInput_roundtrip]); a wrong number of plain words or a
      non-integer baud rate exits with status 2, [-h] first exits with
      status 0; [-m=--] stores the empty list in [args.maxtest]
      ([GetInput_maxtest_empty_list]).  V1.0's command line parses back
      to its namespace with an amplitude of the same value
      ([GetInput_V1_roundtrip]).

    ** Modelling choices, bounds and fuel

    Floats are read as exact reals (in [WaveformR]) or rationals, and
    [float()] keeps the decimal a literal writes: the script's rounding
    error is far below the one-count resolution, except exactly at
    integer boundaries, which the reference amplitudes do not hit.  For
    the same reason [str] of a float rounds the exact decimal to twelve
    digits, half to even, where Python rounds the binary double; the two
    differ only on a decimal tie at the thirteenth digit.  An amplitude of
    [inf], [nan] or [-0.0] has no [Dec]; the typed namespace is then
    absent ([CommandLine.V1.namespace_args]).  Integers are unbounded
    [Z], as Python's are.  Loops are folds over finite lists
    ([py_range]); [str] of an integer recurses on [S (log2 n)] digits,
    which is enough for every [n] ([Digits.digits_lsb_ref]); [strip_zeros]
    takes twelve steps, enough for a rounded value of at most [10^12].
    The proofs about the full loop ask for exactly [CheckMaxTests args]
    pairs of readings; fewer readings make the DUT time out, which
    [RunTest_timeout] covers.  [MESSAGE_PING_amplitude] asks for an
    amplitude up to [10^300], far beyond the range [0, 0.5] of the
    argument help, so that the rounded value stays below the overflow.

    ** Not modelled

    The draft's own [RunTest], [LoopAndLog] and [main]: the module does
    not compile, so they never run, and a model of them would describe
    behaviour the program cannot have.  The help and usage texts of
    [argparse] and the console [print]s: output to a terminal that no
    part of the program reads back; modelling them would add an output
    stream to every operation of [World] without a property to state on
    it.  The clock: time stamps of log records are a parameter (any valid
    stamp, one per record), since [time.localtime] is outside the
    program.  Baud rates and real-time timeouts (a timeout is an empty
    input queue). *)

From Stdlib Require Import List ZArith Lia Bool.
Import ListNotations.

(** ** Results of a computation that may raise a Python exception *)

Inductive res (E A : Type) : Type :=
| Ok (a : A)
| Exn (e : E).
Arguments Ok {E A} a.
Arguments Exn {E A} e.

(** ** The exception-and-state monad

    A Python statement sequence reads and updates the world and may raise
    an exception; the updates made before the raise persist.  [st_exc S E A]
    is that: a state transformer whose result is a value or an exception. *)

Definition st_exc (S E A : Type) : Type := S -> res E A * S.

Section Monad.
Context {S E : Type}.

Definition ret {A} (a : A) : st_exc S E A := fun s => (Ok a, s).

Definition bind {A B} (m : st_exc S E A) (k : A -> st_exc S E B)
  : st_exc S E B :=
  fun s => match m s with
           | (Ok a, s') => k a s'
           | (Exn e, s') => (Exn e, s')
           end.

Definition raise {A} (e : E) : st_exc S E A := fun s => (Exn e, s).
Definition get : st_exc S E S := fun s => (Ok s, s).
Definition put (s : S) : st_exc S E unit := fun _ => (Ok tt, s).
Definition modify (f : S -> S) : st_exc S E unit := fun s => (Ok tt, f s).

(** [for x in xs: body] carrying a loop state [acc]. *)
Fixpoint mfold {A B} (f : B -> A -> st_exc S E B) (xs : list A) (acc : B)
  : st_exc S E B :=
  match xs with
  | [] => ret acc
  | x :: xs' => bind (f acc x) (mfold f xs')
  end.
End Monad.

Declare Scope pym_scope.
Delimit Scope pym_scope with pym.
Notation "x <- c ;; k" := (bind c (fun x => k))
  (at level 100, c at next level, right associativity) : pym_scope.
Notation "' p <- c ;; k" := (bind c (fun x => match x with p => k end))
  (at level 100, p pattern, c at next level, right associativity) : pym_scope.
Notation "c ;;; k" := (bind c (fun _ => k))
  (at level 100, right associativity) : pym_scope.

(** ** Python's [range(a, b)] on integers *)

Definition py_range (a b : Z) : list Z :=
  map (fun i => a + Z.of_nat i)%Z (seq 0 (Z.to_nat (b - a))).

(** ** Counting the [true]s of a list of outcomes *)

Definition count_true (l : list bool) : nat := length (filter (fun b => b) l).

(** ** Computations that leave part of the state alone

    [frame obs m]: whatever [m] returns, normally or by raising, the
    observation [obs] of the state is the same after [m] as before. *)

Definition frame {S E A X} (obs : S -> X) (m : st_exc S E A) : Prop :=
  forall s r s', m s = (r, s') -> obs s' = obs s.

(** [hoare P m Q R]: from a state satisfying [P], if [m] returns [a]
    the final state satisfies [Q a], and if it raises the final state
    satisfies [R]. *)
Definition hoare {S E A} (P : S -> Prop) (m : st_exc S E A)
           (Q : A -> S -> Prop) (R : S -> Prop) : Prop :=
  forall s r s', P s -> m s = (r, s') ->
  match r with Ok a => Q a s' | Exn _ => R s' end.

(** ** Automation *)

Create HintDb pym discriminated.
Create Rewrite HintDb pym_rw.

Ltac pym_unfold := cbv [bind ret raise get put modify] in *.

(** ** Monad laws, pointwise in the state *)

Section Laws.
Context {S E : Type}.

Lemma bind_ret_l {A B} (a : A) (k : A -> st_exc S E B) s :
  bind (ret a) k s = k a s.
Proof. reflexivity. Qed.

Lemma bind_ret_r {A} (m : st_exc S E A) s : bind m ret s = m s.
Proof. unfold bind, ret. destruct (m s) as [[a|e] s']; reflexivity. Qed.

Lemma bind_assoc {A B C} (m : st_exc S E A) (f : A -> st_exc S E B)
      (g : B -> st_exc S E C) s :
  bind (bind m f) g s = bind m (fun a => bind (f a) g) s.
Proof. unfold bind. destruct (m s) as [[a|e] s']; reflexivity. Qed.

Lemma bind_raise {A B} (e : E) (k : A -> st_exc S E B) s :
  bind (raise e) k s = (Exn e, s).
Proof. reflexivity. Qed.

(** A step that returns [a] in state [s'] hands them to the continuation. *)
Lemma bind_Ok {A B} (m : st_exc S E A) (k : A -> st_exc S E B) s a s' :
  m s = (Ok a, s') -> bind m k s = k a s'.
Proof. intros H. unfold bind. now rewrite H. Qed.

Lemma bind_Exn {A B} (m : st_exc S E A) (k : A -> st_exc S E B) s e s' :
  m s = (Exn e, s') -> bind m k s = (Exn e, s').
Proof. intros H. unfold bind. now rewrite H. Qed.

(** [bind] respects pointwise equality of continuations. *)
Lemma bind_ext {A B} (m : st_exc S E A) (k1 k2 : A -> st_exc S E B) s :
  (forall a s', k1 a s' = k2 a s') -> bind m k1 s = bind m k2 s.
Proof. intros H. unfold bind. destruct (m s) as [[a|e] s']; auto. Qed.

(** A loop over [xs ++ ys] runs over [xs], then over [ys]. *)
Lemma mfold_app {A B} (f : B -> A -> st_exc S E B) xs ys acc s :
  mfold f (xs ++ ys) acc s = bind (mfold f xs acc) (mfold f ys) s.
Proof.
  revert acc s. induction xs as [|x xs IH]; intros acc s; simpl.
  - reflexivity.
  - rewrite bind_assoc. apply bind_ext. intros b s'. apply IH.
Qed.
End Laws.

(** Inversion of [bind]: either [m] raised, or it returned and the
    continuation produced the result. *)
Lemma bind_inv {S E A B} (m : st_exc S E A) (k : A -> st_exc S E B) s r s' :
  bind m k s = (r, s') ->
  (exists e, m s = (Exn e, s') /\ r = Exn e) \/
  (exists a s1, m s = (Ok a, s1) /\ k a s1 = (r, s')).
Proof.
  unfold bind. destruct (m s) as [[a|e] s1]; intros H.
  - right. eauto.
  - left. injection H as <- <-. eauto.
Qed.

Section Frame.
Context {S E X : Type} (obs : S -> X).

Lemma frame_ret {A} (a : A) : frame obs (@ret S E A a).
Proof. intros s r s' H. now injection H as _ <-. Qed.

Lemma frame_raise {A} (e : E) : frame obs (@raise S E A e).
Proof. intros s r s' H. now injection H as _ <-. Qed.

Lemma frame_get : frame obs (@get S E).
Proof. intros s r s' H. now injection H as _ <-. Qed.

Lemma frame_modify (g : S -> S) :
  (forall s, obs (g s) = obs s) -> frame obs (@modify S E g).
Proof. intros Hg s r s' H. injection H as _ <-. apply Hg. Qed.

Lemma frame_bind {A B} (m : st_exc S E A) (k : A -> st_exc S E B) :
  frame obs m -> (forall a, frame obs (k a)) -> frame obs (bind m k).
Proof.
  intros Hm Hk s r s' H.
  destruct (bind_inv m k s r s' H) as [(e & Hs & _) | (a & s1 & Hs & Hk1)].
  - exact (Hm _ _ _ Hs).
  - rewrite (Hk a _ _ _ Hk1). exact (Hm _ _ _ Hs).
Qed.
End Frame.

#[export] Hint Rewrite @bind_ret_l @bind_raise : pym_rw.
#[export] Hint Resolve frame_ret frame_raise frame_get frame_bind : pym.

(** Break a goal [frame obs m] along the binds, matches and conditionals
    of [m], leaving the primitive steps to the hints of [pym]. *)
Ltac solve_frame :=
  repeat match goal with
  | |- forall _, _ => intros
  | |- frame _ (bind _ _) => apply frame_bind
  | |- frame _ (match ?x with _ => _ end) => destruct x
  end; eauto with pym.

(** ** Generic lemmas on the loop bounds *)

Lemma length_py_range a b : length (py_range a b) = Z.to_nat (b - a).
Proof. unfold py_range. now rewrite length_map, length_seq. Qed.

Lemma py_range_succ a n :
  (0 <= n)%Z -> py_range a (a + n + 1) = py_range a (a + n) ++ [(a + n)%Z].
Proof.
  intros Hn. unfold py_range.
  replace (Z.to_nat (a + n + 1 - a)) with (S (Z.to_nat n)) by lia.
  replace (Z.to_nat (a + n - a)) with (Z.to_nat n) by lia.
  rewrite seq_S, map_app. simpl. do 3 f_equal. lia.
Qed.

Lemma py_range_cons a b : (a < b)%Z -> py_range a b = a :: py_range (a + 1) b.
Proof.
  intros Hab. unfold py_range.
  replace (Z.to_nat (b - a)) with (S (Z.to_nat (b - (a + 1)))) by lia.
  cbn [seq map]. f_equal; [lia|].
  rewrite <- seq_shift, map_map. apply map_ext. intros i. lia.
Qed.

Section Hoare.
Context {S E : Type}.

Lemma hoare_ret {A} (Q : A -> S -> Prop) (R : S -> Prop) a :
  hoare (Q a) (@ret S E A a) Q R.
Proof. intros s r s' HP H. now injection H as <- <-. Qed.

Lemma hoare_bind {A B} (P : S -> Prop) (m : st_exc S E A) (k : A -> st_exc S E B)
      Q' Q R :
  hoare P m Q' R -> (forall a, hoare (Q' a) (k a) Q R) -> hoare P (bind m k) Q R.
Proof.
  intros Hm Hk s r s' HP H.
  destruct (bind_inv m k s r s' H) as [(e & Hs & ->) | (a & s1 & Hs & H1)].
  - exact (Hm _ _ _ HP Hs).
  - exact (Hk a _ _ _ (Hm _ _ _ HP Hs) H1).
Qed.

Lemma hoare_conseq {A} (P P' : S -> Prop) (m : st_exc S E A) (Q Q' : A -> S -> Prop)
      (R R' : S -> Prop) :
  hoare P' m Q' R' -> (forall s, P s -> P' s) -> (forall a s, Q' a s -> Q a s) ->
  (forall s, R' s -> R s) -> hoare P m Q R.
Proof.
  intros Hm HP HQ HR s r s' Hs H. specialize (Hm s r s' (HP s Hs) H).
  destruct r; auto.
Qed.

Lemma hoare_true {A} (m : st_exc S E A) :
  hoare (fun _ => True) m (fun _ _ => True) (fun _ => True).
Proof. intros s r s' _ _. destruct r; exact I. Qed.

(** A raise never returns: any postcondition of a return holds. *)
Lemma hoare_raise {A} (P : S -> Prop) (Q : A -> S -> Prop) e :
  hoare P (@raise S E A e) Q P.
Proof. intros s r s' Hs H. now injection H as <- <-. Qed.

(** A fact known before [m] can be used to prove the triple. *)
Lemma hoare_pre_pure {A} (F : Prop) (P : S -> Prop) (m : st_exc S E A) Q R :
  (F -> hoare P m Q R) -> hoare (fun s => P s /\ F) m Q R.
Proof. intros Hm s r s' [Hs HF] H. exact (Hm HF s r s' Hs H). Qed.

(** A computation that keeps [obs] keeps every property of it. *)
Lemma hoare_frame {A X} (obs : S -> X) (J : X -> Prop) (m : st_exc S E A) :
  frame obs m -> hoare (fun s => J (obs s)) m (fun _ s => J (obs s)) (fun s => J (obs s)).
Proof. intros Hm s r s' Hs H. rewrite (Hm _ _ _ H). destruct r; exact Hs. Qed.
End Hoare.

(** An invariant of a loop over [range(a, a + n)]: if every iteration
    at counter [t] started in [I t] keeps the state invariant [J],
    returning or raising, and ends in [I (t + 1)] when it returns, then
    the whole loop keeps [J] and ends in [I (a + n)] when it returns. *)
Section RangeInvariant.
Context {St E A : Type} (f : A -> Z -> st_exc St E A)
        (I : Z -> A -> Prop) (J : St -> Prop).
Hypothesis step : forall t acc,
  I t acc -> hoare J (f acc t) (fun acc' s => J s /\ I (t + 1)%Z acc') J.

Lemma mfold_py_range_inv n : forall a acc,
  I a acc ->
  hoare J (mfold f (py_range a (a + Z.of_nat n)) acc)
        (fun acc' s => J s /\ I (a + Z.of_nat n)%Z acc') J.
Proof.
  induction n as [|n IH]; intros a acc Ha.
  - unfold py_range. cbn [Z.of_nat]. rewrite Z.add_0_r, Z.sub_diag.
    intros s r s' Hs H. injection H as <- <-. auto.
  - rewrite py_range_cons by lia. cbn [mfold].
    apply (hoare_bind _ _ _ _ _ _ (step a acc Ha)). intros acc1.
    intros s r s' [Hs Ha1] H.
    replace (a + Z.of_nat (S n))%Z with (a + 1 + Z.of_nat n)%Z in * by lia.
    exact (IH (a + 1)%Z acc1 Ha1 s r s' Hs H).
Qed.
End RangeInvariant.

Lemma count_true_app l1 l2 :
  count_true (l1 ++ l2) = (count_true l1 + count_true l2)%nat.
Proof. unfold count_true. now rewrite filter_app, length_app. Qed.

Lemma count_true_le l : (count_true l <= length l)%nat.
Proof.
  unfold count_true. induction l as [|[] l IH]; simpl; lia.
Qed.

#[export] Hint Rewrite count_true_app length_py_range : pym_rw.
#[export] Hint Resolve count_true_le : pym.
