(* ===== verification/PyStr.v ===== *)
(** * Python 2 string operations used by [src/ADC_Test.py]

    The script parses each DUT line with [str.rstrip()], [str.split(",")]
    and [int()], and builds the controller command with [str()] of an
    integer and of a float.  This file models those built-ins on
    [String.string] (byte strings, as in Python 2):
    - [is_space]: the bytes Python 2's [isspace] accepts;
    - [rstrip], [lstrip]: [str.rstrip()], [str.lstrip()];
    - [py_split]: [str.split(sep)] with an explicit one-byte separator;
    - [py_int]: [int(s)] on a byte string, [None] where Python raises
      [ValueError];
    - [str_Z]: [str(n)] of an integer;
    - [dec_literal]: [str(x)] of a float written as a decimal [Dec].
    and proves their round trips: [join] inverts [py_split], [py_int]
    inverts [str_Z] with any surrounding whitespace. *)

From Stdlib Require Import String Ascii List ZArith Lia Bool.
From S2P Require Import Prelude.
Import ListNotations.
Local Open Scope string_scope.

(** ** Whitespace and stripping *)

(** Python 2 [isspace]: space, \t, \n, \v, \f, \r. *)
Definition is_space (c : ascii) : bool :=
  let n := nat_of_ascii c in (n =? 32)%nat || ((9 <=? n)%nat && (n <=? 13)%nat).

(** [s.rstrip()]: drop trailing whitespace. *)
Fixpoint rstrip (s : string) : string :=
  match s with
  | EmptyString => EmptyString
  | String c s' =>
      match rstrip s' with
      | EmptyString => if is_space c then EmptyString else String c EmptyString
      | r => String c r
      end
  end.

(** [s.lstrip()]: drop leading whitespace. *)
Fixpoint lstrip (s : string) : string :=
  match s with
  | EmptyString => EmptyString
  | String c s' => if is_space c then lstrip s' else s
  end.

(** ** [str.split(sep)] and [sep.join(parts)] *)

Fixpoint py_split (sep : ascii) (s : string) : list string :=
  match s with
  | EmptyString => [EmptyString]
  | String c s' =>
      let rest := py_split sep s' in
      if Ascii.eqb c sep then EmptyString :: rest
      else match rest with
           | [] => [String c EmptyString]
           | p :: ps => String c p :: ps
           end
  end.

Fixpoint join (sep : ascii) (parts : list string) : string :=
  match parts with
  | [] => EmptyString
  | [p] => p
  | p :: ps => p ++ String sep (join sep ps)
  end.

(** ** [int(s)] *)

Definition digit_val (c : ascii) : option Z :=
  let n := nat_of_ascii c in
  if (48 <=? n)%nat && (n <=? 57)%nat then Some (Z.of_nat (n - 48)) else None.

Fixpoint digits_val (s : string) (acc : Z) : option Z :=
  match s with
  | EmptyString => Some acc
  | String c s' =>
      match digit_val c with
      | Some d => digits_val s' (acc * 10 + d)%Z
      | None => None
      end
  end.

(** One or more decimal digits. *)
Definition parse_digits (s : string) : option Z :=
  match s with
  | EmptyString => None
  | _ => digits_val s 0
  end.

(** [int(s)] with base 10 ([PyInt_FromString], falling back to
    [PyLong_FromString] on overflow, which reads the same syntax):
    whitespace, an optional sign, whitespace again ([PyOS_strtoul] and
    [PyLong_FromString] skip it after the sign), one or more digits and
    trailing whitespace. *)
Definition py_int (s : string) : option Z :=
  let t := rstrip (lstrip s) in
  match t with
  | String c d =>
      if Ascii.eqb c "-" then option_map Z.opp (parse_digits (lstrip d))
      else if Ascii.eqb c "+" then parse_digits (lstrip d)
      else parse_digits t
  | EmptyString => None
  end.

(** ** [str(n)] of an integer *)

Definition digit_char (d : Z) : ascii := ascii_of_nat (48 + Z.to_nat d).

(** The decimal digits of [n >= 0], least significant first. *)
Fixpoint digits_lsb (fuel : nat) (n : Z) : list Z :=
  match fuel with
  | O => []
  | S f => if (n <? 10)%Z then [n] else (n mod 10)%Z :: digits_lsb f (n / 10)
  end.

(** [Z.log2 n + 1] binary digits bound the decimal digits of [n]. *)
Definition str_nat (n : Z) : string :=
  string_of_list_ascii
    (map digit_char (rev (digits_lsb (S (Z.to_nat (Z.log2 n))) n))).

Definition str_Z (z : Z) : string :=
  if (z <? 0)%Z then String "-" (str_nat (- z)) else str_nat z.

(** ** Floats written as decimals

    [mkDec m e] is the float written [m * 10^-e]. *)

Record Dec := mkDec { dec_mant : Z; dec_exp : nat }.

Fixpoint dec_normalize (fuel : nat) (m : Z) (e : nat) : Z * nat :=
  match fuel, e with
  | S f, S e' => if (m mod 10 =? 0)%Z then dec_normalize f (m / 10) e' else (m, e)
  | _, _ => (m, e)
  end.

Fixpoint zeros (n : nat) : string :=
  match n with
  | O => EmptyString
  | S n' => String "0" (zeros n')
  end.

(** [s] with leading zeros up to [k] characters. *)
Definition zero_pad (k : nat) (s : string) : string := zeros (k - String.length s) ++ s.

(** The shortest plain literal of [x], [d1.d2], with every significant
    digit: the text a command line gives for an amplitude of that value. *)
Definition dec_literal (x : Dec) : string :=
  let '(m, e) := dec_normalize (dec_exp x) (dec_mant x) (dec_exp x) in
  let sign := if (m <? 0)%Z then "-" else EmptyString in
  let a := Z.abs m in
  match e with
  | O => sign ++ str_nat a ++ ".0"
  | S _ =>
      let p := (10 ^ Z.of_nat e)%Z in
      sign ++ str_nat (a / p) ++ "." ++ zero_pad e (str_nat (a mod p))
  end.

(** ** [str(x)] of a float

    Python 2.7's [float_str] is [PyOS_double_to_string(x, 'g', 12,
    Py_DTSF_ADD_DOT_0)], that is [format_float_short]: the digits of [x]
    rounded to 12 significant digits with trailing zeros dropped
    ([_Py_dg_dtoa] in mode 2), and the position [decpt] of the decimal
    point relative to them ([x = 0.D * 10^decpt]).  The exponent form
    [d.ddde+XX] is used when [decpt <= -4] or [decpt > 11] (one less than
    the precision, to leave room for the [.0] of an integral value);
    otherwise the point is placed in the digits, padding with zeros, and
    an integral value gets [.0].  [_Py_dg_dtoa] rounds the binary double;
    here the value is the exact decimal, rounded half to even. *)

(** The number of decimal digits of [n > 0]. *)
Definition num_digits (n : Z) : Z := Z.of_nat (String.length (str_nat n)).

(** [a > 0] rounded to 12 significant digits: [(q, k)] with [q * 10^k]
    the rounded value. *)
Definition round12 (a : Z) : Z * Z :=
  let k := (num_digits a - 12)%Z in
  if (k <=? 0)%Z then (a, 0%Z)
  else
    let p := (10 ^ k)%Z in
    let q := (a / p)%Z in
    let r := (a mod p)%Z in
    if (p <? 2 * r)%Z || ((2 * r =? p)%Z && Z.odd q) then (q + 1, k)%Z else (q, k).

(** Trailing zeros dropped: [q * 10^k] unchanged.  A rounded [q] is at
    most [10^12], so twelve steps drop them all. *)
Fixpoint strip_zeros (fuel : nat) (q k : Z) : Z * Z :=
  match fuel with
  | O => (q, k)
  | S f => if (q mod 10 =? 0)%Z then strip_zeros f (q / 10) (k + 1) else (q, k)
  end.

(** The exponent [e+XX] / [e-XX], at least two digits ([%+.02d]). *)
Definition exp_suffix (X : Z) : string :=
  String "e" ((if (X <? 0)%Z then "-" else "+") ++ zero_pad 2 (str_nat (Z.abs X))).

(** [format_float_short] for the digits [D] and the point position
    [decpt]. *)
Definition fmt_g (D : string) (decpt : Z) : string :=
  let nd := Z.of_nat (String.length D) in
  if (decpt <=? -4)%Z || (11 <? decpt)%Z then
    match D with
    | String c EmptyString => String c (exp_suffix (decpt - 1))
    | String c rest => String c (String "." rest ++ exp_suffix (decpt - 1))
    | EmptyString => EmptyString
    end
  else if (decpt <=? 0)%Z then "0." ++ zeros (Z.to_nat (- decpt)) ++ D
  else if (decpt <? nd)%Z then
    substring 0 (Z.to_nat decpt) D ++ "." ++ substring (Z.to_nat decpt) (String.length D) D
  else D ++ zeros (Z.to_nat (decpt - nd)) ++ ".0".

(** [str(x)]. *)
Definition py_str_float (x : Dec) : string :=
  let m := dec_mant x in
  if (m =? 0)%Z then "0.0"
  else
    let '(q, k) := round12 (Z.abs m) in
    let '(s, k') := strip_zeros 12 q k in
    let D := str_nat s in
    (if (m <? 0)%Z then "-" else EmptyString)
      ++ fmt_g D (Z.of_nat (String.length D) + k' - Z.of_nat (dec_exp x)).

(** ** Predicates on strings, as boolean tests *)

Definition all_chars (p : ascii -> bool) (s : string) : bool :=
  forallb p (list_ascii_of_string s).

Definition sep_free (sep : ascii) (s : string) : bool :=
  all_chars (fun c => negb (Ascii.eqb c sep)) s.

Definition all_space (s : string) : bool := all_chars is_space s.

Definition digit_range (d : Z) : Prop := (0 <= d < 10)%Z.

(** The characters of [str z]: decimal digits and a leading minus sign. *)
Definition num_char (c : ascii) : bool :=
  let n := nat_of_ascii c in (n =? 45)%nat || ((48 <=? n)%nat && (n <=? 57)%nat).

(** The characters of [str x] for a float: those of an integer and the
    decimal point. *)
Definition float_char (c : ascii) : bool := num_char c || Ascii.eqb c ".".

(** ** Concatenation *)

Lemma append_nil_r (s : string) : s ++ EmptyString = s.
Proof. induction s as [|c s IH]; simpl; [reflexivity | now rewrite IH]. Qed.

Lemma append_assoc_str (a b c : string) : (a ++ b) ++ c = a ++ (b ++ c).
Proof. induction a as [|x a IH]; simpl; [reflexivity | now rewrite IH]. Qed.

(** ** [join] inverts [split] *)

Lemma py_split_nonempty sep s : py_split sep s <> [].
Proof.
  destruct s as [|c s]; simpl; [discriminate|].
  destruct (Ascii.eqb c sep); [discriminate|].
  destruct (py_split sep s); discriminate.
Qed.

Lemma join_cons sep p ps : ps <> [] -> join sep (p :: ps) = p ++ String sep (join sep ps).
Proof. destruct ps; [contradiction | reflexivity]. Qed.

Lemma join_py_split sep s : join sep (py_split sep s) = s.
Proof.
  induction s as [|c s IH]; [reflexivity|]. simpl.
  pose proof (py_split_nonempty sep s) as Hne.
  destruct (Ascii.eqb c sep) eqn:E.
  - apply Ascii.eqb_eq in E. subst. rewrite join_cons by exact Hne.
    simpl. now rewrite IH.
  - destruct (py_split sep s) as [|p ps]; [contradiction|].
    destruct ps as [|q qs]; simpl in *; now rewrite IH.
Qed.

(** Splitting a part that holds no separator, then the rest. *)
Lemma py_split_free_app sep p rest :
  sep_free sep p = true ->
  py_split sep (p ++ rest) =
  match py_split sep rest with
  | [] => [p]
  | q :: qs => (p ++ q) :: qs
  end.
Proof.
  induction p as [|c p IH]; intros Hf; simpl.
  - destruct (py_split sep rest) eqn:E; [now apply py_split_nonempty in E | reflexivity].
  - unfold sep_free, all_chars in Hf. simpl in Hf.
    apply andb_true_iff in Hf as [Hc Hf]. apply negb_true_iff in Hc.
    rewrite Hc, IH by exact Hf.
    destruct (py_split sep rest) eqn:E; [now apply py_split_nonempty in E | reflexivity].
Qed.

Lemma py_split_join sep parts :
  parts <> [] -> forallb (sep_free sep) parts = true ->
  py_split sep (join sep parts) = parts.
Proof.
  induction parts as [|p ps IH]; intros Hne Hf; [contradiction|].
  simpl in Hf. apply andb_true_iff in Hf as [Hp Hps].
  destruct ps as [|q qs].
  - simpl. rewrite <- (append_nil_r p).
    rewrite py_split_free_app by exact Hp. reflexivity.
  - rewrite join_cons by discriminate.
    rewrite py_split_free_app by exact Hp. cbn [py_split]. rewrite Ascii.eqb_refl.
    rewrite IH by (discriminate || exact Hps). now rewrite append_nil_r.
Qed.

(** ** [int] inverts [str] *)

Lemma nat_of_digit_char d : digit_range d -> nat_of_ascii (digit_char d) = (48 + Z.to_nat d)%nat.
Proof. intros Hd. unfold digit_char. apply nat_ascii_embedding. unfold digit_range in Hd. lia. Qed.

Lemma digit_val_char d : digit_range d -> digit_val (digit_char d) = Some d.
Proof.
  intros Hd. unfold digit_val. rewrite nat_of_digit_char by exact Hd.
  unfold digit_range in Hd.
  replace ((48 <=? 48 + Z.to_nat d) && (48 + Z.to_nat d <=? 57))%nat with true
    by (symmetry; apply andb_true_iff; split; apply Nat.leb_le; lia).
  f_equal. lia.
Qed.

Lemma digit_char_not d c :
  digit_range d -> (nat_of_ascii c < 48)%nat -> Ascii.eqb (digit_char d) c = false.
Proof.
  intros Hd Hc. apply Ascii.eqb_neq. intros E.
  apply (f_equal nat_of_ascii) in E. rewrite nat_of_digit_char in E by exact Hd. lia.
Qed.

Lemma digit_char_not_space d : digit_range d -> is_space (digit_char d) = false.
Proof.
  intros Hd. unfold is_space. rewrite nat_of_digit_char by exact Hd.
  apply orb_false_iff. split; [apply Nat.eqb_neq; lia|].
  apply andb_false_iff. right. apply Nat.leb_gt. lia.
Qed.

Lemma digits_val_map ds acc :
  Forall digit_range ds ->
  digits_val (string_of_list_ascii (map digit_char ds)) acc
  = Some (fold_left (fun a d => a * 10 + d)%Z ds acc).
Proof.
  revert acc. induction ds as [|d ds IH]; intros acc Hds; [reflexivity|].
  inversion Hds as [|? ? Hd Hrest]; subst.
  cbn [map string_of_list_ascii digits_val].
  rewrite digit_val_char by exact Hd. apply IH, Hrest.
Qed.

Lemma digits_lsb_S f n :
  digits_lsb (S f) n
  = if (n <? 10)%Z then [n] else (n mod 10)%Z :: digits_lsb f (n / 10).
Proof. reflexivity. Qed.

Lemma digits_lsb_spec f n :
  (0 <= n < 2 ^ Z.of_nat (S f))%Z ->
  digits_lsb (S f) n <> [] /\ Forall digit_range (digits_lsb (S f) n) /\
  fold_left (fun a d => a * 10 + d)%Z (rev (digits_lsb (S f) n)) 0%Z = n.
Proof.
  revert n. induction f as [|f IH]; intros n Hn; rewrite digits_lsb_S.
  - simpl in Hn. destruct (Z.ltb_spec n 10); [|lia].
    repeat split; [discriminate | repeat constructor; unfold digit_range; lia].
  - destruct (Z.ltb_spec n 10) as [Hlt|Hge].
    + repeat split; [discriminate | repeat constructor; unfold digit_range; lia].
    + assert (Hq : (0 <= n / 10 < 2 ^ Z.of_nat (S f))%Z).
      { assert (E : (2 ^ Z.of_nat (S (S f)) = 2 * 2 ^ Z.of_nat (S f))%Z)
          by (rewrite (Nat2Z.inj_succ (S f)), Z.pow_succ_r; lia).
        assert (Hp : (0 < 2 ^ Z.of_nat (S f))%Z) by (apply Z.pow_pos_nonneg; lia).
        split; [apply Z.div_pos; lia|]. apply Z.div_lt_upper_bound; lia. }
      destruct (IH (n / 10)%Z Hq) as (Hne & Hall & Hfold).
      split; [discriminate|]. split.
      * constructor; [unfold digit_range; pose proof (Z.mod_pos_bound n 10); lia | exact Hall].
      * cbn [rev]. rewrite fold_left_app, Hfold. simpl.
        pose proof (Z.div_mod n 10). lia.
Qed.

(** The fuel [str_nat] gives [digits_lsb] bounds [n]. *)
Lemma str_nat_fuel_bound n :
  (0 <= n)%Z -> (0 <= n < 2 ^ Z.of_nat (S (Z.to_nat (Z.log2 n))))%Z.
Proof.
  intros Hn. destruct (Z.eq_dec n 0) as [->|Hnz]; [simpl; lia|].
  destruct (Z.log2_spec n) as [_ H]; [lia|].
  rewrite Nat2Z.inj_succ, Z2Nat.id by apply Z.log2_nonneg. lia.
Qed.

(** The digits [str_nat] prints, most significant first. *)
Lemma str_nat_shape n :
  (0 <= n)%Z ->
  exists d0 ds, str_nat n = String (digit_char d0) (string_of_list_ascii (map digit_char ds))
    /\ Forall digit_range (d0 :: ds)
    /\ fold_left (fun a d => a * 10 + d)%Z (d0 :: ds) 0%Z = n.
Proof.
  intros Hn. unfold str_nat.
  pose proof (str_nat_fuel_bound n Hn) as Hb.
  destruct (digits_lsb_spec _ _ Hb) as (Hne & Hall & Hfold).
  destruct (rev (digits_lsb (S (Z.to_nat (Z.log2 n))) n)) as [|d0 ds] eqn:E.
  - apply (f_equal (@rev Z)) in E. rewrite rev_involutive in E. contradiction.
  - exists d0, ds. split; [reflexivity|]. split; [|exact Hfold].
    apply Forall_rev in Hall. rewrite E in Hall. exact Hall.
Qed.

Lemma parse_digits_str_nat n : (0 <= n)%Z -> parse_digits (str_nat n) = Some n.
Proof.
  intros Hn. destruct (str_nat_shape n Hn) as (d0 & ds & -> & Hall & Hfold).
  unfold parse_digits. rewrite <- Hfold.
  change (String (digit_char d0) (string_of_list_ascii (map digit_char ds)))
    with (string_of_list_ascii (map digit_char (d0 :: ds))).
  apply digits_val_map, Hall.
Qed.

(** ** Stripping around a printed integer *)

Lemma rstrip_all_space ws : all_space ws = true -> rstrip ws = EmptyString.
Proof.
  induction ws as [|c ws IH]; intros H; [reflexivity|].
  unfold all_space, all_chars in H. simpl in H. apply andb_true_iff in H as [Hc Hws].
  simpl. rewrite IH by exact Hws. now rewrite Hc.
Qed.

Lemma rstrip_app_space s ws : all_space ws = true -> rstrip (s ++ ws) = rstrip s.
Proof.
  intros Hws. induction s as [|c s IH]; simpl.
  - now apply rstrip_all_space.
  - now rewrite IH.
Qed.

Lemma rstrip_no_space s :
  all_chars (fun c => negb (is_space c)) s = true -> rstrip s = s.
Proof.
  induction s as [|c s IH]; intros H; [reflexivity|].
  unfold all_chars in H. simpl in H. apply andb_true_iff in H as [Hc Hs].
  simpl. rewrite IH by exact Hs. apply negb_true_iff in Hc.
  destruct s; [now rewrite Hc | reflexivity].
Qed.

Lemma digits_no_space ds :
  Forall digit_range ds ->
  all_chars (fun c => negb (is_space c)) (string_of_list_ascii (map digit_char ds)) = true.
Proof.
  induction ds as [|d ds IH]; intros H; [reflexivity|].
  inversion H as [|? ? Hd Hrest]; subst.
  unfold all_chars. cbn [map string_of_list_ascii list_ascii_of_string forallb].
  rewrite digit_char_not_space by exact Hd. apply IH, Hrest.
Qed.

Lemma lstrip_str_nat n : (0 <= n)%Z -> lstrip (str_nat n) = str_nat n.
Proof.
  intros Hn. destruct (str_nat_shape _ Hn) as (d0 & ds & Hs & Hall & _).
  inversion Hall; subst. rewrite Hs. cbn [lstrip]. now rewrite digit_char_not_space.
Qed.

(** [int(str(n) + ws) = n] for any trailing whitespace [ws]: the DUT's
    numbers come back whatever line terminator follows them. *)
Lemma py_int_str_Z_ws z ws : all_space ws = true -> py_int (str_Z z ++ ws) = Some z.
Proof.
  intros Hws. unfold py_int, str_Z.
  assert (Hn : (0 <= (if (z <? 0)%Z then - z else z))%Z) by (destruct (Z.ltb_spec z 0); lia).
  destruct (str_nat_shape _ Hn) as (d0 & ds & Hs & Hall & Hfold).
  inversion Hall as [|? ? Hd0 Hds]; subst.
  assert (Hns : all_chars (fun c => negb (is_space c)) (str_nat (if (z <? 0)%Z then - z else z)) = true).
  { rewrite Hs. apply (digits_no_space (d0 :: ds) Hall). }
  destruct (Z.ltb_spec z 0) as [Hlt|Hge].
  - cbn [append lstrip]. replace (is_space "-") with false by reflexivity.
    change (String "-" (str_nat (- z) ++ ws)) with ((String "-" (str_nat (- z))) ++ ws).
    rewrite rstrip_app_space by exact Hws.
    rewrite rstrip_no_space by exact Hns. cbn [Ascii.eqb].
    replace (Ascii.eqb "-" "-") with true by reflexivity.
    rewrite lstrip_str_nat, parse_digits_str_nat by lia. simpl. f_equal. lia.
  - rewrite Hs. cbn [append lstrip]. rewrite digit_char_not_space by exact Hd0.
    change (String (digit_char d0) (string_of_list_ascii (map digit_char ds) ++ ws))
      with (String (digit_char d0) (string_of_list_ascii (map digit_char ds)) ++ ws).
    rewrite <- Hs, rstrip_app_space, rstrip_no_space by assumption. rewrite Hs.
    rewrite !digit_char_not by (exact Hd0 || (apply Nat.ltb_lt; reflexivity)).
    rewrite <- Hs. apply parse_digits_str_nat. exact Hn.
Qed.

(** ** What a printed integer is made of *)

Lemma all_chars_cons p c s : all_chars p (String c s) = p c && all_chars p s.
Proof. reflexivity. Qed.

Lemma all_chars_app p a b : all_chars p (a ++ b) = all_chars p a && all_chars p b.
Proof. induction a as [|c a IH]; simpl; [reflexivity|]. unfold all_chars in *. simpl. now rewrite IH, andb_assoc. Qed.

Lemma all_chars_impl (p q : ascii -> bool) s :
  (forall c, p c = true -> q c = true) -> all_chars p s = true -> all_chars q s = true.
Proof.
  intros Hpq. induction s as [|c s IH]; [reflexivity|]. unfold all_chars in *. simpl.
  rewrite !andb_true_iff. intros [Hc Hs]. split; [apply Hpq, Hc | apply IH, Hs].
Qed.

Lemma digits_num_chars ds :
  Forall digit_range ds -> all_chars num_char (string_of_list_ascii (map digit_char ds)) = true.
Proof.
  induction ds as [|d ds IH]; intros H; [reflexivity|].
  inversion H as [|? ? Hd Hrest]; subst.
  unfold all_chars. cbn [map string_of_list_ascii list_ascii_of_string forallb].
  unfold num_char at 1. rewrite nat_of_digit_char by exact Hd. unfold digit_range in Hd.
  replace ((48 <=? 48 + Z.to_nat d) && (48 + Z.to_nat d <=? 57))%nat with true
    by (symmetry; apply andb_true_iff; split; apply Nat.leb_le; lia).
  rewrite orb_true_r. apply IH, Hrest.
Qed.

Lemma str_nat_chars n :
  (0 <= n)%Z -> exists c s, str_nat n = String c s /\ all_chars num_char (String c s) = true.
Proof.
  intros Hn. destruct (str_nat_shape n Hn) as (d0 & ds & Hs & Hall & _).
  rewrite Hs. do 2 eexists. split; [reflexivity|].
  change (String (digit_char d0) (string_of_list_ascii (map digit_char ds)))
    with (string_of_list_ascii (map digit_char (d0 :: ds))).
  apply digits_num_chars, Hall.
Qed.

Lemma str_Z_shape z :
  exists c s, str_Z z = String c s /\ all_chars num_char (String c s) = true.
Proof.
  pose proof str_nat_chars as Hn.
  unfold str_Z. destruct (Z.ltb_spec z 0) as [Hlt|Hge].
  - destruct (Hn (- z)%Z ltac:(lia)) as (c & s & Hs & Hall).
    do 2 eexists. split; [reflexivity|].
    change (String "-" (str_nat (- z))) with (String "-" EmptyString ++ str_nat (- z)).
    rewrite all_chars_app, Hs, Hall. reflexivity.
  - apply Hn. exact Hge.
Qed.

Lemma num_char_not_space c : num_char c = true -> negb (is_space c) = true.
Proof.
  unfold num_char, is_space. intros H. apply negb_true_iff.
  apply orb_true_iff in H as [H|H].
  - apply Nat.eqb_eq in H. rewrite H. reflexivity.
  - apply andb_true_iff in H as [H1 H2]. apply Nat.leb_le in H1, H2.
    apply orb_false_iff. split; [apply Nat.eqb_neq; lia|].
    apply andb_false_iff. right. apply Nat.leb_gt. lia.
Qed.

Lemma num_char_not_comma c : num_char c = true -> negb (Ascii.eqb c ",") = true.
Proof.
  unfold num_char. intros H. apply negb_true_iff, Ascii.eqb_neq. intros ->.
  discriminate H.
Qed.

Lemma space_not_comma c : is_space c = true -> negb (Ascii.eqb c ",") = true.
Proof.
  unfold is_space. intros H. apply negb_true_iff, Ascii.eqb_neq. intros ->.
  discriminate H.
Qed.

Lemma str_Z_sep_free z : sep_free "," (str_Z z) = true.
Proof.
  destruct (str_Z_shape z) as (c & s & -> & H).
  exact (all_chars_impl _ _ _ num_char_not_comma H).
Qed.

Lemma space_sep_free ws : all_space ws = true -> sep_free "," ws = true.
Proof. apply all_chars_impl, space_not_comma. Qed.

Lemma sep_free_app sep a b : sep_free sep (a ++ b) = sep_free sep a && sep_free sep b.
Proof. apply all_chars_app. Qed.

(** [rstrip] stops at the last non-space character. *)
Lemma rstrip_app_keep a b : rstrip b <> EmptyString -> rstrip (a ++ b) = a ++ rstrip b.
Proof.
  intros Hb. induction a as [|c a IH]; [reflexivity|]. simpl. rewrite IH.
  destruct (a ++ rstrip b) eqn:E; [|reflexivity].
  destruct a; simpl in E; [contradiction | discriminate].
Qed.

Lemma rstrip_str_Z z : rstrip (str_Z z) = str_Z z.
Proof.
  destruct (str_Z_shape z) as (c & s & Hs & H). rewrite Hs.
  apply rstrip_no_space, (all_chars_impl _ _ _ num_char_not_space H).
Qed.

Lemma str_Z_nonempty z : str_Z z <> EmptyString.
Proof. destruct (str_Z_shape z) as (c & s & -> & _). discriminate. Qed.

Corollary py_int_str_Z_plain z : py_int (str_Z z) = Some z.
Proof. rewrite <- (append_nil_r (str_Z z)). now apply py_int_str_Z_ws. Qed.

#[export] Hint Rewrite py_int_str_Z_plain rstrip_str_Z str_Z_sep_free : pym_rw.

(** ** What a printed float is made of *)

Lemma num_float_char c : num_char c = true -> float_char c = true.
Proof. unfold float_char. intros ->. reflexivity. Qed.

Lemma str_nat_float_chars n : (0 <= n)%Z -> all_chars float_char (str_nat n) = true.
Proof.
  intros Hn. destruct (str_nat_chars n Hn) as (c & s & -> & H).
  exact (all_chars_impl _ _ _ num_float_char H).
Qed.

Lemma zero_pad_chars p k s :
  p "0"%char = true -> all_chars p s = true -> all_chars p (zero_pad k s) = true.
Proof.
  intros H0 Hs. unfold zero_pad. rewrite all_chars_app, Hs, andb_true_r.
  induction (k - String.length s)%nat as [|n IH]; [reflexivity|].
  unfold all_chars in *. simpl. now rewrite H0, IH.
Qed.

Lemma dec_literal_chars x : all_chars float_char (dec_literal x) = true.
Proof.
  unfold dec_literal. destruct (dec_normalize _ _ _) as [m e].
  assert (Hsign : all_chars float_char (if (m <? 0)%Z then "-" else EmptyString) = true)
    by (destruct (m <? 0)%Z; reflexivity).
  pose proof (Z.abs_nonneg m) as Ha.
  destruct e as [|e].
  - rewrite !all_chars_app, Hsign, str_nat_float_chars by exact Ha. reflexivity.
  - assert (Hp : (0 < 10 ^ Z.of_nat (S e))%Z) by (apply Z.pow_pos_nonneg; lia).
    rewrite !all_chars_app, Hsign, str_nat_float_chars by (apply Z.div_pos; lia).
    rewrite zero_pad_chars; [reflexivity..|].
    apply str_nat_float_chars, Z.mod_pos_bound, Hp.
Qed.

Lemma float_char_not_comma c : float_char c = true -> negb (Ascii.eqb c ",") = true.
Proof.
  unfold float_char. intros H. apply orb_true_iff in H as [H|H].
  - exact (num_char_not_comma c H).
  - apply Ascii.eqb_eq in H. now subst.
Qed.

Lemma float_char_not_space c : float_char c = true -> negb (is_space c) = true.
Proof.
  unfold float_char. intros H. apply orb_true_iff in H as [H|H].
  - exact (num_char_not_space c H).
  - apply Ascii.eqb_eq in H. now subst.
Qed.

Lemma dec_literal_sep_free x : sep_free "," (dec_literal x) = true.
Proof. exact (all_chars_impl _ _ _ float_char_not_comma (dec_literal_chars x)). Qed.

Lemma sep_free_cons sep c s : sep_free sep (String c s) = negb (Ascii.eqb c sep) && sep_free sep s.
Proof. reflexivity. Qed.

Lemma all_chars_zeros p n : p "0"%char = true -> all_chars p (zeros n) = true.
Proof. intros H0. induction n as [|n IH]; [reflexivity|]. cbn [zeros]. now rewrite all_chars_cons, H0, IH. Qed.

Lemma all_chars_substring p s n k :
  all_chars p s = true -> all_chars p (substring n k s) = true.
Proof.
  revert n k. induction s as [|c s IH]; intros n k H; destruct n as [|n], k as [|k]; try reflexivity;
    rewrite all_chars_cons in H; apply andb_true_iff in H as [Hc H]; cbn [substring];
    first [rewrite all_chars_cons, Hc; apply IH, H | apply IH, H].
Qed.

Lemma round12_nonneg a : (0 <= a)%Z -> (0 <= fst (round12 a))%Z.
Proof.
  intros Ha. unfold round12. cbv zeta. destruct (Z.leb_spec (num_digits a - 12) 0); [exact Ha|].
  assert (0 <= a / 10 ^ (num_digits a - 12))%Z by (apply Z.div_pos; [lia | apply Z.pow_pos_nonneg; lia]).
  destruct (_ || _); cbn [fst]; lia.
Qed.

Lemma strip_zeros_nonneg f q k : (0 <= q)%Z -> (0 <= fst (strip_zeros f q k))%Z.
Proof.
  revert q k. induction f as [|f IH]; intros q k Hq; [exact Hq|]. cbn [strip_zeros].
  destruct (_ =? 0)%Z; [apply IH, Z.div_pos; lia | exact Hq].
Qed.

Section FloatChars.
(** A class of characters holding those of a printed float: the digits,
    the signs, the point and the exponent mark. *)
Context (p : ascii -> bool).
Hypothesis p_num : forall c, num_char c = true -> p c = true.
Hypothesis p_point : p "." = true.
Hypothesis p_e : p "e" = true.
Hypothesis p_plus : p "+" = true.

Lemma p_str_nat n : (0 <= n)%Z -> all_chars p (str_nat n) = true.
Proof. intros Hn. destruct (str_nat_chars n Hn) as (c & s & -> & H). exact (all_chars_impl _ _ _ p_num H). Qed.

Lemma p_zero : p "0" = true.
Proof. apply p_num. reflexivity. Qed.

Lemma fmt_g_chars D dp : all_chars p D = true -> all_chars p (fmt_g D dp) = true.
Proof.
  intros HD. pose proof p_zero as H0.
  assert (He : forall X, all_chars p (exp_suffix X) = true).
  { intros X. unfold exp_suffix, zero_pad.
    rewrite all_chars_cons, !all_chars_app, all_chars_zeros, p_str_nat, p_e by (lia || exact H0).
    destruct (X <? 0)%Z; rewrite all_chars_cons; [rewrite p_num by reflexivity | rewrite p_plus]; reflexivity. }
  unfold fmt_g. destruct (_ || _).
  - destruct D as [|c [|c' r]]; [reflexivity| |];
      rewrite all_chars_cons in HD; apply andb_true_iff in HD as [Hc HD];
      rewrite all_chars_cons, Hc; cbn [andb]; [apply He|].
    rewrite all_chars_app, He, all_chars_cons, HD, p_point. reflexivity.
  - repeat match goal with |- context [if ?b then _ else _] => destruct b end;
      rewrite ?all_chars_app, ?all_chars_zeros, ?HD, ?all_chars_substring, ?all_chars_cons by assumption;
      rewrite ?H0, ?p_point; reflexivity.
Qed.

Lemma py_str_float_chars x : all_chars p (py_str_float x) = true.
Proof.
  unfold py_str_float. destruct (dec_mant x =? 0)%Z.
  { change "0.0" with (String "0" (String "." (String "0" EmptyString))).
    rewrite !all_chars_cons, p_zero, p_point. reflexivity. }
  pose proof (round12_nonneg (Z.abs (dec_mant x)) (Z.abs_nonneg _)) as Hq.
  destruct (round12 _) as [q k]. cbn [fst] in Hq.
  pose proof (strip_zeros_nonneg 12 q k Hq) as Hs. destruct (strip_zeros 12 q k) as [s k'].
  cbn [fst] in Hs. rewrite all_chars_app, fmt_g_chars by (apply p_str_nat, Hs).
  destruct (_ <? 0)%Z; [|reflexivity]. rewrite all_chars_cons, p_num by reflexivity. reflexivity.
Qed.
End FloatChars.

(** [str(x)] holds no comma and no whitespace. *)
Lemma py_str_float_sep_free x : sep_free "," (py_str_float x) = true.
Proof. apply py_str_float_chars; [exact num_char_not_comma | reflexivity..]. Qed.

Lemma py_str_float_no_space x : all_chars (fun c => negb (is_space c)) (py_str_float x) = true.
Proof. apply py_str_float_chars; [exact num_char_not_space | reflexivity..]. Qed.

(** ** The last field of a joined line *)

Lemma join_snoc_nonempty sep ps p : p <> EmptyString -> join sep (ps ++ [p]) <> EmptyString.
Proof.
  intros Hp. induction ps as [|a ps IH]; [exact Hp|].
  rewrite <- app_comm_cons, join_cons by (destruct ps; discriminate).
  destruct a; [discriminate | discriminate].
Qed.

(** Text appended to a joined line lands in its last field. *)
Lemma join_last_app sep ps p t : join sep (ps ++ [p]) ++ t = join sep (ps ++ [p ++ t]).
Proof.
  induction ps as [|a ps IH]; [reflexivity|].
  rewrite <- !app_comm_cons, !join_cons by (destruct ps; discriminate).
  rewrite append_assoc_str. simpl. now rewrite IH.
Qed.

Lemma rstrip_join_last sep ps p :
  rstrip p = p -> p <> EmptyString -> rstrip (join sep (ps ++ [p])) = join sep (ps ++ [p]).
Proof.
  intros Hr Hp. induction ps as [|a ps IH]; [exact Hr|].
  rewrite <- app_comm_cons, join_cons by (destruct ps; discriminate).
  change (String sep (join sep (ps ++ [p]))) with (String sep EmptyString ++ join sep (ps ++ [p])).
  rewrite (rstrip_app_keep a), (rstrip_app_keep (String sep EmptyString)), IH; try reflexivity.
  - rewrite IH. apply join_snoc_nonempty, Hp.
  - rewrite rstrip_app_keep, IH; [discriminate|]. rewrite IH. apply join_snoc_nonempty, Hp.
Qed.
