(* ===== verification/Digits.v ===== *)
(** * Decimal digits: a well-founded reference for [str] of an integer

    [PyStr.str_nat] computes the digits of [n] with [digits_lsb], a
    recursion on fuel ([S (log2 n)] units).  This file defines the
    digits by well-founded recursion on [n] itself ([digits_ref], with
    Equations) and proves what the parsers of [ArgParse] and [Floats]
    need of printed numbers: the fuel suffices ([digits_lsb_ref]), the
    length of [str_nat n] ([str_nat_length]), its leading digit and its
    characters ([str_nat_lead], [canonical_str_nat]). *)

From Equations Require Import Equations.
From Stdlib Require Import String Ascii List ZArith Lia Bool.
From S2P Require Import Prelude PyStr.
Import ListNotations.

(** The digits of [n >= 0], least significant first. *)
Equations? digits_ref (n : Z) : list Z by wf (Z.to_nat n) lt :=
  digits_ref n with Z_lt_dec n 10 => {
    | left _ := [n];
    | right _ := (n mod 10)%Z :: digits_ref (n / 10) }.
Proof.
  assert (0 <= n / 10 < n)%Z by (split; [apply Z.div_pos | apply Z.div_lt]; lia).
  lia.
Qed.

(** The reference printer. *)
Definition str_ref (n : Z) : string :=
  string_of_list_ascii (map digit_char (rev (digits_ref n))).

Definition is_digit (c : ascii) : bool :=
  (48 <=? nat_of_ascii c)%nat && (nat_of_ascii c <=? 57)%nat.

(** A canonical decimal literal: [0], or digits with no leading zero. *)
Definition canonical_nat (s : string) : bool :=
  match s with
  | EmptyString => false
  | String c rest =>
      is_digit c && all_chars is_digit rest
      && (negb (Ascii.eqb c "0") || String.eqb rest EmptyString)
  end.

(** A canonical Python integer literal: [-] before a non-zero canonical
    decimal, or a canonical decimal. *)
Definition canonical_int (s : string) : bool :=
  match s with
  | String c rest =>
      if Ascii.eqb c "-" then canonical_nat rest && negb (String.eqb rest "0")
      else canonical_nat s
  | EmptyString => false
  end.

(** ** The fuel of [digits_lsb] is enough *)

Lemma digits_ref_small n : (n < 10)%Z -> digits_ref n = [n].
Proof.
  intros H. rewrite digits_ref_equation_1. destruct (Z_lt_dec n 10); [reflexivity | lia].
Qed.

Lemma digits_ref_large n : (10 <= n)%Z -> digits_ref n = (n mod 10)%Z :: digits_ref (n / 10).
Proof.
  intros H. rewrite digits_ref_equation_1 at 1. destruct (Z_lt_dec n 10); [lia | reflexivity].
Qed.

Lemma digits_lsb_ref f n :
  (0 <= n < 2 ^ Z.of_nat (S f))%Z -> digits_lsb (S f) n = digits_ref n.
Proof.
  revert n. induction f as [|f IH]; intros n Hn; rewrite digits_lsb_S.
  - simpl in Hn. destruct (Z.ltb_spec n 10); [|lia]. now rewrite digits_ref_small.
  - destruct (Z.ltb_spec n 10) as [Hlt|Hge]; [now rewrite digits_ref_small|].
    rewrite digits_ref_large by lia. f_equal. apply IH.
    assert (E : (2 ^ Z.of_nat (S (S f)) = 2 * 2 ^ Z.of_nat (S f))%Z)
      by (rewrite (Nat2Z.inj_succ (S f)), Z.pow_succ_r; lia).
    assert (Hp : (0 < 2 ^ Z.of_nat (S f))%Z) by (apply Z.pow_pos_nonneg; lia).
    split; [apply Z.div_pos; lia|]. apply Z.div_lt_upper_bound; lia.
Qed.

Lemma digits_ref_range n : (0 <= n)%Z -> Forall digit_range (digits_ref n).
Proof.
  intros Hn. pose proof (str_nat_fuel_bound n Hn) as Hb.
  rewrite <- (digits_lsb_ref _ _ Hb). apply (digits_lsb_spec _ _ Hb).
Qed.

(** The most significant digit of a positive number is not zero. *)
Lemma digits_ref_last n :
  (1 <= n)%Z -> exists ds d, digits_ref n = ds ++ [d] /\ d <> 0%Z.
Proof.
  remember (Z.to_nat n) as k eqn:Hk. revert n Hk.
  induction k as [k IH] using lt_wf_ind. intros n Hk Hn.
  destruct (Z_lt_dec n 10) as [Hlt|Hge].
  - exists [], n. rewrite digits_ref_small by exact Hlt. split; [reflexivity | lia].
  - assert (Hq : (1 <= n / 10 < n)%Z)
      by (split; [apply Z.div_le_lower_bound | apply Z.div_lt]; lia).
    destruct (IH (Z.to_nat (n / 10)) ltac:(lia) (n / 10)%Z eq_refl ltac:(lia))
      as (ds & d & E & Hd).
    exists ((n mod 10)%Z :: ds), d. rewrite digits_ref_large by lia. now rewrite E.
Qed.

(** A number below [10^k] has at most [k] digits. *)
Lemma digits_ref_length n k :
  (0 <= n < 10 ^ Z.of_nat k)%Z -> (1 <= k)%nat -> (length (digits_ref n) <= k)%nat.
Proof.
  remember (Z.to_nat n) as j eqn:Hj. revert n k Hj.
  induction j as [j IH] using lt_wf_ind. intros n k Hj Hn Hk.
  destruct (Z_lt_dec n 10) as [Hlt|Hge].
  - rewrite digits_ref_small by exact Hlt. cbn. lia.
  - rewrite digits_ref_large by lia. cbn [length].
    destruct k as [|[|k]]; [lia| cbn in Hn; lia |].
    assert (Hq : (0 <= n / 10 < 10 ^ Z.of_nat (S k))%Z).
    { split; [apply Z.div_pos; lia|]. apply Z.div_lt_upper_bound; [lia|].
      rewrite <- Z.pow_succ_r by lia. now rewrite <- Nat2Z.inj_succ. }
    assert (Hlt : (n / 10 < n)%Z) by (apply Z.div_lt; lia).
    pose proof (IH (Z.to_nat (n / 10)) ltac:(lia) (n / 10)%Z (S k) eq_refl Hq ltac:(lia)).
    lia.
Qed.

Lemma length_string_of_list_ascii l : String.length (string_of_list_ascii l) = length l.
Proof. induction l; cbn; auto. Qed.

Lemma str_nat_length n k :
  (0 <= n < 10 ^ Z.of_nat k)%Z -> (1 <= k)%nat -> (String.length (str_nat n) <= k)%nat.
Proof.
  intros Hn Hk. unfold str_nat.
  rewrite digits_lsb_ref by (apply str_nat_fuel_bound; lia).
  rewrite length_string_of_list_ascii, length_map, length_rev.
  now apply digits_ref_length.
Qed.

Lemma is_digit_eqb c d : is_digit c = true -> is_digit d = false -> Ascii.eqb d c = false.
Proof. intros Hc Hd. destruct (Ascii.eqb_spec d c); [subst; congruence | reflexivity]. Qed.

(** Rewrite every comparison of the digit [c] with a literal to [false]. *)
Ltac digit_neq Hc :=
  let c := match type of Hc with is_digit ?c = true => c end in
  repeat match goal with
  | |- context [Ascii.eqb c ?d] => rewrite (Ascii.eqb_sym c d)
  | |- context [Ascii.eqb ?d c] => rewrite (is_digit_eqb c d Hc) by reflexivity
  end.

Lemma digit_char_is_digit d : digit_range d -> is_digit (digit_char d) = true.
Proof.
  intros Hd. unfold is_digit. rewrite nat_of_digit_char by exact Hd.
  unfold digit_range in Hd. apply andb_true_iff; split; apply Nat.leb_le; lia.
Qed.

Lemma digit_char_zero d : digit_range d -> Ascii.eqb (digit_char d) "0" = Z.eqb d 0.
Proof.
  intros Hd. destruct (Z.eqb_spec d 0) as [->|Hne]; [reflexivity|].
  apply Ascii.eqb_neq. intros E. apply (f_equal nat_of_ascii) in E.
  rewrite nat_of_digit_char in E by exact Hd. cbn in E. unfold digit_range in Hd. lia.
Qed.

Lemma digits_all_digit ds :
  Forall digit_range ds -> all_chars is_digit (string_of_list_ascii (map digit_char ds)) = true.
Proof.
  induction ds as [|d ds IH]; intros H; [reflexivity|].
  inversion H as [|? ? Hd Hrest]; subst.
  unfold all_chars. cbn [map string_of_list_ascii list_ascii_of_string forallb].
  rewrite digit_char_is_digit by exact Hd. apply IH, Hrest.
Qed.

(** What [str_nat] prints: a first digit, zero only for [0], then digits. *)
Lemma str_nat_lead n :
  (0 <= n)%Z ->
  exists d ds, str_nat n = String (digit_char d) (string_of_list_ascii (map digit_char ds))
    /\ Forall digit_range (d :: ds) /\ (d = 0%Z -> n = 0%Z /\ ds = []).
Proof.
  intros Hn. unfold str_nat. rewrite digits_lsb_ref by (apply str_nat_fuel_bound, Hn).
  pose proof (digits_ref_range n Hn) as Hall.
  destruct (Z.eq_dec n 0) as [->|Hnz].
  - exists 0%Z, []. rewrite digits_ref_small by lia.
    split; [reflexivity|]. split; [|auto].
    repeat constructor; unfold digit_range; lia.
  - destruct (digits_ref_last n ltac:(lia)) as (ds & d & E & Hd).
    rewrite E in *. rewrite rev_app_distr. cbn [rev app map string_of_list_ascii].
    exists d, (rev ds). split; [reflexivity|]. split; [|intros; contradiction].
    apply Forall_app in Hall as [Hds Hd']. inversion Hd'; subst.
    constructor; [assumption | now apply Forall_rev].
Qed.

Lemma canonical_str_nat n : (0 <= n)%Z -> canonical_nat (str_nat n) = true.
Proof.
  intros Hn. destruct (str_nat_lead n Hn) as (d & ds & -> & Hall & Hz).
  inversion Hall as [|? ? Hd Hds]; subst. cbn [canonical_nat].
  rewrite digit_char_is_digit, digits_all_digit, digit_char_zero by assumption.
  destruct (Z.eqb_spec d 0) as [E|E]; [|reflexivity].
  destruct (Hz E) as [_ ->]. reflexivity.
Qed.
