(* ===== verification/Args.v ===== *)
(** * InputParse: the parsed command line and the methods that read it

    [InputParse.GetInput] parses six positional arguments and the options
    [-i/--interval] and [-m/--maxtest] with [argparse] and returns the
    positional ones; the namespace [args] stays global, and
    [SamplingTest.CheckInterval], [CheckMaxTests] and [CalculateMean]
    read its two options.  [Args] is the result of V1.0's parse, an absent
    option being [None]; the parse itself is modelled for the draft's
    configuration in files [ArgParse] and [Cli].

    Both versions of the script read [args.interval] and [args.maxtest]
    with the same code (V1.0: lines 383-408 of [src/ADC_Test.py]; V0.2:
    lines 325-340 of [src/ADC_Test_V0_2.py]) but parse the positional
    arguments differently (V1.0 reads the amplitude as a float, V0.2 as a
    string).  The class [ParsedArgs] is what those methods need of the
    namespace, and each version's record is an instance of it. *)

From Stdlib Require Import String ZArith QArith Lia.
From S2P Require Import Prelude PyStr.

(** What [SamplingTest]'s methods read of the global [args]. *)
Class ParsedArgs (T : Type) := {
  interval_arg : T -> option Z;   (** [args.interval] *)
  maxtest_arg : T -> option Z     (** [args.maxtest] *)
}.

(** The namespace of V1.0 (lines 82-91 of [src/ADC_Test.py]). *)
Record Args := mkArgs {
  dutCOM : string;
  dutBaud : Z;
  uCOM : string;
  uBaud : Z;
  Amplitude : Dec;
  Frequency : Z;
  interval : option Z;
  maxtest : option Z
}.

#[export] Instance Args_parsed : ParsedArgs Args :=
  {| interval_arg := interval; maxtest_arg := maxtest |}.

(** [float(Amplitude)] as an exact rational. *)
Definition float_value (d : Dec) : Q :=
  inject_Z (dec_mant d) / inject_Z (10 ^ Z.of_nat (dec_exp d)).

(** [return args.dutCOM, args.dutBaud, args.uCOM, args.uBaud,
    args.Amplitude, args.Frequency] *)
Definition GetInput (args : Args) : string * Z * string * Z * Dec * Z :=
  (dutCOM args, dutBaud args, uCOM args, uBaud args, Amplitude args, Frequency args).

Section Checks.
Context {T : Type} `{ParsedArgs T}.

(** [if args.interval > 0: .. else: 1]: under Python 2, [None > 0] is
    [False]. *)
Definition CheckInterval (args : T) : Z :=
  match interval_arg args with
  | Some i => if (0 <? i)%Z then i else 1
  | None => 1
  end.

(** V1.0 lines 383-389: a second copy of [CheckInterval], never called. *)
Definition CalculateMean (args : T) : Z :=
  match interval_arg args with
  | Some i => if (0 <? i)%Z then i else 1
  | None => 1
  end.

Definition CheckMaxTests (args : T) : Z :=
  match maxtest_arg args with
  | Some m => if (0 <? m)%Z then m else 20
  | None => 20
  end.
End Checks.

(** ** Lemmas, for any namespace *)

Section ChecksLemmas.
Context {T : Type} `{ParsedArgs T}.

Lemma CheckMaxTests_pos (args : T) : (1 <= CheckMaxTests args)%Z.
Proof.
  unfold CheckMaxTests. destruct (maxtest_arg args) as [m|]; [|lia].
  destruct (Z.ltb_spec 0 m); lia.
Qed.

Lemma CheckInterval_pos (args : T) : (1 <= CheckInterval args)%Z.
Proof.
  unfold CheckInterval. destruct (interval_arg args) as [i|]; [|lia].
  destruct (Z.ltb_spec 0 i); lia.
Qed.

End ChecksLemmas.

#[export] Hint Resolve CheckMaxTests_pos CheckInterval_pos : pym.
