(* ===== verification/Floats.v ===== *)
(** * [float()] of a string, as Python 2.7 reads it

    V1.0's [GetInput] declares the amplitude with [type=float] (line 86
    of [src/ADC_Test.py]), so [argparse] converts it with [float()]:
    [PyFloat_FromString] strips the surrounding whitespace and the whole
    rest must be read by [PyOS_string_to_double], that is by
    [_Py_dg_strtod] (an optional sign, digits with an optional point, at
    least one digit, an optional exponent [e]/[E] with an optional sign
    and digits) or, when no digit starts it, by [_Py_parse_inf_or_nan]
    ([inf], [infinity], [nan] in any case, after an optional sign).

    Values are kept as the exact decimal the literal writes ([Dec]), not
    rounded to binary; a literal whose value
    reaches [2^1024 - 2^970], which rounds to infinity, is [inf] as in
    Python.  The sign of a [nan] is dropped ([str] prints [nan] for both). *)

From Stdlib Require Import String Ascii List ZArith QArith Qabs Lia Bool.
From S2P Require Import Prelude PyStr Digits Args.
Import ListNotations.
Local Open Scope string_scope.

(** A Python float: a signed decimal, an infinity or [nan]. *)
Inductive PyFloat := FNum (neg : bool) (d : Dec) | FInf (neg : bool) | FNaN.

(** [tolower] of an ASCII letter. *)
Definition lower (c : ascii) : ascii :=
  let n := nat_of_ascii c in
  if (65 <=? n)%nat && (n <=? 90)%nat then ascii_of_nat (n + 32) else c.

Fixpoint lower_str (s : string) : string :=
  match s with
  | EmptyString => EmptyString
  | String c s' => String (lower c) (lower_str s')
  end.

(** [_Py_parse_inf_or_nan] on the part after the sign, which it must
    read to its end. *)
Definition inf_or_nan (neg : bool) (s : string) : option PyFloat :=
  let t := lower_str s in
  if String.eqb t "inf" || String.eqb t "infinity" then Some (FInf neg)
  else if String.eqb t "nan" then Some FNaN
  else None.

(** The longest prefix of decimal digits, and the rest. *)
Fixpoint span_digits (s : string) : string * string :=
  match s with
  | String c s' =>
      if is_digit c then let '(d, r) := span_digits s' in (String c d, r)
      else (EmptyString, s)
  | EmptyString => (EmptyString, EmptyString)
  end.

(** The exponent after [e]: an optional sign and one or more digits. *)
Definition parse_exponent (s : string) : option Z :=
  match s with
  | String c r =>
      if Ascii.eqb c "-" then option_map Z.opp (parse_digits r)
      else if Ascii.eqb c "+" then parse_digits r
      else parse_digits s
  | EmptyString => None
  end.

(** [_Py_dg_strtod] reading a whole unsigned literal: the digits [m] and
    the power of ten [e] of the value [m * 10^e]. *)
Definition parse_decimal (s : string) : option (Z * Z) :=
  let '(d1, r1) := span_digits s in
  let '(d2, r2) :=
    match r1 with
    | String c r => if Ascii.eqb c "." then span_digits r else (EmptyString, r1)
    | EmptyString => (EmptyString, EmptyString)
    end in
  match parse_digits (d1 ++ d2) with
  | None => None
  | Some m =>
      let e := (- Z.of_nat (String.length d2))%Z in
      match r2 with
      | EmptyString => Some (m, e)
      | String c r =>
          if Ascii.eqb c "e" || Ascii.eqb c "E" then
            option_map (fun x => (m, e + x)%Z) (parse_exponent r)
          else None
      end
  end.

(** [m * 10^e] as a [Dec]. *)
Definition dec_of (m e : Z) : Dec :=
  if (0 <=? e)%Z then mkDec (m * 10 ^ e) 0 else mkDec m (Z.to_nat (- e)).

(** The least magnitude that rounds to infinity: halfway between the
    largest double, [2^1024 - 2^971], and [2^1024]. *)
Definition dbl_overflow : Q := inject_Z (2 ^ 1024 - 2 ^ 970).

(** [float(s)]; [None] is the [ValueError]. *)
Definition py_float (s : string) : option PyFloat :=
  let t := rstrip (lstrip s) in
  let '(neg, u) :=
    match t with
    | String c r =>
        if Ascii.eqb c "-" then (true, r)
        else if Ascii.eqb c "+" then (false, r)
        else (false, t)
    | EmptyString => (false, t)
    end in
  match parse_decimal u with
  | Some (m, e) =>
      let d := dec_of m e in
      Some (if Qle_bool dbl_overflow (float_value d) then FInf neg else FNum neg d)
  | None => inf_or_nan neg u
  end.

(** The value of a finite Python float. *)
Definition num_value (neg : bool) (d : Dec) : Q :=
  if neg then - float_value d else float_value d.

(** A word that ends a run of digits: empty, or starting with a non-digit. *)
Definition stops_digits (s : string) : bool :=
  match s with String c _ => negb (is_digit c) | EmptyString => true end.

(** ** Lemmas on digit strings *)

Lemma length_app_str a b : String.length (a ++ b) = (String.length a + String.length b)%nat.
Proof. induction a; cbn; auto. Qed.

Lemma digits_val_shift s acc :
  digits_val s acc
  = option_map (fun v => acc * 10 ^ Z.of_nat (String.length s) + v)%Z (digits_val s 0).
Proof.
  revert acc. induction s as [|c s IH]; intros acc.
  - cbn. f_equal. lia.
  - cbn [digits_val]. destruct (digit_val c) as [d|]; [|reflexivity].
    rewrite (IH (acc * 10 + d)%Z), (IH (0 * 10 + d)%Z).
    destruct (digits_val s 0) as [v|]; [|reflexivity]. cbn [option_map String.length]. f_equal.
    rewrite Nat2Z.inj_succ, Z.pow_succ_r by lia. ring.
Qed.

Lemma digits_val_app s1 s2 acc :
  digits_val (s1 ++ s2) acc = match digits_val s1 acc with Some v => digits_val s2 v | None => None end.
Proof.
  revert acc. induction s1 as [|c s1 IH]; intros acc; [reflexivity|].
  cbn [append digits_val]. destruct (digit_val c); auto.
Qed.

Lemma zero_pad_val k s : digits_val (zero_pad k s) 0 = digits_val s 0.
Proof.
  unfold zero_pad. rewrite digits_val_app.
  induction (k - String.length s)%nat as [|n IH]; [reflexivity|]. exact IH.
Qed.

Lemma zero_pad_length k s : (String.length s <= k)%nat -> String.length (zero_pad k s) = k.
Proof.
  intros H. unfold zero_pad. rewrite length_app_str.
  assert (Hz : forall n, String.length (zeros n) = n) by (induction n; cbn; auto).
  rewrite Hz. lia.
Qed.

Lemma span_digits_app d r :
  all_chars is_digit d = true -> stops_digits r = true -> span_digits (d ++ r) = (d, r).
Proof.
  intros Hd Hr. induction d as [|c d IH].
  - destruct r as [|c r]; [reflexivity|]. cbn in Hr |- *.
    apply negb_true_iff in Hr. now rewrite Hr.
  - rewrite all_chars_cons in Hd. apply andb_true_iff in Hd as [Hc Hd].
    cbn [append span_digits]. rewrite Hc, IH by exact Hd. reflexivity.
Qed.

Lemma str_nat_digits n :
  (0 <= n)%Z -> exists c s, str_nat n = String c s /\ all_chars is_digit (String c s) = true
                          /\ digits_val (str_nat n) 0 = Some n.
Proof.
  intros Hn. destruct (str_nat_lead n Hn) as (d & ds & E & Hall & _).
  pose proof (parse_digits_str_nat n Hn) as Hp. rewrite E in Hp |- *.
  exists (digit_char d), (string_of_list_ascii (map digit_char ds)). split; [reflexivity|].
  split; [|exact Hp]. exact (digits_all_digit (d :: ds) Hall).
Qed.

(** ** Lemmas on values *)

Lemma pow10_pos e : (0 < 10 ^ Z.of_nat e)%Z.
Proof. apply Z.pow_pos_nonneg; lia. Qed.

Lemma pow10_nonzero e : ~ inject_Z (10 ^ Z.of_nat e) == 0.
Proof.
  intros H. unfold Qeq in H. cbn in H. pose proof (pow10_pos e). lia.
Qed.

Lemma float_value_scale m e : float_value (mkDec (10 * m) (S e)) == float_value (mkDec m e).
Proof.
  unfold float_value. cbn [dec_mant dec_exp].
  rewrite Nat2Z.inj_succ, Z.pow_succ_r, !inject_Z_mult by lia.
  pose proof (pow10_nonzero e). field. exact H.
Qed.

Lemma float_value_opp m e : float_value (mkDec (- m) e) == - float_value (mkDec m e).
Proof.
  unfold float_value. cbn [dec_mant dec_exp]. rewrite inject_Z_opp.
  pose proof (pow10_nonzero e). field. exact H.
Qed.

Lemma float_value_nonneg m e : (0 <= m)%Z -> 0 <= float_value (mkDec m e).
Proof.
  intros Hm. unfold float_value. cbn [dec_mant dec_exp]. unfold Qdiv.
  pose proof (pow10_pos e).
  apply Qmult_le_0_compat; [|apply Qinv_le_0_compat];
    [change (inject_Z 0 <= inject_Z m) | change (inject_Z 0 <= inject_Z (10 ^ Z.of_nat e))];
    rewrite <- Zle_Qle; lia.
Qed.

Lemma float_value_pos m e : (0 < m)%Z -> 0 < float_value (mkDec m e).
Proof.
  intros Hm. unfold float_value. cbn [dec_mant dec_exp]. unfold Qdiv.
  pose proof (pow10_pos e).
  apply Qmult_lt_0_compat; [|apply Qinv_lt_0_compat];
    [change (inject_Z 0 < inject_Z m) | change (inject_Z 0 < inject_Z (10 ^ Z.of_nat e))];
    rewrite <- Zlt_Qlt; lia.
Qed.

Lemma float_value_abs m e : Qabs (float_value (mkDec m e)) == float_value (mkDec (Z.abs m) e).
Proof.
  destruct (Z.le_gt_cases 0 m) as [Hm|Hm].
  - rewrite Z.abs_eq by exact Hm. apply Qabs_pos, float_value_nonneg, Hm.
  - rewrite Z.abs_neq by lia. rewrite float_value_opp. apply Qabs_neg.
    pose proof (float_value_nonneg (- m) e ltac:(lia)) as H. rewrite float_value_opp in H.
    apply Qopp_le_compat in H. rewrite Qopp_involutive in H. exact H.
Qed.

Lemma dec_normalize_value f m e m' e' :
  dec_normalize f m e = (m', e') -> float_value (mkDec m' e') == float_value (mkDec m e).
Proof.
  revert m e. induction f as [|f IH]; intros m e H; cbn in H.
  - now injection H as <- <-.
  - destruct e as [|e]; [now injection H as <- <-|].
    destruct (Z.eqb_spec (m mod 10) 0) as [Hz|Hz]; [|now injection H as <- <-].
    rewrite (IH _ _ H), <- (float_value_scale (m / 10) e).
    assert (Em : (10 * (m / 10))%Z = m) by (symmetry; apply Z.div_exact; [lia | exact Hz]).
    now rewrite Em.
Qed.

Lemma digit_not_space c : is_digit c = true -> is_space c = false.
Proof.
  unfold is_digit, is_space. intros H. apply andb_true_iff in H as [H1 H2].
  apply Nat.leb_le in H1, H2.
  destruct (Nat.eqb_spec (nat_of_ascii c) 32); [lia|].
  destruct (Nat.leb_spec 9 (nat_of_ascii c)), (Nat.leb_spec (nat_of_ascii c) 13); cbn; lia.
Qed.

Lemma digits_no_space_str s : all_chars is_digit s = true -> all_chars (fun c => negb (is_space c)) s = true.
Proof.
  apply all_chars_impl. intros c Hc. now rewrite digit_not_space.
Qed.

(** [float()] of a literal [-d1.d2] or [d1.d2] below the overflow bound. *)
Lemma py_float_literal (neg : bool) d1 d2 m :
  all_chars is_digit d1 = true -> d1 <> EmptyString ->
  all_chars is_digit d2 = true -> d2 <> EmptyString ->
  digits_val (d1 ++ d2) 0 = Some m ->
  Qle_bool dbl_overflow (float_value (mkDec m (String.length d2))) = false ->
  py_float ((if neg then "-" else EmptyString) ++ d1 ++ String "." d2)
  = Some (FNum neg (mkDec m (String.length d2))).
Proof.
  intros H1 N1 H2 N2 Hm Ho.
  destruct d1 as [|c d1]; [contradiction|]. destruct d2 as [|c2 d2]; [contradiction|].
  assert (Hc : is_digit c = true) by (rewrite all_chars_cons in H1; now apply andb_true_iff in H1).
  assert (Hns : all_chars (fun c => negb (is_space c))
                  ((if neg then "-" else EmptyString) ++ String c d1 ++ String "." (String c2 d2)) = true).
  { assert (Hb : all_chars (fun c => negb (is_space c)) (String c d1 ++ String "." (String c2 d2)) = true)
      by (rewrite all_chars_app, (digits_no_space_str _ H1), all_chars_cons, (digits_no_space_str _ H2);
          reflexivity).
    destruct neg; [exact Hb | exact Hb]. }
  assert (Hl : lstrip ((if neg then "-" else EmptyString) ++ String c d1 ++ String "." (String c2 d2))
               = (if neg then "-" else EmptyString) ++ String c d1 ++ String "." (String c2 d2))
    by (destruct neg; cbn [append lstrip]; [reflexivity | now rewrite digit_not_space]).
  unfold py_float. rewrite Hl, (rstrip_no_space _ Hns).
  assert (Hp : parse_decimal (String c d1 ++ String "." (String c2 d2))
               = Some (m, (- Z.of_nat (String.length (String c2 d2)))%Z)).
  { unfold parse_decimal. rewrite span_digits_app by (exact H1 || reflexivity).
    cbn [Ascii.eqb Bool.eqb andb].
    rewrite <- (append_nil_r (String c2 d2)), span_digits_app, append_nil_r by (exact H2 || reflexivity).
    cbn [parse_digits append]. change (String c (d1 ++ String c2 d2)) with (String c d1 ++ String c2 d2).
    now rewrite Hm. }
  destruct neg; cbn [append]; [|digit_neq Hc]; cbn -[parse_decimal dec_of float_value Qle_bool dbl_overflow];
    match goal with |- context [parse_decimal ?u] =>
      replace (parse_decimal u) with (Some (m, (- Z.of_nat (String.length (String c2 d2)))%Z))
        by (symmetry; exact Hp) end; unfold dec_of;
    cbn [String.length] in Ho |- *; rewrite ?Nat2Z.inj_succ;
    replace (0 <=? - Z.succ (Z.of_nat (String.length d2)))%Z with false
      by (symmetry; apply Z.leb_gt; lia);
    cbn iota; try replace (Z.to_nat _) with (S (String.length d2)) by lia;
    rewrite Ho; reflexivity.
Qed.

(** [dec_literal] prints [-d1.d2] or [d1.d2], whose digits read back as the
    normalized magnitude. *)
Lemma dec_literal_literal x m e :
  dec_normalize (dec_exp x) (dec_mant x) (dec_exp x) = (m, e) ->
  exists d1 d2 mant,
    dec_literal x = (if (m <? 0)%Z then "-" else EmptyString) ++ d1 ++ String "." d2
    /\ all_chars is_digit d1 = true /\ d1 <> EmptyString
    /\ all_chars is_digit d2 = true /\ d2 <> EmptyString
    /\ digits_val (d1 ++ d2) 0 = Some mant
    /\ float_value (mkDec mant (String.length d2)) == float_value (mkDec (Z.abs m) e).
Proof.
  intros En. unfold dec_literal. rewrite En. pose proof (Z.abs_nonneg m) as Ha.
  destruct e as [|e].
  - destruct (str_nat_digits (Z.abs m) Ha) as (c & s & Es & Hd & Hv).
    exists (str_nat (Z.abs m)), "0", (Z.abs m * 10 + 0)%Z.
    rewrite Es in *. repeat split; try assumption; try discriminate.
    + rewrite digits_val_app, Hv. reflexivity.
    + cbn [String.length]. rewrite Z.add_0_r, Z.mul_comm. apply float_value_scale.
  - set (p := (10 ^ Z.of_nat (S e))%Z).
    assert (Hp : (0 < p)%Z) by apply pow10_pos.
    assert (Hq : (0 <= Z.abs m / p)%Z) by (apply Z.div_pos; lia).
    assert (Hr : (0 <= Z.abs m mod p < p)%Z) by (apply Z.mod_pos_bound, Hp).
    destruct (str_nat_digits _ Hq) as (c & s & Es & Hd & Hv).
    destruct (str_nat_digits _ (proj1 Hr)) as (c' & s' & Es' & Hd' & Hv').
    assert (Hlen : String.length (zero_pad (S e) (str_nat (Z.abs m mod p))) = S e)
      by (apply zero_pad_length, str_nat_length; [exact Hr | lia]).
    exists (str_nat (Z.abs m / p)), (zero_pad (S e) (str_nat (Z.abs m mod p))), (Z.abs m).
    refine (conj eq_refl (conj _ (conj _ (conj _ (conj _ (conj _ _)))))).
    + rewrite Es. exact Hd.
    + rewrite Es. discriminate.
    + apply zero_pad_chars; [reflexivity|]. rewrite Es'. exact Hd'.
    + intros E. apply (f_equal String.length) in E. rewrite Hlen in E. discriminate.
    + rewrite digits_val_app, Hv, digits_val_shift, zero_pad_val, Hv', Hlen. cbn [option_map].
      f_equal. fold p. rewrite Z.mul_comm. symmetry. apply Z.div_mod. lia.
    + rewrite Hlen. reflexivity.
Qed.

(** [float()] of the literal [dec_literal] prints: the same value, with
    a sign only for a negative value.  A command line that writes an
    amplitude this way gives [GetInput] that amplitude ([Cli]). *)
Lemma py_float_dec_literal x :
  Qabs (float_value x) < dbl_overflow ->
  exists neg d, py_float (dec_literal x) = Some (FNum neg d) /\ num_value neg d == float_value x
                /\ (neg = true -> float_value x < 0).
Proof.
  intros Hx. destruct (dec_normalize (dec_exp x) (dec_mant x) (dec_exp x)) as [m e] eqn:En.
  destruct (dec_literal_literal x m e En) as (d1 & d2 & mant & Es & H1 & N1 & H2 & N2 & Hm & Hv).
  assert (Hval : float_value (mkDec m e) == float_value x)
    by (rewrite (dec_normalize_value _ _ _ _ _ En); now destruct x).
  exists (m <? 0)%Z, (mkDec mant (String.length d2)). split.
  - rewrite Es. apply py_float_literal; try assumption.
    destruct (Qle_bool _ _) eqn:E; [|reflexivity]. exfalso.
    apply Qle_bool_iff in E.
    assert (Ha : float_value (mkDec mant (String.length d2)) == Qabs (float_value x))
      by (rewrite Hv, <- float_value_abs; now apply Qabs_wd).
    exact (Qlt_not_le _ _ Hx (Qle_trans _ _ _ E (proj2 (Qle_lteq _ _) (or_intror Ha)))).
  - unfold num_value. destruct (Z.ltb_spec m 0).
    + split; [rewrite Hv, Z.abs_neq, float_value_opp, Qopp_involutive by lia; exact Hval|].
      intros _. rewrite <- Hval, <- (Z.opp_involutive m), float_value_opp.
      pose proof (float_value_pos (- m) e ltac:(lia)) as Hp. apply Qopp_lt_compat in Hp. exact Hp.
    + split; [rewrite Hv, Z.abs_eq by lia; exact Hval | discriminate].
Qed.
