(* ===== verification/Waveform.v ===== *)
(** * WaveformModel: the expected ADC counts, over the real numbers

    A transcription of [SamplingTest.RunTest], lines 181-289 of
    [src/ADC_Test.py]: the calibration constants, the loop that sums the
    DAC samples [fOffsetDC + fAMP * sin (k * 2 pi / iMaxSamples)] for
    [k] in [range(1, iMaxSamples)], the mean, the two samples at the fixed
    indices 75 and 25, and the conversion of each to an ADC count with
    Python's [int()] (truncation toward zero).  Floating point is read as
    exact real arithmetic (see the header of [Prelude]).

    The lemmas show that the sine terms of the loop cancel, so the
    expected mean does not depend on the amplitude, that the samples at 75
    and 25 are [fOffsetDC - fAMP] and [fOffsetDC + fAMP] when
    [iMaxSamples = 100], and that they bound every sample of the period. *)

From Stdlib Require Import Reals Lra QArith Qreals List Lia.
From S2P Require Import Prelude.
Import ListNotations.

(** ** Calibration constants (lines 183-189) and expected values *)

Record DeviceConstants := mkConsts {
  fGain : Q;          (** gain of the DUT ADC *)
  BitRes : Q;         (** bit resolution of the DUT ADC, in mV *)
  fVrefDAC : Q;       (** controller DAC reference voltage, in mV *)
  fOffsetDC : Q;      (** DC offset, as a fraction of the DAC output *)
  iMaxSamples : nat   (** samples per waveform period *)
}.

(** The values [RunTest] assigns, lines 183-189. *)
Definition reference_constants : DeviceConstants :=
  mkConsts (17 # 100) (59 # 100) 3300 (43 # 100) 100.

(** The three counts [RunTest] compares the DUT's readings against. *)
Record Expected := mkExpected {
  iADCmean : Z;
  iADCpeakMin : Z;
  iADCpeakMax : Z
}.

(** ** The model of lines 245-289 *)

Module WaveformR.
Local Open Scope R_scope.

(** Python's [int()] on a float: truncation toward zero. *)
Definition py_int_of_float (x : R) : Z :=
  if Rle_dec 0 x then Int_part x else (- Int_part (- x))%Z.

(** [fDacVal = fAMP*math.sin(iSampleDAC*((2*math.pi)/iMaxSamples)) + fOffsetDC] *)
Definition fDacVal (c : DeviceConstants) (fAMP : R) (iSampleDAC : nat) : R :=
  fAMP * sin (INR iSampleDAC * ((2 * PI) / INR (iMaxSamples c)))
  + Q2R (fOffsetDC c).

(** [for iSampleDAC in range(1, iMaxSamples): fDACValSum += fDacVal] *)
Definition fDACValSum (c : DeviceConstants) (fAMP : R) : R :=
  fold_left (fun acc k => acc + fDacVal c fAMP k)
            (seq 1 (iMaxSamples c - 1)) 0.

(** DAC units to mV ([* fVrefDAC]), to an ADC count ([* fGain / BitRes]),
    then [int()]. *)
Definition to_adc (c : DeviceConstants) (fDac : R) : Z :=
  py_int_of_float (fDac * Q2R (fVrefDAC c) * Q2R (fGain c) / Q2R (BitRes c)).

Definition computeExpected (c : DeviceConstants) (fAMP : R) : Expected :=
  {| iADCmean := to_adc c (fDACValSum c fAMP / INR (iMaxSamples c));
     iADCpeakMin := to_adc c (fDacVal c fAMP 75);
     iADCpeakMax := to_adc c (fDacVal c fAMP 25) |}.

End WaveformR.

(** Positive calibration constants make the count conversion monotone. *)
Definition positive_constants (c : DeviceConstants) : Prop :=
  (0 < Q2R (fVrefDAC c) /\ 0 < Q2R (fGain c) /\ 0 < Q2R (BitRes c))%R.

(** ** Sums of real-valued terms over a list of indices *)

Open Scope R_scope.

Definition Rsum_map (f : nat -> R) (l : list nat) : R :=
  fold_right (fun k acc => f k + acc) 0 l.

Section Rsum.
Implicit Types (f g : nat -> R) (l : list nat).

Lemma fold_left_Rsum f l a :
  fold_left (fun acc k => acc + f k) l a = a + Rsum_map f l.
Proof.
  revert a. induction l as [|k l IH]; intros a; simpl; [lra|].
  rewrite IH. lra.
Qed.

Lemma Rsum_map_ext_in f g l :
  (forall k, In k l -> f k = g k) -> Rsum_map f l = Rsum_map g l.
Proof.
  induction l as [|k l IH]; intros H; simpl; [reflexivity|].
  rewrite H by (left; reflexivity). rewrite IH; [reflexivity|].
  intros j Hj. apply H. right. exact Hj.
Qed.

Lemma Rsum_map_app f l1 l2 :
  Rsum_map f (l1 ++ l2) = Rsum_map f l1 + Rsum_map f l2.
Proof. induction l1 as [|k l IH]; simpl; [lra|]. rewrite IH. lra. Qed.

Lemma Rsum_map_rev f l : Rsum_map f (rev l) = Rsum_map f l.
Proof.
  induction l as [|k l IH]; simpl; [reflexivity|].
  rewrite Rsum_map_app, IH. simpl. lra.
Qed.

Lemma Rsum_map_map f h l : Rsum_map f (map h l) = Rsum_map (fun k => f (h k)) l.
Proof. induction l as [|k l IH]; simpl; [reflexivity|]. now rewrite IH. Qed.

Lemma Rsum_map_affine g a b l :
  Rsum_map (fun k => a * g k + b) l = a * Rsum_map g l + INR (length l) * b.
Proof.
  induction l as [|k l IH]; simpl length; simpl Rsum_map; [simpl; lra|].
  rewrite IH, S_INR. lra.
Qed.
End Rsum.

(** The indices of [range(1, n)], read backwards, are [n - k]. *)
Lemma rev_seq_reflect n :
  rev (seq 1 (n - 1)) = map (fun k => n - k)%nat (seq 1 (n - 1)).
Proof.
  assert (Hgen : forall s m, rev (seq s m) = map (fun k => 2 * s + m - 1 - k)%nat (seq s m)).
  { intros s m. revert s. induction m as [|m IH]; intros s; [reflexivity|].
    replace (rev (seq s (S m))) with (rev (seq s m ++ [s + m]%nat))
      by now rewrite seq_S.
    rewrite rev_app_distr, IH. cbn [rev app seq map].
    rewrite <- seq_shift, map_map.
    f_equal; [lia|]. apply map_ext_in. intros k Hk.
    apply in_seq in Hk. lia. }
  destruct n as [|n]; [reflexivity|].
  rewrite Hgen. apply map_ext_in. intros k Hk. apply in_seq in Hk. lia.
Qed.

(** ** The sine terms of one period cancel *)

Lemma sin_reflect (n k : nat) :
  (k <= n)%nat -> (0 < n)%nat ->
  sin (INR (n - k) * (2 * PI / INR n)) = - sin (INR k * (2 * PI / INR n)).
Proof.
  intros Hk Hn.
  assert (HN : INR n <> 0) by (apply not_0_INR; lia).
  rewrite minus_INR by exact Hk.
  replace ((INR n - INR k) * (2 * PI / INR n))
    with (2 * PI - INR k * (2 * PI / INR n)) by (field; exact HN).
  rewrite sin_minus, sin_2PI, cos_2PI. ring.
Qed.

Lemma sum_sin_period (n : nat) :
  Rsum_map (fun k => sin (INR k * (2 * PI / INR n))) (seq 1 (n - 1)) = 0.
Proof.
  destruct n as [|m]; [reflexivity|].
  set (f := fun k => sin (INR k * (2 * PI / INR (S m)))).
  assert (Hneg : Rsum_map f (seq 1 (S m - 1)) = - Rsum_map f (seq 1 (S m - 1))).
  { rewrite <- Rsum_map_rev at 1. rewrite rev_seq_reflect, Rsum_map_map.
    transitivity (Rsum_map (fun k => -1 * f k + 0) (seq 1 (S m - 1))).
    - apply Rsum_map_ext_in. intros k Hk. apply in_seq in Hk.
      unfold f. rewrite sin_reflect by lia. ring.
    - rewrite Rsum_map_affine. ring. }
  lra.
Qed.

(** ** Truncation toward zero is monotone *)

Lemma Int_part_le_mono x y : x <= y -> (Int_part x <= Int_part y)%Z.
Proof.
  intros Hxy. destruct (base_Int_part x) as [Hx1 Hx2].
  destruct (base_Int_part y) as [Hy1 Hy2].
  assert (H : IZR (Int_part x) < IZR (Int_part y + 1)) by (rewrite plus_IZR; lra).
  apply lt_IZR in H. lia.
Qed.

Lemma Int_part_nonneg x : 0 <= x -> (0 <= Int_part x)%Z.
Proof.
  intros Hx. destruct (base_Int_part x) as [_ H].
  assert (H' : IZR (-1) < IZR (Int_part x)) by lra.
  apply lt_IZR in H'. lia.
Qed.

Lemma py_int_of_float_mono x y :
  x <= y -> (WaveformR.py_int_of_float x <= WaveformR.py_int_of_float y)%Z.
Proof.
  intros Hxy. unfold WaveformR.py_int_of_float.
  destruct (Rle_dec 0 x), (Rle_dec 0 y).
  - now apply Int_part_le_mono.
  - lra.
  - pose proof (Int_part_nonneg y r).
    pose proof (Int_part_nonneg (- x) ltac:(lra)). lia.
  - pose proof (Int_part_le_mono (- y) (- x) ltac:(lra)). lia.
Qed.

Lemma to_adc_mono c x y :
  positive_constants c -> x <= y ->
  (WaveformR.to_adc c x <= WaveformR.to_adc c y)%Z.
Proof.
  intros (Hv & Hg & Hb) Hxy. unfold WaveformR.to_adc.
  apply py_int_of_float_mono. unfold Rdiv.
  apply Rmult_le_compat_r; [left; apply Rinv_0_lt_compat; exact Hb|].
  apply Rmult_le_compat_r; [lra|]. apply Rmult_le_compat_r; lra.
Qed.

(** ** The loop of lines 248-250 in closed form *)

Lemma fDACValSum_closed c fAMP :
  WaveformR.fDACValSum c fAMP = INR (iMaxSamples c - 1) * Q2R (fOffsetDC c).
Proof.
  unfold WaveformR.fDACValSum, WaveformR.fDacVal.
  rewrite fold_left_Rsum, Rplus_0_l.
  rewrite (Rsum_map_affine (fun k => sin (INR k * (2 * PI / INR (iMaxSamples c))))).
  rewrite sum_sin_period, length_seq. ring.
Qed.

(** The samples at the fixed indices 25 and 75 of a 100-sample period. *)
Lemma fDacVal_25 c fAMP :
  iMaxSamples c = 100%nat ->
  WaveformR.fDacVal c fAMP 25 = fAMP + Q2R (fOffsetDC c).
Proof.
  intros HN. unfold WaveformR.fDacVal. rewrite HN.
  replace (INR 25 * (2 * PI / INR 100)) with (PI / 2)
    by (rewrite !INR_IZR_INZ; simpl; field).
  rewrite sin_PI2. ring.
Qed.

Lemma fDacVal_75 c fAMP :
  iMaxSamples c = 100%nat ->
  WaveformR.fDacVal c fAMP 75 = - fAMP + Q2R (fOffsetDC c).
Proof.
  intros HN. unfold WaveformR.fDacVal. rewrite HN.
  replace (INR 75 * (2 * PI / INR 100)) with (3 * (PI / 2))
    by (rewrite !INR_IZR_INZ; simpl; field).
  rewrite sin_3PI2. ring.
Qed.

(** Every sample of the period lies between the samples at 75 and 25. *)
Lemma fDacVal_between c fAMP k :
  iMaxSamples c = 100%nat -> 0 <= fAMP ->
  WaveformR.fDacVal c fAMP 75 <= WaveformR.fDacVal c fAMP k <= WaveformR.fDacVal c fAMP 25.
Proof.
  intros HN Ha. rewrite fDacVal_25, fDacVal_75 by exact HN.
  unfold WaveformR.fDacVal.
  pose proof (SIN_bound (INR k * (2 * PI / INR (iMaxSamples c)))). nra.
Qed.
