(* ===== verification/Expected.v ===== *)
(** * WaveformModel, executable: the expected counts over the rationals

    [WaveformQ.computeExpected] computes the three expected ADC counts of
    [RunTest] (lines 245-289 of [src/ADC_Test.py]) in closed form over [Q],
    so that they evaluate by [vm_compute].  [computeExpected_refines] proves
    it equal to the real-number transcription [WaveformR.computeExpected]
    of [Waveform] for every rational amplitude and every calibration with
    100 samples per period, which is the code's. *)

From Stdlib Require Import Reals Lra QArith Qreals Qround List Lia.
From S2P Require Import Prelude Waveform.

(** The [Amplitudes] and [Frequencies] enumerations, lines 36-42 (the
    script never reads them; they document the intended ranges). *)
Definition Amplitudes_Max : Q := 43 # 100.
Definition Amplitudes_Min : Q := 0.
Definition Frequencies_Max : Z := 110.
Definition Frequencies_Min : Z := 1.

Module WaveformQ.

(** Python's [int()] on a float, on exact rationals. *)
Definition Qtrunc (q : Q) : Z :=
  if Qle_bool 0 q then Qfloor q else (- Qfloor (- q))%Z.

Definition to_adc (c : DeviceConstants) (fDac : Q) : Z :=
  Qtrunc (fDac * fVrefDAC c * fGain c / BitRes c).

(** Mean: the [iMaxSamples - 1] offsets of the loop over [iMaxSamples]
    (the sines cancel); min and max: [fOffsetDC -/+ fAMP]. *)
Definition computeExpected (c : DeviceConstants) (fAMP : Q) : Expected :=
  {| iADCmean := to_adc c (inject_Z (Z.of_nat (iMaxSamples c - 1)) * fOffsetDC c
                           / inject_Z (Z.of_nat (iMaxSamples c)));
     iADCpeakMin := to_adc c (- fAMP + fOffsetDC c);
     iADCpeakMax := to_adc c (fAMP + fOffsetDC c) |}.

End WaveformQ.

(** ** From [Q] to [R] *)

Lemma Q2R_inject_Z z : Q2R (inject_Z z) = IZR z.
Proof. unfold Q2R, inject_Z. simpl. field. Qed.

Lemma Q2R_inv_total y : Q2R (/ y) = / Q2R y.
Proof.
  rewrite RMicromega.Q2R_inv_ext. destruct (Qeq_bool y 0) eqn:E; [|reflexivity].
  apply Qeq_bool_iff in E. rewrite (Qeq_eqR _ _ E).
  unfold Q2R. simpl. rewrite Rmult_0_l, Rinv_0. reflexivity.
Qed.

Lemma Q2R_div_total x y : Q2R (x / y) = Q2R x / Q2R y.
Proof. unfold Qdiv. rewrite Q2R_mult, Q2R_inv_total. reflexivity. Qed.

Lemma Q2R_0 : Q2R 0 = 0%R.
Proof. unfold Q2R. simpl. ring. Qed.

(** [Int_part] is [Qfloor] on the rationals. *)
Lemma Int_part_Q2R q : Int_part (Q2R q) = Qfloor q.
Proof.
  symmetry. apply Int_part_spec. split.
  - pose proof (Qlt_floor q) as H. apply Qlt_Rlt in H.
    rewrite Q2R_inject_Z, plus_IZR in H. lra.
  - pose proof (Qfloor_le q) as H. apply Qle_Rle in H.
    rewrite Q2R_inject_Z in H. exact H.
Qed.

Lemma Qtrunc_Q2R q : WaveformR.py_int_of_float (Q2R q) = WaveformQ.Qtrunc q.
Proof.
  unfold WaveformR.py_int_of_float, WaveformQ.Qtrunc.
  destruct (Rle_dec 0 (Q2R q)) as [H|H]; destruct (Qle_bool 0 q) eqn:E.
  - apply Int_part_Q2R.
  - exfalso. rewrite <- Q2R_0 in H. apply Rle_Qle in H.
    apply Qle_bool_iff in H. congruence.
  - exfalso. apply Qle_bool_iff, Qle_Rle in E. rewrite Q2R_0 in E. lra.
  - rewrite <- Q2R_opp, Int_part_Q2R. reflexivity.
Qed.

Lemma to_adc_refines c x : WaveformR.to_adc c (Q2R x) = WaveformQ.to_adc c x.
Proof.
  unfold WaveformR.to_adc, WaveformQ.to_adc.
  rewrite <- Qtrunc_Q2R, Q2R_div_total, !Q2R_mult. reflexivity.
Qed.

#[export] Hint Rewrite Q2R_inject_Z Q2R_div_total Q2R_plus Q2R_opp Q2R_mult
  to_adc_refines : pym_rw.

Lemma reference_positive : positive_constants reference_constants.
Proof. unfold positive_constants, Q2R. simpl. lra. Qed.

Lemma R_as_Q2R (n : Z) (d : positive) : (IZR n / IZR (Zpos d))%R = Q2R (n # d).
Proof. reflexivity. Qed.

(** ** The expected values *)

(** C15: the transcription of the summation loop (lines 248-255) yields a
    mean that does not depend on the amplitude: the sines of the 99
    samples cancel, leaving [99/100] of the DC offset. *)
Theorem expected_mean_closed_form c fAMP :
  iADCmean (WaveformR.computeExpected c fAMP)
  = WaveformR.to_adc c (INR (iMaxSamples c - 1) * Q2R (fOffsetDC c)
                        / INR (iMaxSamples c)).
Proof. simpl. now rewrite fDACValSum_closed. Qed.

(** The two models agree on a 100-sample period. *)
Lemma computeExpected_agree c fAMP :
  iMaxSamples c = 100%nat ->
  WaveformR.computeExpected c (Q2R fAMP) = WaveformQ.computeExpected c fAMP.
Proof.
  intros HN. unfold WaveformR.computeExpected, WaveformQ.computeExpected.
  rewrite fDACValSum_closed, fDacVal_25, fDacVal_75 by exact HN.
  f_equal; rewrite <- to_adc_refines; f_equal;
    autorewrite with pym_rw; rewrite ?INR_IZR_INZ; reflexivity.
Qed.

(** C14: refinement.  For every rational amplitude and every calibration
    with 100 samples per period, the executable closed form computes
    exactly what the real-number transcription of the code computes. *)
Theorem computeExpected_refines c fAMP :
  iMaxSamples c = 100%nat ->
  WaveformR.computeExpected c (Q2R fAMP) = WaveformQ.computeExpected c fAMP.
Proof. apply computeExpected_agree. Qed.

Lemma computeExpected_refines_witness :
  iMaxSamples reference_constants = 100%nat /\
  WaveformR.computeExpected reference_constants (Q2R (43 # 100))
  = WaveformQ.computeExpected reference_constants (43 # 100).
Proof.
  split; [reflexivity|]. apply (computeExpected_refines reference_constants (43 # 100)).
  reflexivity.
Defined.

(** C16: the reference scenario.  With the calibration of lines 183-189 and
    the amplitude 0.43, the code expects mean 404, minimum 0 and maximum
    817 ADC counts. *)
Theorem expected_reference_scenario :
  WaveformR.computeExpected reference_constants 0.43 = mkExpected 404 0 817.
Proof.
  replace 0.43%R with (Q2R (43 # 100)) by (unfold Q2R; simpl; lra).
  rewrite computeExpected_agree by reflexivity. vm_compute. reflexivity.
Qed.

(** C17: a constant stimulus.  At amplitude 0 the signal is the DC offset
    alone, yet the expected mean (404) differs from the expected minimum
    and maximum (408): the loop sums 99 samples and divides by 100. *)
Theorem expected_amplitude_zero :
  WaveformR.computeExpected reference_constants 0 = mkExpected 404 408 408.
Proof.
  rewrite <- Q2R_0, computeExpected_agree by reflexivity.
  vm_compute. reflexivity.
Qed.

(** C19: bounds.  For every amplitude in the range of [Amplitudes]
    (0 to 0.43) the expected minimum and maximum satisfy
    [0 <= min <= max <= 817]. *)
Theorem expected_peaks_bounds (fAMP : R) :
  (0 <= fAMP <= Q2R Amplitudes_Max)%R ->
  let e := WaveformR.computeExpected reference_constants fAMP in
  (0 <= iADCpeakMin e /\ iADCpeakMin e <= iADCpeakMax e /\ iADCpeakMax e <= 817)%Z.
Proof.
  intros Ha e. subst e. simpl.
  rewrite fDacVal_25, fDacVal_75 by reflexivity.
  pose proof reference_positive as Hp.
  assert (Hoff : Q2R (fOffsetDC reference_constants) = Q2R Amplitudes_Max) by reflexivity.
  unfold Amplitudes_Max in *. rewrite Hoff.
  assert (H0 : WaveformR.to_adc reference_constants (Q2R 0) = 0%Z)
    by (rewrite to_adc_refines; vm_compute; reflexivity).
  assert (H1 : WaveformR.to_adc reference_constants (Q2R (86 # 100)) = 817%Z)
    by (rewrite to_adc_refines; vm_compute; reflexivity).
  assert (Hq : Q2R (86 # 100) = (2 * Q2R (43 # 100))%R) by (unfold Q2R; simpl; lra).
  rewrite Q2R_0 in H0. rewrite Hq in H1.
  repeat split.
  - rewrite <- H0. apply to_adc_mono; [exact Hp | lra].
  - apply to_adc_mono; [exact Hp | lra].
  - rewrite <- H1. apply to_adc_mono; [exact Hp | lra].
Qed.

Lemma expected_peaks_bounds_witness :
  (0 <= 0.2 <= Q2R Amplitudes_Max)%R /\
  let e := WaveformR.computeExpected reference_constants 0.2 in
  (0 <= iADCpeakMin e /\ iADCpeakMin e <= iADCpeakMax e /\ iADCpeakMax e <= 817)%Z.
Proof.
  assert (H : (0 <= 0.2 <= Q2R Amplitudes_Max)%R) by (unfold Q2R; simpl; lra).
  split; [exact H | apply (expected_peaks_bounds 0.2); exact H].
Defined.

(** C18: the fixed indices are the extrema.  For a non-negative amplitude,
    the count of every sample of the period lies between the expected
    minimum (index 75) and maximum (index 25). *)
Theorem sample_counts_within_peaks (fAMP : R) (k : nat) :
  (0 <= fAMP)%R ->
  let e := WaveformR.computeExpected reference_constants fAMP in
  (iADCpeakMin e <= WaveformR.to_adc reference_constants
                      (WaveformR.fDacVal reference_constants fAMP k)
   <= iADCpeakMax e)%Z.
Proof.
  intros Ha e. subst e. simpl.
  destruct (fDacVal_between reference_constants fAMP k eq_refl Ha).
  split; apply to_adc_mono; auto using reference_positive.
Qed.

Lemma sample_counts_within_peaks_witness :
  (0 <= 0.43)%R /\
  let e := WaveformR.computeExpected reference_constants 0.43 in
  (iADCpeakMin e <= WaveformR.to_adc reference_constants
                      (WaveformR.fDacVal reference_constants 0.43 10)
   <= iADCpeakMax e)%Z.
Proof.
  split; [lra | apply (sample_counts_within_peaks 0.43 10); lra].
Defined.
