(* ===== verification/Tolerance.v ===== *)
(** * ToleranceEvaluator: the limit dictionaries and the pass/fail checks

    [RunTest] of [src/ADC_Test.py] keeps three dictionaries
    [ADCMeanLimits], [ADCMinLimits], [ADCMaxLimits] with keys ['Max'] and
    ['Min'], first built around 0 (lines 204-218) and then reset to
    [expected +/- 20] (lines 291-302).  Each reported count is checked with
    [int(v) <= L['Max'] and int(v) >= L['Min']], and a channel passes when
    its three checks all pass (lines 306-357).

    [inBand] is the contract of the spec: a value passes when it is within
    a symmetric margin of the expected value.  [within_limits_of] proves the
    code's check implements it with margin 20. *)

From Stdlib Require Import ZArith Lia Bool.
From S2P Require Import Prelude Waveform.
Open Scope Z_scope.

Module Tolerance.

(** A limits dictionary [{'Max': .., 'Min': ..}]. *)
Record Limits := mkLimits { Max : Z; Min : Z }.

Definition margin : Z := 20.

Definition limits_of (e : Z) : Limits := mkLimits (e + margin) (e - margin).

Record LimitTable := mkTable {
  ADCMeanLimits : Limits;
  ADCMinLimits : Limits;
  ADCMaxLimits : Limits
}.

(** Lines 204-218: the dictionaries are first built from the initial
    [iADCmean = iADCpeakMin = iADCpeakMax = 0]. *)
Definition initial_limits : LimitTable :=
  mkTable (limits_of 0) (limits_of 0) (limits_of 0).

(** Lines 291-302: the six assignments that reset them around the
    expected values. *)
Definition set_limits (e : Expected) (t : LimitTable) : LimitTable :=
  let t := mkTable (mkLimits (iADCmean e + 20) (Min (ADCMeanLimits t)))
                   (ADCMinLimits t) (ADCMaxLimits t) in
  let t := mkTable (mkLimits (Max (ADCMeanLimits t)) (iADCmean e - 20))
                   (ADCMinLimits t) (ADCMaxLimits t) in
  let t := mkTable (ADCMeanLimits t)
                   (mkLimits (iADCpeakMin e + 20) (Min (ADCMinLimits t)))
                   (ADCMaxLimits t) in
  let t := mkTable (ADCMeanLimits t)
                   (mkLimits (Max (ADCMinLimits t)) (iADCpeakMin e - 20))
                   (ADCMaxLimits t) in
  let t := mkTable (ADCMeanLimits t) (ADCMinLimits t)
                   (mkLimits (iADCpeakMax e + 20) (Min (ADCMaxLimits t))) in
  mkTable (ADCMeanLimits t) (ADCMinLimits t)
          (mkLimits (Max (ADCMaxLimits t)) (iADCpeakMax e - 20)).

(** [if v <= L['Max'] and v >= L['Min']: True else: False] *)
Definition within (v : Z) (L : Limits) : bool :=
  if (v <=? Max L) && (v >=? Min L) then true else false.

(** Lines 308-326 (channel 1) and 327-345 (channel 2), then 347-357:
    [passADCmean == True and passADCmin == True and passADCmax == True]. *)
Definition evaluate_channel (t : LimitTable) (mean min max : Z) : bool :=
  let passADCmean := within mean (ADCMeanLimits t) in
  let passADCmin := within min (ADCMinLimits t) in
  let passADCmax := within max (ADCMaxLimits t) in
  if passADCmean && passADCmin && passADCmax then true else false.

(** The spec's contract [inBand(value, expected, margin)]. *)
Definition inBand (value expected m : Z) : bool :=
  (expected - m <=? value) && (value <=? expected + m).

End Tolerance.

Import Tolerance.

(** ** Lemmas *)

Lemma set_limits_spec e t :
  set_limits e t = mkTable (limits_of (iADCmean e)) (limits_of (iADCpeakMin e))
                           (limits_of (iADCpeakMax e)).
Proof. reflexivity. Qed.

(** The check of the code is the contract [inBand] with margin 20. *)
Lemma within_limits_of v e : within v (limits_of e) = inBand v e margin.
Proof.
  unfold within, inBand, limits_of. simpl.
  destruct (Z.leb_spec v (e + margin)), (Z.geb_spec v (e - margin)),
    (Z.leb_spec (e - margin) v); simpl; try reflexivity; lia.
Qed.

Lemma inBand_iff v e m : inBand v e m = true <-> (e - m <= v <= e + m)%Z.
Proof.
  unfold inBand. rewrite andb_true_iff, !Z.leb_le. reflexivity.
Qed.

Lemma evaluate_channel_iff t mean min max :
  evaluate_channel t mean min max = true <->
  within mean (ADCMeanLimits t) = true /\ within min (ADCMinLimits t) = true
  /\ within max (ADCMaxLimits t) = true.
Proof.
  unfold evaluate_channel.
  destruct (within mean _), (within min _), (within max _); simpl; intuition congruence.
Qed.

#[export] Hint Rewrite set_limits_spec within_limits_of : pym_rw.
