(* ===== verification/Serial.v ===== *)
(** * SerialTransport: the [SerialConnecter] class and the process world

    [SerialConnecter] (lines 97-159 of [src/ADC_Test.py], the same code
    at lines 94-156 of [src/ADC_Test_V0_2.py]) wraps two pyserial
    ports: [ser1] to the controller and [ser2] to the DUT.  The world the
    script acts on is modelled as a record: for each port its state and
    the lines its device will send (a queue) and has received; the device
    names [serial.Serial] can open; the records written by [logging.info];
    and the durations passed to [time.sleep].

    Python's exceptions are values of [PyExn].  A pyserial [readline] whose
    timeout expires returns the empty string: reading from an empty queue
    returns the empty string and raises nothing.  Touching [self.ser1] before
    [openSerialPortCON] has set it raises [AttributeError]; using a closed
    port raises pyserial's [portNotOpenError]. *)

From Stdlib Require Import String List ZArith.
From S2P Require Import Prelude PyStr.
Import ListNotations.
Open Scope pym_scope.

Inductive PyExn : Type :=
| SerialException (port : string)   (** [serial.Serial] cannot open [port] *)
| PortNotOpenError                  (** I/O on a closed port *)
| AttributeError (attr : string)    (** a missing attribute or method *)
| UnpackError (n : nat)             (** unpacking [n <> 5] values into five names *)
| IntError (s : string)             (** [int(s)] on a non-numeric string *)
| TypeError (msg : string)          (** an operation on operands of the wrong type *)
| NameError (name : string)         (** a name bound nowhere *)
| ZeroDivisionError                 (** a division by zero *)
| IndexError                        (** a list or string index out of range *)
| SystemExit (code : Z).            (** [sys.exit(code)] *)

(** What [logging.info] records (lines 430, 471-484, 492). *)
Inductive LogEntry : Type :=
| LogStarted (port : string)                 (** ['Tests Started - Device COM port %s'] *)
| LogTest (n : Z) (passed : bool) (stat : Z) (** ['Test %d,Passed,%d'] / ['Test %d, Failed,%d'] *)
| LogFinished.                               (** ['Finished'] *)

Inductive PortState : Type := Unset | Opened | Closed.

Record Port := mkPort {
  p_state : PortState;
  p_rx : list string;   (** lines the device will send, oldest first *)
  p_tx : list string    (** commands written to the device, oldest first *)
}.

Record World := mkWorld {
  w_devices : list string;  (** device names that can be opened *)
  w_con : Port;             (** [self.ser1], the controller *)
  w_dut : Port;             (** [self.ser2], the DUT *)
  w_log : list LogEntry;
  w_sleeps : list Z
}.

Abbreviation PyM := (st_exc World PyExn).

Inductive Which : Type := CON | DUT.

Definition port_of (k : Which) (w : World) : Port :=
  match k with CON => w_con w | DUT => w_dut w end.

Definition set_port (k : Which) (p : Port) (w : World) : World :=
  match k with
  | CON => mkWorld (w_devices w) p (w_dut w) (w_log w) (w_sleeps w)
  | DUT => mkWorld (w_devices w) (w_con w) p (w_log w) (w_sleeps w)
  end.

Definition attr_name (k : Which) : string :=
  match k with CON => "ser1" | DUT => "ser2" end.

(** The guard every use of [self.serN] passes through. *)
Definition use_port (k : Which) : PyM Port :=
  w <- get ;;
  let p := port_of k w in
  match p_state p with
  | Unset => raise (AttributeError (attr_name k))
  | Closed => raise PortNotOpenError
  | Opened => ret p
  end.

(** [self.serN = serial.Serial(port, baud, timeout=..)] *)
Definition open_port (k : Which) (port : string) : PyM unit :=
  w <- get ;;
  if existsb (String.eqb port) (w_devices w)
  then let p := port_of k w in put (set_port k (mkPort Opened (p_rx p) (p_tx p)) w)
  else raise (SerialException port).

(** [self.serN.write(command)] *)
Definition write_port (k : Which) (command : string) : PyM unit :=
  p <- use_port k ;;
  modify (set_port k (mkPort (p_state p) (p_rx p) (p_tx p ++ [command]))).

(** [self.serN.readline()]: the next line, or the empty string when the timeout expires. *)
Definition readline_port (k : Which) : PyM string :=
  p <- use_port k ;;
  match p_rx p with
  | [] => ret EmptyString
  | l :: rest => modify (set_port k (mkPort (p_state p) rest (p_tx p))) ;;; ret l
  end.

(** [self.serN.close()] *)
Definition close_port (k : Which) : PyM unit :=
  w <- get ;;
  let p := port_of k w in
  match p_state p with
  | Unset => raise (AttributeError (attr_name k))
  | _ => put (set_port k (mkPort Closed (p_rx p) (p_tx p)) w)
  end.

(** ** The methods of [SerialConnecter] *)

Definition openSerialPortCON (uC_PORT : string) : PyM unit := open_port CON uC_PORT.
Definition openSerialPortDUT (DUT_PORT : string) : PyM unit := open_port DUT DUT_PORT.

(** [SendSerialCON(command, getline)]: with [getline] it calls
    [self.ReadLine()], a method the class does not define. *)
Definition SendSerialCON (command : string) (getline : bool) : PyM string :=
  write_port CON command ;;;
  if getline then raise (AttributeError "ReadLine") else ret EmptyString.

Definition SendSerialDUT (command : string) (getline : bool) : PyM string :=
  write_port DUT command ;;;
  if getline then raise (AttributeError "ReadLine") else ret EmptyString.

Definition ReadSerialPortLineCON : PyM string := readline_port CON.
Definition ReadSerialPortLineDUT : PyM string := readline_port DUT.

Definition CloseSerialPortCON : PyM unit := close_port CON.
Definition CloseSerialPortDUT : PyM unit := close_port DUT.

(** [logging.info(..)] and [time.sleep(..)]. *)
Definition log_info (e : LogEntry) : PyM unit :=
  modify (fun w => mkWorld (w_devices w) (w_con w) (w_dut w) (w_log w ++ [e]) (w_sleeps w)).

Definition sleep (t : Z) : PyM unit :=
  modify (fun w => mkWorld (w_devices w) (w_con w) (w_dut w) (w_log w) (w_sleeps w ++ [t])).

(** ** Lemmas on ports *)

Lemma port_of_set_port k p w : port_of k (set_port k p w) = p.
Proof. destruct k; reflexivity. Qed.

Lemma port_of_set_other k k' p w : k <> k' -> port_of k' (set_port k p w) = port_of k' w.
Proof. destruct k, k'; intros H; try reflexivity; contradiction. Qed.

Lemma set_port_twice k p q w : set_port k p (set_port k q w) = set_port k p w.
Proof. destruct k; reflexivity. Qed.

Lemma set_port_id k w : set_port k (port_of k w) w = w.
Proof. destruct k, w; reflexivity. Qed.

#[export] Hint Rewrite port_of_set_port set_port_twice : pym_rw.

(** [readline] on an open port returns the oldest pending line ... *)
Lemma readline_port_pop k w l rest :
  p_state (port_of k w) = Opened -> p_rx (port_of k w) = l :: rest ->
  readline_port k w = (Ok l, set_port k (mkPort Opened rest (p_tx (port_of k w))) w).
Proof.
  intros Hs Hrx. unfold readline_port, use_port. pym_unfold.
  rewrite Hs, Hrx. cbn. rewrite Hs. reflexivity.
Qed.

(** ... and the empty string when the device sends nothing before the timeout. *)
Lemma readline_port_timeout k w :
  p_state (port_of k w) = Opened -> p_rx (port_of k w) = [] ->
  readline_port k w = (Ok EmptyString, w).
Proof.
  intros Hs Hrx. unfold readline_port, use_port. pym_unfold.
  rewrite Hs, Hrx. reflexivity.
Qed.

Lemma write_port_open k w command :
  p_state (port_of k w) = Opened ->
  write_port k command w
  = (Ok tt, set_port k (mkPort Opened (p_rx (port_of k w)) (p_tx (port_of k w) ++ [command])) w).
Proof. intros Hs. unfold write_port, use_port. pym_unfold. rewrite Hs. cbn. now rewrite Hs. Qed.

(** ** The transport never writes the log *)

Lemma w_log_set_port k p w : w_log (set_port k p w) = w_log w.
Proof. destruct k; reflexivity. Qed.

Lemma use_port_log k : frame w_log (use_port k).
Proof. unfold use_port. solve_frame. Qed.

Lemma port_update_log k (g : Port -> Port) :
  frame w_log (p <- use_port k ;; modify (set_port k (g p))).
Proof.
  apply frame_bind; [apply use_port_log|]. intros p.
  apply frame_modify. intros w. apply w_log_set_port.
Qed.

Lemma open_port_log k port : frame w_log (open_port k port).
Proof.
  intros w r w' H. unfold open_port in H. pym_unfold.
  destruct (existsb _ _); injection H as _ <-; [apply w_log_set_port | reflexivity].
Qed.

Lemma close_port_log k : frame w_log (close_port k).
Proof.
  intros w r w' H. unfold close_port in H. pym_unfold.
  destruct (p_state _); injection H as _ <-; reflexivity || apply w_log_set_port.
Qed.

Lemma write_port_log k command : frame w_log (write_port k command).
Proof. apply (port_update_log k (fun p => mkPort (p_state p) (p_rx p) (p_tx p ++ [command]))). Qed.

Lemma readline_port_log k : frame w_log (readline_port k).
Proof.
  unfold readline_port. apply frame_bind; [apply use_port_log|]. intros p.
  destruct (p_rx p); solve_frame. apply frame_modify. intros w. apply w_log_set_port.
Qed.

Lemma sleep_log t : frame w_log (sleep t).
Proof. apply frame_modify. reflexivity. Qed.

#[export] Hint Resolve use_port_log open_port_log close_port_log write_port_log
  readline_port_log sleep_log : pym.

(** ** What is written to the devices *)

(** The commands written to the controller and to the DUT. *)
Definition tx_of (w : World) : list string * list string := (p_tx (w_con w), p_tx (w_dut w)).

Lemma tx_of_set_port k p w : p_tx p = p_tx (port_of k w) -> tx_of (set_port k p w) = tx_of w.
Proof. destruct k; intros H; unfold tx_of; cbn; now rewrite H. Qed.

Lemma use_port_tx k : frame tx_of (use_port k).
Proof. unfold use_port. solve_frame. Qed.

Lemma open_port_tx k port : frame tx_of (open_port k port).
Proof.
  intros w r w' H. unfold open_port in H. pym_unfold.
  destruct (existsb _ _); injection H as _ <-; [now apply tx_of_set_port | reflexivity].
Qed.

Lemma close_port_tx k : frame tx_of (close_port k).
Proof.
  intros w r w' H. unfold close_port in H. pym_unfold.
  destruct (p_state _); injection H as _ <-; reflexivity || now apply tx_of_set_port.
Qed.

Lemma readline_port_tx k : frame tx_of (readline_port k).
Proof.
  intros w r w' H. unfold readline_port, use_port in H. pym_unfold. cbv zeta in H.
  destruct (p_state (port_of k w)); [injection H as _ <-; reflexivity | | injection H as _ <-; reflexivity].
  cbn beta iota in H. destruct (p_rx (port_of k w)); injection H as _ <-; [reflexivity | now apply tx_of_set_port].
Qed.

Lemma sleep_tx t : frame tx_of (sleep t).
Proof. apply frame_modify. reflexivity. Qed.

Lemma log_info_tx e : frame tx_of (log_info e).
Proof. apply frame_modify. reflexivity. Qed.

#[export] Hint Resolve use_port_tx open_port_tx close_port_tx readline_port_tx sleep_tx log_info_tx : pym.

(** A write appends the command to its device, or raises before
    writing. *)
Lemma write_port_tx k command c d :
  hoare (fun w => tx_of w = (c, d)) (write_port k command)
        (fun _ w => tx_of w = match k with CON => (c ++ [command], d) | DUT => (c, d ++ [command]) end)
        (fun w => tx_of w = (c, d)).
Proof.
  intros w r w' Hw H. unfold write_port, use_port in H. pym_unfold.
  destruct (p_state (port_of k w)); injection H as <- <-; try exact Hw.
  unfold tx_of in *. injection Hw as Hc Hd. destruct k; cbn; congruence.
Qed.

(** The methods of [SerialConnecter] keep the log. *)
Ltac serial_frame :=
  unfold openSerialPortCON, openSerialPortDUT, SendSerialCON, SendSerialDUT,
    ReadSerialPortLineCON, ReadSerialPortLineDUT, CloseSerialPortCON,
    CloseSerialPortDUT;
  solve_frame.
