(* ===== verification/ArgParse.v ===== *)
(** * argparse, as [InputParse.GetInput] configures it

    Both versions of the script build one [argparse.ArgumentParser] with
    six positional arguments and the options [-i/--interval] and
    [-m/--maxtest] (lines 79-86 of [src/ADC_Test_V0_2.py], lines 82-89 of
    [src/ADC_Test.py]); the parser adds [-h/--help].  This file models
    [parse_args] of Python 2.7's [argparse] for that configuration, the
    way [argparse.py] does it:
    - [classify] is [_parse_optional] (with [_get_option_tuples]): a word
      is a positional ['A'], an option with an optional attached value, an
      unknown optional, or an ambiguous abbreviation; every word after the
      first ["--"] is a positional, and ["--"] itself is a marker;
    - [consume] is the main loop of [_parse_known_args]: positionals fill
      the free positional slots left to right (the marker is absorbed
      next to a positional), an option takes an attached value or the
      next positional word, [-h] followed by letters is a run of combined
      short flags, and what cannot be placed is an extra;
    - [exec] takes the actions in order: converts each value with its
      [type] ([str], [int] or [float]), and exits at [-h];
    - [parse_args] adds the final checks (too few positionals, extras).
    Exits are [SystemExit 0] (help) and [SystemExit 2] (an error, after a
    usage message on stderr, which is not modelled); [-h=] makes
    [argparse] index an empty string, an [IndexError].  The help text and
    the error messages are not modelled. *)

From Stdlib Require Import String Ascii List ZArith Lia Bool.
From S2P Require Import Prelude PyStr Digits Floats Serial.
Import ListNotations.
Local Open Scope string_scope.

(** The optional actions: [-h/--help] and the two [store] options. *)
Inductive OptAction := AHelp | AInterval | AMaxtest.

(** The option strings, as [add_argument] registers them. *)
Definition option_strings : list (string * OptAction) :=
  [("-h", AHelp); ("--help", AHelp); ("-i", AInterval); ("--interval", AInterval);
   ("-m", AMaxtest); ("--maxtest", AMaxtest)].

Definition find_option (s : string) : option OptAction :=
  match find (fun p => String.eqb (fst p) s) option_strings with
  | Some (_, a) => Some a
  | None => None
  end.

(** A command-line word as the parser sees it. *)
Inductive Word :=
| WPos (s : string)                                        (** ['A'] *)
| WOpt (a : OptAction) (optstr : string) (explicit : option string)
| WUnknown (s : string)                  (** optional-looking, no such option *)
| WAmbiguous (s : string)                (** a prefix of several long options *)
| WDash.                                 (** the first ["--"] *)

Definition is_dash (c : ascii) : bool := Ascii.eqb c "-".

(** [arg_string[0] in self.prefix_chars] *)
Definition starts_dash (s : string) : bool :=
  match s with String c _ => is_dash c | EmptyString => false end.

(** [s.split('=', 1)] when [s] contains ['='] *)
Fixpoint split_eq (s : string) : option (string * string) :=
  match s with
  | EmptyString => None
  | String c s' =>
      if Ascii.eqb c "=" then Some (EmptyString, s')
      else match split_eq s' with
           | Some (a, b) => Some (String c a, b)
           | None => None
           end
  end.

Fixpoint split_dot (s : string) : option (string * string) :=
  match s with
  | EmptyString => None
  | String c s' =>
      if Ascii.eqb c "." then Some (EmptyString, s')
      else match split_dot s' with
           | Some (a, b) => Some (String c a, b)
           | None => None
           end
  end.

Definition digits1 (s : string) : bool :=
  negb (String.eqb s EmptyString) && all_chars is_digit s.

(** A final newline, which [$] of Python's [re] lets through. *)
Fixpoint drop_final_nl (s : string) : string :=
  match s with
  | String c EmptyString => if Ascii.eqb c (ascii_of_nat 10) then EmptyString else s
  | String c s' => String c (drop_final_nl s')
  | EmptyString => EmptyString
  end.

(** [_negative_number_matcher]: [^-\d+$|^-\d*\.\d+$]. *)
Definition negative_number (s : string) : bool :=
  match drop_final_nl s with
  | String c r =>
      is_dash c &&
      (digits1 r
       || match split_dot r with
          | Some (a, b) => all_chars is_digit a && digits1 b
          | None => false
          end)
  | EmptyString => false
  end.

Definition has_space (s : string) : bool := negb (all_chars (fun c => negb (Ascii.eqb c " ")) s).

(** [_get_option_tuples] *)
Definition option_tuples (s : string) : list (OptAction * string * option string) :=
  match s with
  | String c1 (String c2 rest) =>
      if negb (is_dash c1) then [] else
      if is_dash c2 then
        let '(pre, e) := match split_eq s with Some (p, v) => (p, Some v) | None => (s, None) end in
        map (fun p => (snd p, fst p, e)) (filter (fun p => String.prefix pre (fst p)) option_strings)
      else
        let short := String "-" (String c2 EmptyString) in
        map (fun p => (snd p, fst p, Some rest))
            (filter (fun p => String.eqb (fst p) short) option_strings)
  | _ => []
  end.

(** [_parse_optional] *)
Definition classify (s : string) : Word :=
  if negb (starts_dash s) then WPos s else
  match find_option s with Some a => WOpt a s None | None =>
  if (String.length s =? 1)%nat then WPos s else
  match (match split_eq s with
         | Some (o, e) => match find_option o with Some a => Some (WOpt a o (Some e)) | None => None end
         | None => None
         end) with
  | Some w => w
  | None =>
      match option_tuples s with
      | [(a, o, e)] => WOpt a o e
      | _ :: _ :: _ => WAmbiguous s
      | [] => if negative_number s then WPos s
              else if has_space s then WPos s else WUnknown s
      end
  end end.

(** The words of [argv]: after the first ["--"] every word is ['A']. *)
Fixpoint classify_all (argv : list string) : list Word :=
  match argv with
  | [] => []
  | a :: rest => if String.eqb a "--" then WDash :: map WPos rest else classify a :: classify_all rest
  end.

Definition is_ambiguous (w : Word) : bool :=
  match w with WAmbiguous _ => true | _ => false end.

(** What [consume] hands to [exec], in order. *)
Inductive Event :=
| EPos (strs : list string)              (** a positional and the strings its pattern matched *)
| EOpt (a : OptAction) (v : string)      (** a [store] option and its string *)
| EHelp
| EExtra (s : string)
| EError                                 (** an [ArgumentError] *)
| ECrash.                                (** [explicit_arg[0]] of an empty string *)

(** What one optional word does, before the words after it are seen
    ([consume_optional]): its actions, or its actions once given the next
    positional word, or an [ArgumentError], or the [IndexError]. *)
Inductive Plan :=
| PNone (evs : list Event)
| PNext (k : string -> list Event)
| PErr
| PCrash.

Definition prepend (e : Event) (p : Plan) : Plan :=
  match p with
  | PNone evs => PNone (e :: evs)
  | PNext k => PNext (fun v => e :: k v)
  | q => q
  end.

(** [-h] with the explicit argument [x]: the [while] loop of
    [consume_optional] reads [x] as more short flags ([-hi5] is [-h]
    then [-i 5]); [explicit_arg[0]] fails on an empty [x]. *)
Fixpoint help_plan (x : string) : Plan :=
  match x with
  | EmptyString => PCrash
  | String c x' =>
      match find_option (String "-" (String c EmptyString)) with
      | None => PErr
      | Some AHelp =>
          match x' with
          | EmptyString => PNone [EHelp]
          | _ => prepend EHelp (help_plan x')
          end
      | Some a =>
          match x' with
          | EmptyString => PNext (fun v => [EOpt a v])
          | _ => PNone [EOpt a x']
          end
      end
  end.

Definition double_dash (o : string) : bool :=
  match o with String c1 (String c2 _) => is_dash c1 && is_dash c2 | _ => false end.

Definition plan (a : OptAction) (o : string) (e : option string) : Plan :=
  match a, e with
  | AHelp, None => PNone [EHelp]
  | AHelp, Some x => if double_dash o then PErr else prepend EHelp (help_plan x)
  | _, Some v => PNone [EOpt a v]
  | _, None => PNext (fun v => [EOpt a v])
  end.

(** The main loop of [_parse_known_args], with [npos] positional slots
    free.  A positional's pattern [-*A-*] absorbs the marker next to it:
    after its word, or before it when the marker opens a chunk. *)
Fixpoint consume (npos : nat) (ws : list Word) : list Event :=
  match ws with
  | [] => []
  | WPos s :: ws' =>
      match npos with
      | S n =>
          match ws' with
          | WDash :: ws'' => EPos [s; "--"] :: consume n ws''
          | _ => EPos [s] :: consume n ws'
          end
      | O => EExtra s :: consume O ws'
      end
  | WDash :: ws' =>
      match npos, ws' with
      | S n, WPos s :: ws'' => EPos ["--"; s] :: consume n ws''
      | _, _ => EExtra "--" :: consume npos ws'
      end
  | WUnknown s :: ws' => EExtra s :: consume npos ws'
  | WAmbiguous _ :: _ => [EError]
  | WOpt a o e :: ws' =>
      match plan a o e with
      | PNone evs => evs ++ consume npos ws'
      | PNext k =>
          match ws' with
          | WPos v :: ws'' => k v ++ consume npos ws''
          | _ => [EError]
          end
      | PErr => [EError]
      | PCrash => [ECrash]
      end
  end.

(** The [type] of an argument. *)
Inductive ArgType := TStr | TInt | TFloat.

(** A converted value: [nargs=None] with no string left gives a list. *)
#[warnings="-register-all"]
Inductive PyArg := AStr (s : string) | AInt (z : Z) | AFloat (x : PyFloat) | AList (l : list PyArg).

Definition convert (t : ArgType) (s : string) : option PyArg :=
  match t with
  | TStr => Some (AStr s)
  | TInt => option_map AInt (py_int s)
  | TFloat => option_map AFloat (py_float s)
  end.

(** [list.remove('--')]: the first occurrence, if any. *)
Fixpoint remove_dd (l : list string) : list string :=
  match l with
  | [] => []
  | x :: l' => if String.eqb x "--" then l' else x :: remove_dd l'
  end.

Fixpoint convert_all (t : ArgType) (l : list string) : option (list PyArg) :=
  match l with
  | [] => Some []
  | x :: l' =>
      match convert t x, convert_all t l' with
      | Some v, Some vs => Some (v :: vs)
      | _, _ => None
      end
  end.

(** [_get_values] for [nargs=None]: strip one ["--"], then one string is
    converted, and any other number gives the list of conversions. *)
Definition get_values (t : ArgType) (strs : list string) : option PyArg :=
  match remove_dd strs with
  | [x] => convert t x
  | l => option_map AList (convert_all t l)
  end.

(** The namespace as the actions fill it. *)
Record NS := mkNS {
  ns_pos : list PyArg;
  ns_interval : option PyArg;
  ns_maxtest : option PyArg;
  ns_extras : list string
}.

Definition ns_empty : NS := mkNS [] None None [].

Definition argparse_error : PyExn := SystemExit 2.

(** [take_action] for each event, in order: [tys] are the positionals'
    types; both options have [type=int]. *)
Fixpoint exec (tys : list ArgType) (evs : list Event) (ns : NS) : res PyExn NS :=
  match evs with
  | [] => Ok ns
  | EPos strs :: evs' =>
      match nth_error tys (length (ns_pos ns)) with
      | Some t =>
          match get_values t strs with
          | Some v => exec tys evs' (mkNS (ns_pos ns ++ [v]) (ns_interval ns) (ns_maxtest ns) (ns_extras ns))
          | None => Exn argparse_error
          end
      | None => Exn argparse_error
      end
  | EOpt a v :: evs' =>
      match get_values TInt [v] with
      | Some z =>
          match a with
          | AMaxtest => exec tys evs' (mkNS (ns_pos ns) (ns_interval ns) (Some z) (ns_extras ns))
          | _ => exec tys evs' (mkNS (ns_pos ns) (Some z) (ns_maxtest ns) (ns_extras ns))
          end
      | None => Exn argparse_error
      end
  | EHelp :: _ => Exn (SystemExit 0)
  | EExtra s :: evs' => exec tys evs' (mkNS (ns_pos ns) (ns_interval ns) (ns_maxtest ns) (ns_extras ns ++ [s]))
  | EError :: _ => Exn argparse_error
  | ECrash :: _ => Exn IndexError
  end.

(** [parser.parse_args(argv)] *)
Definition parse_args (tys : list ArgType) (argv : list string) : res PyExn NS :=
  let ws := classify_all argv in
  if existsb is_ambiguous ws then Exn argparse_error else
  match exec tys (consume (length tys) ws) ns_empty with
  | Exn e => Exn e
  | Ok ns =>
      if (length (ns_pos ns) <? length tys)%nat then Exn argparse_error
      else match ns_extras ns with
           | [] => Ok ns
           | _ :: _ => Exn argparse_error
           end
  end.

(** A word [argparse] takes as a positional value as it is. *)
Definition bare (s : string) : bool :=
  negb (String.eqb s "--") && match classify s with WPos _ => true | _ => false end.

(** The positionals and the extras a run of events produces. *)
Fixpoint count_pos (evs : list Event) : nat :=
  match evs with
  | [] => O
  | EPos _ :: evs' => S (count_pos evs')
  | _ :: evs' => count_pos evs'
  end.

Fixpoint extras_of (evs : list Event) : list string :=
  match evs with
  | [] => []
  | EExtra s :: evs' => s :: extras_of evs'
  | _ :: evs' => extras_of evs'
  end.

(** The ways [parse_args] leaves: [sys.exit(0)], [sys.exit(2)], or the
    [IndexError]. *)
Definition parser_exit (e : PyExn) : Prop :=
  e = SystemExit 0 \/ e = argparse_error \/ e = IndexError.

(** ** Lemmas *)

Lemma split_eq_skip c s :
  Ascii.eqb c "=" = false ->
  split_eq (String c s) = option_map (fun p => (String c (fst p), snd p)) (split_eq s).
Proof. intros Hc. cbn [split_eq]. rewrite Hc. now destruct (split_eq s) as [[]|]. Qed.

Lemma split_eq_free s : all_chars (fun c => negb (Ascii.eqb c "=")) s = true -> split_eq s = None.
Proof.
  induction s as [|c s IH]; intros H; [reflexivity|].
  rewrite all_chars_cons in H. apply andb_true_iff in H as [Hc Hs]. apply negb_true_iff in Hc.
  now rewrite split_eq_skip, IH.
Qed.

Lemma digit_not_eq c : is_digit c = true -> negb (Ascii.eqb c "=") = true.
Proof. intros Hc. now digit_neq Hc. Qed.

Lemma split_eq_digits s : all_chars is_digit s = true -> split_eq s = None.
Proof. intros H. apply split_eq_free. exact (all_chars_impl _ _ _ digit_not_eq H). Qed.

Lemma drop_final_nl_keep s :
  all_chars (fun c => negb (Ascii.eqb c (ascii_of_nat 10))) s = true -> drop_final_nl s = s.
Proof.
  induction s as [|c s IH]; intros H; [reflexivity|].
  rewrite all_chars_cons in H. apply andb_true_iff in H as [Hc Hs]. apply negb_true_iff in Hc.
  destruct s as [|c' s'].
  - cbn [drop_final_nl]. now rewrite Hc.
  - change (drop_final_nl (String c (String c' s'))) with (String c (drop_final_nl (String c' s'))).
    now rewrite IH.
Qed.

Lemma digit_not_nl c : is_digit c = true -> negb (Ascii.eqb c (ascii_of_nat 10)) = true.
Proof. intros Hc. now digit_neq Hc. Qed.

Lemma drop_final_nl_digits s : all_chars is_digit s = true -> drop_final_nl s = s.
Proof. intros H. apply drop_final_nl_keep. exact (all_chars_impl _ _ _ digit_not_nl H). Qed.

Lemma split_dot_digits d r :
  all_chars is_digit d = true -> split_dot (d ++ String "." r) = Some (d, r).
Proof.
  induction d as [|c d IH]; intros H; [reflexivity|].
  rewrite all_chars_cons in H. apply andb_true_iff in H as [Hc Hd].
  cbn [append split_dot]. digit_neq Hc. now rewrite IH.
Qed.

Lemma is_dash_digit c : is_digit c = true -> is_dash c = false.
Proof. intros Hc. unfold is_dash. now digit_neq Hc. Qed.

Lemma find_option_digit c r : is_digit c = true -> find_option (String "-" (String c r)) = None.
Proof. intros Hc. unfold find_option. cbn [find option_strings fst String.eqb]. now digit_neq Hc. Qed.

Lemma option_tuples_digit c r : is_digit c = true -> option_tuples (String "-" (String c r)) = [].
Proof.
  intros Hc. unfold option_tuples. rewrite (is_dash_digit c Hc).
  cbn [negb is_dash filter option_strings fst String.eqb]. now digit_neq Hc.
Qed.

Lemma digits1_cons c r : is_digit c = true -> all_chars is_digit r = true -> digits1 (String c r) = true.
Proof. intros Hc Hr. unfold digits1. now rewrite all_chars_cons, Hc, Hr. Qed.

Lemma negative_number_digits c r :
  is_digit c = true -> all_chars is_digit r = true -> negative_number (String "-" (String c r)) = true.
Proof.
  intros Hc Hr. unfold negative_number.
  change (drop_final_nl (String "-" (String c r))) with (String "-" (drop_final_nl (String c r))).
  rewrite drop_final_nl_digits by (rewrite all_chars_cons, Hc; exact Hr).
  cbn [is_dash andb]. now rewrite digits1_cons.
Qed.

(** A negative number is a positional: no option of the parser looks
    like a negative number. *)
Lemma classify_negative c r :
  is_digit c = true -> split_eq (String c r) = None ->
  negative_number (String "-" (String c r)) = true ->
  classify (String "-" (String c r)) = WPos (String "-" (String c r)).
Proof.
  intros Hc Hs Hn. unfold classify. rewrite find_option_digit by exact Hc.
  cbn [starts_dash is_dash negb String.length Nat.eqb].
  rewrite split_eq_skip, Hs by reflexivity. cbn [option_map].
  rewrite option_tuples_digit, Hn by assumption. reflexivity.
Qed.

Lemma classify_digit c r : is_digit c = true -> classify (String c r) = WPos (String c r).
Proof. intros Hc. unfold classify. cbn [starts_dash]. now rewrite is_dash_digit. Qed.

Lemma str_Z_digits z :
  exists c r, (str_Z z = String c r \/ str_Z z = String "-" (String c r))
              /\ is_digit c = true /\ all_chars is_digit r = true.
Proof.
  assert (Hn : forall n, (0 <= n)%Z ->
            exists c r, str_nat n = String c r /\ is_digit c = true /\ all_chars is_digit r = true).
  { intros n Hn. destruct (str_nat_lead n Hn) as (d & ds & -> & Hall & _).
    inversion Hall as [|? ? Hd Hds]; subst.
    exists (digit_char d), (string_of_list_ascii (map digit_char ds)).
    split; [reflexivity|]. split; [now apply digit_char_is_digit | now apply digits_all_digit]. }
  unfold str_Z. destruct (Z.ltb_spec z 0).
  - destruct (Hn (- z)%Z ltac:(lia)) as (c & r & -> & ?). eauto.
  - destruct (Hn z ltac:(lia)) as (c & r & -> & ?). eauto.
Qed.

(** [str(z)] of an integer is always taken as a positional value. *)
Lemma bare_str_Z z : bare (str_Z z) = true.
Proof.
  destruct (str_Z_digits z) as (c & r & [-> | ->] & Hc & Hr); unfold bare.
  - rewrite classify_digit by exact Hc. cbn [String.eqb]. now digit_neq Hc.
  - rewrite classify_negative by (rewrite ?split_eq_digits, ?negative_number_digits;
                                   rewrite ?all_chars_cons, ?Hc; auto).
    cbn [String.eqb]. now digit_neq Hc.
Qed.

Lemma literal_chars (p : ascii -> bool) d1 d2 :
  (forall c, is_digit c = true -> p c = true) -> p "."%char = true ->
  all_chars is_digit d1 = true -> all_chars is_digit d2 = true ->
  all_chars p (d1 ++ String "." d2) = true.
Proof.
  intros Hp Hdot H1 H2. rewrite all_chars_app, all_chars_cons, Hdot.
  now rewrite (all_chars_impl _ _ _ Hp H1), (all_chars_impl _ _ _ Hp H2).
Qed.

Lemma negative_number_literal d1 d2 :
  all_chars is_digit d1 = true -> all_chars is_digit d2 = true -> d2 <> EmptyString ->
  negative_number (String "-" (d1 ++ String "." d2)) = true.
Proof.
  intros H1 H2 N2. unfold negative_number.
  rewrite (drop_final_nl_keep (String "-" (d1 ++ String "." d2))).
  - cbn [is_dash]. rewrite split_dot_digits by exact H1.
    destruct d2 as [|c2 d2]; [contradiction|]. unfold digits1. rewrite H1, H2. apply orb_true_r.
  - rewrite all_chars_cons, (literal_chars _ d1); auto using digit_not_nl.
Qed.

(** [str(x)] of a float is always taken as a positional value. *)
Lemma bare_dec_literal x : bare (dec_literal x) = true.
Proof.
  destruct (dec_normalize (dec_exp x) (dec_mant x) (dec_exp x)) as [m e] eqn:En.
  destruct (dec_literal_literal x m e En) as (d1 & d2 & mant & -> & H1 & N1 & H2 & N2 & _).
  destruct d1 as [|c d1]; [contradiction|].
  assert (Hc : is_digit c = true) by (rewrite all_chars_cons in H1; now apply andb_true_iff in H1).
  pose proof (split_eq_free _ (literal_chars _ (String c d1) d2 digit_not_eq eq_refl H1 H2)) as Hs.
  pose proof (negative_number_literal (String c d1) d2 H1 H2 N2) as Hn.
  unfold bare. destruct (m <? 0)%Z; cbn [append] in *.
  - rewrite classify_negative by assumption. cbn [String.eqb]. now digit_neq Hc.
  - rewrite (classify_digit c) by exact Hc. cbn [String.eqb]. now digit_neq Hc.
Qed.

Lemma classify_WPos s t : classify s = WPos t -> t = s.
Proof.
  unfold classify. destruct (split_eq s) as [[o e]|]; [destruct (find_option o)|];
  repeat match goal with
  | |- context [if ?b then _ else _] => destruct b
  | |- context [match ?x with _ => _ end] => destruct x
  end; congruence.
Qed.

Lemma bare_classify s : bare s = true -> String.eqb s "--" = false /\ classify s = WPos s.
Proof.
  unfold bare. intros H. apply andb_true_iff in H as [H1 H2]. apply negb_true_iff in H1.
  split; [exact H1|]. destruct (classify s) eqn:E; try discriminate.
  now rewrite (classify_WPos _ _ E).
Qed.

Lemma classify_all_bare s l : bare s = true -> classify_all (s :: l) = WPos s :: classify_all l.
Proof. intros H. destruct (bare_classify s H) as [H1 H2]. cbn. now rewrite H1, H2. Qed.

Lemma classify_all_bare_map l : forallb bare l = true -> classify_all l = map WPos l.
Proof.
  induction l as [|s l IH]; intros H; [reflexivity|]. cbn in H.
  apply andb_true_iff in H as [Hs Hl]. rewrite classify_all_bare by exact Hs. now rewrite IH.
Qed.

Lemma consume_bare n l :
  consume n (map WPos l) = (map (fun s => EPos [s]) (firstn n l) ++ map EExtra (skipn n l))%list.
Proof.
  revert n. induction l as [|s l IH]; intros [|n]; try reflexivity.
  - cbn [map consume]. rewrite IH. now destruct l.
  - cbn [map consume]. rewrite IH. now destruct l.
Qed.

Lemma count_pos_bare n l : count_pos ((map (fun s => EPos [s]) (firstn n l) ++ map EExtra (skipn n l))%list) = length (firstn n l).
Proof.
  revert n. induction l as [|s l IH]; intros [|n]; cbn; try reflexivity.
  - clear IH. induction l; cbn; auto.
  - now rewrite IH.
Qed.

Lemma extras_of_bare n l : extras_of ((map (fun s => EPos [s]) (firstn n l) ++ map EExtra (skipn n l))%list) = skipn n l.
Proof.
  revert n. induction l as [|s l IH]; intros [|n]; cbn; try reflexivity.
  - f_equal. clear IH. induction l; cbn; congruence.
  - now rewrite IH.
Qed.

Lemma exec_app tys e1 e2 ns :
  exec tys (e1 ++ e2)%list ns = match exec tys e1 ns with Ok ns' => exec tys e2 ns' | Exn e => Exn e end.
Proof.
  revert ns. induction e1 as [|ev e1 IH]; intros ns; [reflexivity|].
  destruct ev; cbn [app exec]; try reflexivity; auto.
  - destruct (nth_error _ _); [destruct (get_values _ _)|]; auto.
  - destruct (get_values _ _); [destruct a|]; auto.
Qed.

(** Every exception [exec] raises is one of the parser's exits: [-h] and
    the crash each need their event. *)
Lemma exec_error tys evs ns e :
  exec tys evs ns = Exn e ->
  (e = SystemExit 0 /\ In EHelp evs) \/ (e = IndexError /\ In ECrash evs) \/ e = argparse_error.
Proof.
  revert ns. induction evs as [|ev evs IH]; intros ns H; [discriminate|].
  destruct ev; cbn [exec] in H;
    repeat match type of H with
    | context [match ?x with _ => _ end] => destruct x
    end; try (injection H as <-); cbn [In]; try tauto;
    apply IH in H; tauto.
Qed.

Lemma exec_exit tys evs ns e : exec tys evs ns = Exn e -> parser_exit e.
Proof. intros H. apply exec_error in H. unfold parser_exit. tauto. Qed.

Lemma exec_counts tys evs ns ns' :
  exec tys evs ns = Ok ns' ->
  length (ns_pos ns') = (length (ns_pos ns) + count_pos evs)%nat
  /\ ns_extras ns' = (ns_extras ns ++ extras_of evs)%list.
Proof.
  revert ns. induction evs as [|ev evs IH]; intros ns H.
  - injection H as <-. cbn. rewrite app_nil_r. split; [lia | reflexivity].
  - destruct ev; cbn [exec count_pos extras_of] in *;
      repeat match type of H with
      | context [match ?x with _ => _ end] => destruct x
      end; try discriminate; apply IH in H as [H1 H2]; cbn in H1, H2;
      rewrite ?length_app in H1; cbn in H1;
      (split; [lia | rewrite H2, <- ?app_assoc; reflexivity]).
Qed.

Lemma get_values_single t s : String.eqb s "--" = false -> get_values t [s] = convert t s.
Proof. intros H. unfold get_values. cbn [remove_dd]. now rewrite H. Qed.

Lemma no_ambiguous_WPos l : existsb is_ambiguous (map WPos l) = false.
Proof. induction l; cbn; auto. Qed.

Lemma bare_events_no_exit n l :
  ~ In EHelp (map (fun s => EPos [s]) (firstn n l) ++ map EExtra (skipn n l))%list
  /\ ~ In ECrash (map (fun s => EPos [s]) (firstn n l) ++ map EExtra (skipn n l))%list.
Proof. split; rewrite in_app_iff, !in_map_iff; intros [(? & H & _) | (? & H & _)]; discriminate. Qed.

(** ** Properties of the parser *)

(** C23: a command line of plain words (none taken for an option or the
    ["--"] marker) whose length differs from the number of positional
    arguments makes [parse_args] exit with status 2: too few arguments,
    or unrecognized ones; the values already converted do not matter. *)
Theorem parse_args_wrong_count tys argv :
  forallb bare argv = true -> length argv <> length tys ->
  parse_args tys argv = Exn argparse_error.
Proof.
  intros Hb Hlen. unfold parse_args.
  rewrite classify_all_bare_map, no_ambiguous_WPos, consume_bare by exact Hb.
  destruct (exec _ _ _) as [ns|e] eqn:E.
  - apply exec_counts in E as [H1 H2].
    rewrite count_pos_bare in H1. rewrite extras_of_bare in H2. cbn in H1, H2.
    rewrite length_firstn in H1. rewrite H1, H2.
    destruct (Nat.ltb_spec (Nat.min (length tys) (length argv)) (length tys)); [reflexivity|].
    destruct (skipn (length tys) argv) eqn:Es; [|reflexivity].
    apply (f_equal (@length string)) in Es. rewrite length_skipn in Es. cbn in Es. lia.
  - apply exec_error in E. destruct (bare_events_no_exit (length tys) argv). intuition congruence.
Qed.

(** C25: [-h] or [--help] as the first word makes [parse_args] print the
    help and exit with status 0, before any positional is converted or
    counted, when no later word is an ambiguous abbreviation (which
    [argparse] rejects while it classifies the words, before any action). *)
Theorem parse_args_help tys h argv :
  In h ["-h"; "--help"] -> existsb is_ambiguous (classify_all argv) = false ->
  parse_args tys (h :: argv) = Exn (SystemExit 0).
Proof.
  intros Hh Ha. unfold parse_args.
  destruct Hh as [<- | [<- | []]]; cbn [classify_all String.eqb Ascii.eqb Bool.eqb andb];
    cbn - [classify_all consume exec]; rewrite Ha; reflexivity.
Qed.

(** ** Witnesses *)

Lemma parse_args_wrong_count_witness :
  forallb bare ["COM7"; "115200"; "COM8"] = true /\ length ["COM7"; "115200"; "COM8"] <> length [TStr; TInt; TStr; TInt; TStr; TStr] /\
  parse_args [TStr; TInt; TStr; TInt; TStr; TStr] ["COM7"; "115200"; "COM8"] = Exn argparse_error.
Proof.
  split; [vm_compute; reflexivity|]. split; [cbn; lia|].
  apply parse_args_wrong_count; [vm_compute; reflexivity | cbn; lia].
Defined.

Lemma parse_args_help_witness :
  In "-h" ["-h"; "--help"] /\ existsb is_ambiguous (classify_all ["COM7"; "--max"; "x"]) = false /\
  parse_args [TStr; TInt] ["-h"; "COM7"; "--max"; "x"] = Exn (SystemExit 0).
Proof.
  split; [cbn; auto|]. split; [vm_compute; reflexivity|].
  apply parse_args_help; [cbn; auto | vm_compute; reflexivity].
Defined.
