(* ===== verification/Session.v ===== *)
(** * ProtocolSession: one test iteration, [SamplingTest.RunTest]

    [RunTest] (lines 179-376 of [src/ADC_Test.py]) reads two lines from
    the DUT, splits each into five comma-separated fields, computes the
    expected counts for the global amplitude [fAMP], resets the tolerance
    dictionaries, converts the six reported counts with [int()] and
    returns the pass/fail pair of the two channels.  Nothing is caught:
    a line that does not split into exactly five fields raises
    [ValueError] at the unpacking, and a non-numeric count raises
    [ValueError] at its [int()]; both propagate to the caller.

    The header and channel fields are never converted or compared: the
    first line read is channel 1 and the second channel 2, whatever they
    say. *)

From Stdlib Require Import String Ascii List ZArith QArith Lia Bool.
From S2P Require Import Prelude PyStr Waveform Expected Tolerance Serial.
Import ListNotations.
Import Tolerance.
Open Scope pym_scope.
Local Open Scope string_scope.

(** [a, b, c, d, e = xs]: Python raises [ValueError] unless [xs] has
    exactly five elements. *)
Definition unpack5 (xs : list string) : PyM (string * string * string * string * string) :=
  match xs with
  | [a; b; c; d; e] => ret (a, b, c, d, e)
  | _ => raise (UnpackError (length xs))
  end.

(** [int(s)], raising [ValueError] on a non-numeric string. *)
Definition py_int_exn (s : string) : PyM Z :=
  match py_int s with
  | Some z => ret z
  | None => raise (IntError s)
  end.

Definition comma : ascii := ",".

(** The whole method.  [fAMP] is the global amplitude; the calibration
    constants are the locals of lines 183-189. *)
Definition RunTest (fAMP : Q) : PyM (bool * bool) :=
  let limits := initial_limits in
  received_data <- ReadSerialPortLineDUT ;;
  '(Header1, ADC_Channel1, ADC_Mean1, ADC_Min1, ADC_Max1)
     <- unpack5 (py_split comma (rstrip received_data)) ;;
  let ADC_Max1 := rstrip ADC_Max1 in
  received_data <- ReadSerialPortLineDUT ;;
  '(Header2, ADC_Channel2, ADC_Mean2, ADC_Min2, ADC_Max2)
     <- unpack5 (py_split comma received_data) ;;
  let ADC_Max2 := rstrip ADC_Max2 in
  let expected := WaveformQ.computeExpected reference_constants fAMP in
  let limits := set_limits expected limits in
  mean1 <- py_int_exn ADC_Mean1 ;;
  min1 <- py_int_exn ADC_Min1 ;;
  max1 <- py_int_exn ADC_Max1 ;;
  mean2 <- py_int_exn ADC_Mean2 ;;
  min2 <- py_int_exn ADC_Min2 ;;
  max2 <- py_int_exn ADC_Max2 ;;
  ret (evaluate_channel limits mean1 min1 max1,
       evaluate_channel limits mean2 min2 max2).

(** A DUT reading line [header,channel,mean,min,max], as §6 of the spec
    describes it (the line terminator is appended separately). *)
Definition reading_line (hdr chan : string) (mean min max : Z) : string :=
  join comma [hdr; chan; str_Z mean; str_Z min; str_Z max].

(** The verdict [RunTest] gives one channel's three counts. *)
Definition channel_result (fAMP : Q) (mean min max : Z) : bool :=
  evaluate_channel (set_limits (WaveformQ.computeExpected reference_constants fAMP)
                               initial_limits) mean min max.

(** One DUT reading line: its fields and its terminator. *)
Record Reading := mkReading {
  r_hdr : string; r_chan : string; r_mean : Z; r_min : Z; r_max : Z; r_term : string
}.

Definition render (r : Reading) : string :=
  reading_line (r_hdr r) (r_chan r) (r_mean r) (r_min r) (r_max r) ++ r_term r.

(** Header and channel hold no comma; the terminator is whitespace. *)
Definition wf_reading (r : Reading) : bool :=
  sep_free comma (r_hdr r) && sep_free comma (r_chan r) && all_space (r_term r).

Definition verdict (fAMP : Q) (r : Reading) : bool :=
  channel_result fAMP (r_mean r) (r_min r) (r_max r).

Definition demo_world (lines : list string) : World :=
  mkWorld ["COM7"; "COM8"] (mkPort Opened [] []) (mkPort Opened lines []) [] [].

Definition demo_lines : list string :=
  [reading_line "ADC" "1" 405 3 810 ++ " "; reading_line "ADC" "2" 1225 0 817 ++ " "].

(** The first string [int()] rejects, in the order given. *)
Definition first_bad_int (l : list string) : option string :=
  find (fun s => match py_int s with None => true | Some _ => false end) l.

(** ** Parsing a well-formed line *)

Lemma split_first_line hdr chan mean min max t :
  sep_free comma hdr = true -> sep_free comma chan = true -> all_space t = true ->
  py_split comma (rstrip (reading_line hdr chan mean min max ++ t))
  = [hdr; chan; str_Z mean; str_Z min; str_Z max].
Proof.
  intros Hh Hc Ht. unfold reading_line. rewrite rstrip_app_space by exact Ht.
  change [hdr; chan; str_Z mean; str_Z min; str_Z max]
    with ([hdr; chan; str_Z mean; str_Z min] ++ [str_Z max])%list.
  rewrite rstrip_join_last by (apply rstrip_str_Z || apply str_Z_nonempty).
  apply py_split_join; [destruct [hdr]; discriminate|].
  simpl. now rewrite Hh, Hc, !str_Z_sep_free.
Qed.

Lemma split_second_line hdr chan mean min max t :
  sep_free comma hdr = true -> sep_free comma chan = true -> all_space t = true ->
  py_split comma (reading_line hdr chan mean min max ++ t)
  = [hdr; chan; str_Z mean; str_Z min; str_Z max ++ t].
Proof.
  intros Hh Hc Ht. unfold reading_line.
  change [hdr; chan; str_Z mean; str_Z min; str_Z max]
    with ([hdr; chan; str_Z mean; str_Z min] ++ [str_Z max])%list.
  rewrite join_last_app. apply py_split_join; [destruct [hdr]; discriminate|].
  simpl. rewrite Hh, Hc, !str_Z_sep_free, sep_free_app, str_Z_sep_free.
  now rewrite space_sep_free.
Qed.

Lemma py_int_exn_str_Z z w : py_int_exn (str_Z z) w = (Ok z, w).
Proof. unfold py_int_exn. now rewrite py_int_str_Z_plain. Qed.

(** [RunTest] on two well-formed lines. *)
Lemma RunTest_two_lines fAMP w hdr1 ch1 mean1 min1 max1 t1
        hdr2 ch2 mean2 min2 max2 t2 rest :
  p_state (w_dut w) = Opened ->
  p_rx (w_dut w) = (reading_line hdr1 ch1 mean1 min1 max1 ++ t1)
                   :: (reading_line hdr2 ch2 mean2 min2 max2 ++ t2) :: rest ->
  forallb (sep_free comma) [hdr1; ch1; hdr2; ch2] = true ->
  all_space t1 = true -> all_space t2 = true ->
  RunTest fAMP w
  = (Ok (channel_result fAMP mean1 min1 max1, channel_result fAMP mean2 min2 max2),
     set_port DUT (mkPort Opened rest (p_tx (w_dut w))) w).
Proof.
  intros Hs Hrx Hf Ht1 Ht2. simpl in Hf.
  apply andb_true_iff in Hf as [Hh1 Hf]. apply andb_true_iff in Hf as [Hc1 Hf].
  apply andb_true_iff in Hf as [Hh2 Hf]. apply andb_true_iff in Hf as [Hc2 _].
  unfold RunTest, ReadSerialPortLineDUT.
  rewrite (bind_Ok _ _ _ _ _ (readline_port_pop DUT w _ _ Hs Hrx)).
  rewrite split_first_line by assumption. cbn [unpack5]. rewrite bind_ret_l.
  set (l2 := reading_line hdr2 ch2 mean2 min2 max2 ++ t2).
  rewrite (bind_Ok _ _ _ _ _ (readline_port_pop DUT
    (set_port DUT (mkPort Opened (l2 :: rest) (p_tx (port_of DUT w))) w) l2 rest eq_refl eq_refl)).
  subst l2.
  rewrite split_second_line by assumption. cbn [unpack5]. rewrite bind_ret_l.
  rewrite rstrip_str_Z, rstrip_app_space, rstrip_str_Z by exact Ht2.
  rewrite !(bind_Ok _ _ _ _ _ (py_int_exn_str_Z _ _)).
  unfold ret. now rewrite set_port_twice.
Qed.

Lemma unpack5_raise xs w :
  length xs <> 5%nat -> unpack5 xs w = (Exn (UnpackError (length xs)), w).
Proof.
  intros H. destruct xs as [|a [|b [|c [|d [|e [|f xs]]]]]]; try reflexivity.
  contradiction.
Qed.

(** A first line that does not split into five fields. *)
Lemma RunTest_first_unpack_error fAMP w l rest :
  p_state (w_dut w) = Opened -> p_rx (w_dut w) = l :: rest ->
  length (py_split comma (rstrip l)) <> 5%nat ->
  RunTest fAMP w
  = (Exn (UnpackError (length (py_split comma (rstrip l)))),
     set_port DUT (mkPort Opened rest (p_tx (w_dut w))) w).
Proof.
  intros Hs Hrx Hlen. unfold RunTest, ReadSerialPortLineDUT.
  rewrite (bind_Ok _ _ _ _ _ (readline_port_pop DUT w _ _ Hs Hrx)).
  exact (bind_Exn _ _ _ _ _ (unpack5_raise _ _ Hlen)).
Qed.

(** C10: a DUT that sends nothing aborts the iteration.  pyserial's
    [readline] returns the empty string when its timeout expires; the empty string splits into
    one field, and [RunTest] raises [ValueError] without changing the
    world. *)
Theorem RunTest_timeout fAMP w :
  p_state (w_dut w) = Opened -> p_rx (w_dut w) = [] ->
  RunTest fAMP w = (Exn (UnpackError 1), w).
Proof.
  intros Hs Hrx. unfold RunTest, ReadSerialPortLineDUT.
  rewrite (bind_Ok _ _ _ _ _ (readline_port_timeout DUT w Hs Hrx)).
  exact (bind_Exn _ _ _ _ _ (unpack5_raise [EmptyString] w ltac:(discriminate))).
Qed.

(** C11: the channel verdict is the conjunction of three band checks.
    A channel passes exactly when its mean, minimum and maximum are each
    within 20 counts of the expected value, bounds included. *)
Theorem channel_result_iff fAMP mean min max :
  channel_result fAMP mean min max = true <->
  (let e := WaveformQ.computeExpected reference_constants fAMP in
   inBand mean (iADCmean e) 20 = true /\ inBand min (iADCpeakMin e) 20 = true
   /\ inBand max (iADCpeakMax e) 20 = true).
Proof.
  unfold channel_result. rewrite evaluate_channel_iff, set_limits_spec. simpl.
  now rewrite !within_limits_of.
Qed.

(** [RunTest] on two well-formed readings, in terms of [Reading]. *)
Lemma RunTest_readings fAMP a b rest devs con dtx log sl :
  wf_reading a = true -> wf_reading b = true ->
  RunTest fAMP (mkWorld devs con (mkPort Opened (render a :: render b :: rest) dtx) log sl)
  = (Ok (verdict fAMP a, verdict fAMP b), mkWorld devs con (mkPort Opened rest dtx) log sl).
Proof.
  intros Ha Hb. unfold wf_reading in Ha, Hb.
  apply andb_true_iff in Ha as [Ha Hta]. apply andb_true_iff in Ha as [Hha Hca].
  apply andb_true_iff in Hb as [Hb Htb]. apply andb_true_iff in Hb as [Hhb Hcb].
  rewrite (RunTest_two_lines fAMP _ (r_hdr a) (r_chan a) (r_mean a) (r_min a) (r_max a)
           (r_term a) (r_hdr b) (r_chan b) (r_mean b) (r_min b) (r_max b) (r_term b) rest);
    try reflexivity; try assumption.
  simpl. now rewrite Hha, Hca, Hhb, Hcb.
Qed.

(** [RunTest] reads the DUT and raises, but never logs. *)
Lemma RunTest_log fAMP : frame w_log (RunTest fAMP).
Proof. unfold RunTest, unpack5, py_int_exn. serial_frame. Qed.

Lemma RunTest_tx fAMP : frame tx_of (RunTest fAMP).
Proof. unfold RunTest, unpack5, py_int_exn. serial_frame. Qed.

#[export] Hint Resolve RunTest_log RunTest_tx : pym.

(** ** Properties of [RunTest] *)

(** C7: one iteration on two well-formed lines.  When the DUT's next two
    lines are [header,channel,mean,min,max] readings (any header and
    channel without a comma, any trailing whitespace), [RunTest] returns
    the verdicts of the three-count check for channel 1 (first line) and
    channel 2 (second line), consumes exactly these two lines, and
    changes nothing else.  The channel fields are neither parsed nor
    compared. *)
Theorem RunTest_wellformed fAMP w hdr1 ch1 mean1 min1 max1 t1
        hdr2 ch2 mean2 min2 max2 t2 rest :
  p_state (w_dut w) = Opened ->
  p_rx (w_dut w) = (reading_line hdr1 ch1 mean1 min1 max1 ++ t1)
                   :: (reading_line hdr2 ch2 mean2 min2 max2 ++ t2) :: rest ->
  forallb (sep_free comma) [hdr1; ch1; hdr2; ch2] = true ->
  all_space t1 = true -> all_space t2 = true ->
  RunTest fAMP w
  = (Ok (channel_result fAMP mean1 min1 max1, channel_result fAMP mean2 min2 max2),
     set_port DUT (mkPort Opened rest (p_tx (w_dut w))) w).
Proof. apply RunTest_two_lines. Qed.

(** C8: a malformed first line aborts the iteration.  When the first DUT
    line does not split into exactly five fields, [RunTest] raises
    [ValueError] at the unpacking, after consuming that line only; the
    second channel is not evaluated. *)
Theorem RunTest_malformed_first fAMP w l rest :
  p_state (w_dut w) = Opened -> p_rx (w_dut w) = l :: rest ->
  length (py_split comma (rstrip l)) <> 5%nat ->
  RunTest fAMP w
  = (Exn (UnpackError (length (py_split comma (rstrip l)))),
     set_port DUT (mkPort Opened rest (p_tx (w_dut w))) w).
Proof. apply RunTest_first_unpack_error. Qed.

(** C12: a field that is not an integer aborts the iteration, after
    both lines are read.  When the DUT's next two lines split into five
    fields each, the six [int()] conversions run in the code's order
    (mean, minimum, maximum of channel 1, then of channel 2, each maximum
    stripped): the first field [int()] rejects is the one [ValueError]
    reports, and both lines are consumed even when the bad field is on
    the first. *)
Theorem RunTest_int_error fAMP w l1 l2 rest h1 c1 m1 n1 x1 h2 c2 m2 n2 x2 s :
  p_state (w_dut w) = Opened -> p_rx (w_dut w) = l1 :: l2 :: rest ->
  py_split comma (rstrip l1) = [h1; c1; m1; n1; x1] ->
  py_split comma l2 = [h2; c2; m2; n2; x2] ->
  first_bad_int [m1; n1; rstrip x1; m2; n2; rstrip x2] = Some s ->
  RunTest fAMP w = (Exn (IntError s), set_port DUT (mkPort Opened rest (p_tx (w_dut w))) w).
Proof.
  intros Hs Hrx H1 H2 Hbad. unfold RunTest, ReadSerialPortLineDUT.
  rewrite (bind_Ok _ _ _ _ _ (readline_port_pop DUT w _ _ Hs Hrx)).
  rewrite H1. cbn [unpack5]. rewrite bind_ret_l.
  rewrite (bind_Ok _ _ _ _ _ (readline_port_pop DUT
    (set_port DUT (mkPort Opened (l2 :: rest) (p_tx (port_of DUT w))) w) l2 rest eq_refl eq_refl)).
  rewrite H2. cbn [unpack5]. rewrite bind_ret_l, set_port_twice.
  unfold first_bad_int in Hbad. cbn [find] in Hbad. unfold py_int_exn.
  repeat match type of Hbad with
  | context [match py_int ?x with _ => _ end] =>
      let E := fresh "E" in destruct (py_int x) eqn:E; cbn in Hbad
  end; try discriminate; injection Hbad as <-; reflexivity.
Qed.

(** ** Witnesses *)

Lemma RunTest_wellformed_witness :
  RunTest (43 # 100) (demo_world demo_lines)
  = (Ok (channel_result (43 # 100) 405 3 810, channel_result (43 # 100) 1225 0 817),
     set_port DUT (mkPort Opened [] (p_tx (w_dut (demo_world demo_lines))))
       (demo_world demo_lines)).
Proof.
  apply (RunTest_wellformed (43 # 100) _ "ADC" "1" 405 3 810 " " "ADC" "2" 1225 0 817 " " []);
    reflexivity.
Defined.

Lemma RunTest_malformed_first_witness :
  RunTest (43 # 100) (demo_world ["ADC,1,405,3"; reading_line "ADC" "2" 404 0 817])
  = (Exn (UnpackError (length (py_split comma (rstrip "ADC,1,405,3")))),
     set_port DUT (mkPort Opened [reading_line "ADC" "2" 404 0 817]
                     (p_tx (w_dut (demo_world ["ADC,1,405,3"; reading_line "ADC" "2" 404 0 817]))))
       (demo_world ["ADC,1,405,3"; reading_line "ADC" "2" 404 0 817])).
Proof.
  apply (RunTest_malformed_first (43 # 100) _ "ADC,1,405,3" [reading_line "ADC" "2" 404 0 817]);
    [reflexivity | reflexivity | discriminate].
Defined.

Lemma RunTest_int_error_witness :
  first_bad_int ["4o4"; "3"; rstrip "810"; "404"; "0"; rstrip "817"] = Some "4o4" /\
  RunTest (43 # 100) (demo_world ["ADC,1,4o4,3,810"; "ADC,2,404,0,817"])
  = (Exn (IntError "4o4"),
     set_port DUT (mkPort Opened [] (p_tx (w_dut (demo_world ["ADC,1,4o4,3,810"; "ADC,2,404,0,817"]))))
       (demo_world ["ADC,1,4o4,3,810"; "ADC,2,404,0,817"])).
Proof.
  split; [vm_compute; reflexivity|].
  apply (RunTest_int_error (43 # 100) _ "ADC,1,4o4,3,810" "ADC,2,404,0,817" [] "ADC" "1" "4o4" "3" "810"
           "ADC" "2" "404" "0" "817"); vm_compute; reflexivity.
Defined.

Lemma RunTest_timeout_witness :
  RunTest (43 # 100) (demo_world []) = (Exn (UnpackError 1), demo_world []).
Proof. apply RunTest_timeout; reflexivity. Defined.
