(* ===== verification/Runner.v ===== *)
(** * TestRunner: [LoopAndLog] and [main]

    [LoopAndLog] (lines 414-492 of [src/ADC_Test.py]) logs the start,
    reads the interval and the number of tests from the arguments
    ([CheckInterval], [CheckMaxTests]), opens the controller port then the
    DUT port, and runs [for testCounter in range(1, MAX_TEST+1)].  On the
    first iteration only ([TestBegin]) it reads two DUT lines, sends the
    stimulus command [MESSAGE_PING] to the controller and reads one
    controller line; every iteration then calls [RunTest], updates the
    pass counter of each channel, recomputes its pass rate
    [100.0 * PassCounter / testCounter], logs one record per channel and
    sleeps.  At the end it closes both ports and logs ['Finished'].  No
    exception is caught: an exception of [RunTest] ends the run with the
    ports open.

    The loop state is the record [LoopState]; the loop is [mfold] over
    [py_range 1 (MAX_TEST + 1)], so it terminates by construction.

    The file proves that the loop refines the abstract runner [spec_loop]
    on well-formed input, what a malformed reading does, and, with the
    Hoare rules of [Prelude], that the log stays sound on every run. *)

From Stdlib Require Import String Ascii List ZArith QArith Qround Lia Bool.
From S2P Require Import Prelude PyStr Args Waveform Expected Tolerance Serial Session.
Import ListNotations.
Open Scope pym_scope.

Definition CR : string := String (ascii_of_nat 13) EmptyString.

(** [MESSAGE_PING = '2,' + str(fAMP) + ',' + str(FREQ) + '\r'] *)
Definition MESSAGE_PING (fAMP : Dec) (FREQ : Z) : string :=
  ("2," ++ py_str_float fAMP ++ "," ++ str_Z FREQ ++ CR)%string.

Record LoopState := mkLoop {
  TestBegin : bool;
  PassCounterChannel1 : Z;
  PassCounterChannel2 : Z;
  SuccessStatChannel1 : Q;
  SuccessStatChannel2 : Q
}.

(** Lines 417-425. *)
Definition initial_loop : LoopState := mkLoop true 0 0 0 0.

(** [100.0 * PassCounter / testCounter] *)
Definition success_stat (passes testCounter : Z) : Q :=
  (100 * inject_Z passes) / inject_Z testCounter.

(** [logging.info('Test %d,..,%d', ..)]: [%d] truncates the float. *)
Definition log_stat (s : Q) : Z := WaveformQ.Qtrunc s.

(** Lines 467-475 (channel 1) and 476-484 (channel 2). *)
Definition record_channel (testCounter : Z) (result : bool) (passes : Z) : PyM (Z * Q) :=
  if result then
    let passes := (passes + 1)%Z in
    let stat := success_stat passes testCounter in
    log_info (LogTest testCounter true (log_stat stat)) ;;; ret (passes, stat)
  else
    let stat := success_stat passes testCounter in
    log_info (LogTest testCounter false (log_stat stat)) ;;; ret (passes, stat).

(** Lines 452-458: the readiness gate, on the first iteration only. *)
Definition first_iteration_handshake (msg : string) (TestBegin : bool) : PyM bool :=
  if TestBegin then
    _ <- ReadSerialPortLineDUT ;;
    _ <- ReadSerialPortLineDUT ;;
    _ <- SendSerialCON msg false ;;
    _ <- ReadSerialPortLineCON ;;
    ret false
  else ret TestBegin.

(** The body of the loop, lines 445-486. *)
Definition loop_body (args : Args) (wait : Z) (st : LoopState) (testCounter : Z)
  : PyM LoopState :=
  let msg := MESSAGE_PING (Amplitude args) (Frequency args) in
  tb <- first_iteration_handshake msg (TestBegin st) ;;
  '(Channel1result, Channel2result) <- RunTest (float_value (Amplitude args)) ;;
  '(p1, s1) <- record_channel testCounter Channel1result (PassCounterChannel1 st) ;;
  '(p2, s2) <- record_channel testCounter Channel2result (PassCounterChannel2 st) ;;
  sleep wait ;;;
  ret (mkLoop tb p1 p2 s1 s2).

Definition LoopAndLog (args : Args) : PyM unit :=
  log_info (LogStarted (dutCOM args)) ;;;
  let TEST_WAIT_PERIOD_SECONDS := CheckInterval args in
  let MAX_TEST := CheckMaxTests args in
  openSerialPortCON (uCOM args) ;;;
  openSerialPortDUT (dutCOM args) ;;;
  _ <- mfold (loop_body args TEST_WAIT_PERIOD_SECONDS)
             (py_range 1 (MAX_TEST + 1)) initial_loop ;;
  CloseSerialPortCON ;;;
  CloseSerialPortDUT ;;;
  log_info LogFinished.

(** [main] (lines 499-535) with the arguments already parsed: apart from
    printing, it runs [LoopAndLog]. *)
Definition main (args : Args) : PyM unit := LoopAndLog args.

(** ** The abstract runner

    The statistics the loop must produce, as a pure fold over the
    iterations: for each [(testCounter, (reading1, reading2))] the pass
    counter of a channel grows by one when its verdict is a pass, its
    pass rate is recomputed from the counter, and one log record is made
    per channel. *)

Definition spec_channel (t : Z) (r : bool) (passes : Z) : Z * Q * LogEntry :=
  let p := if r then (passes + 1)%Z else passes in
  let s := success_stat p t in
  (p, s, LogTest t r (log_stat s)).

Definition spec_step (fAMP : Q) (st : LoopState) (t : Z) (ab : Reading * Reading)
  : LoopState * list LogEntry :=
  let '(p1, s1, e1) := spec_channel t (verdict fAMP (fst ab)) (PassCounterChannel1 st) in
  let '(p2, s2, e2) := spec_channel t (verdict fAMP (snd ab)) (PassCounterChannel2 st) in
  (mkLoop false p1 p2 s1 s2, [e1; e2]).

Fixpoint spec_loop (fAMP : Q) (st : LoopState) (tps : list (Z * (Reading * Reading)))
  : LoopState * list LogEntry :=
  match tps with
  | [] => (st, [])
  | (t, ab) :: rest =>
      let '(st', es) := spec_step fAMP st t ab in
      let '(st'', es') := spec_loop fAMP st' rest in
      (st'', es ++ es')
  end.

(** The DUT lines of a run, two per iteration. *)
Fixpoint flat_readings (ps : list (Reading * Reading)) : list string :=
  match ps with
  | [] => []
  | (a, b) :: ps' => render a :: render b :: flat_readings ps'
  end.

Definition wf_pair (tp : Z * (Reading * Reading)) : bool :=
  wf_reading (fst (snd tp)) && wf_reading (snd (snd tp)).

Definition passed (r : bool) : Z := if r then 1%Z else 0%Z.

(** The readings of scenario D of the spec: 20 iterations in which
    channel 1 fails the last two and channel 2 always passes. *)
Definition good_reading : Reading := mkReading "ADC" "1" 404 0 817 " "%string.
Definition bad_reading : Reading := mkReading "ADC" "1" 1260 0 817 " "%string.

Definition scenarioD_pairs : list (Reading * Reading) :=
  repeat (good_reading, good_reading) 18 ++ repeat (bad_reading, good_reading) 2.

Definition scenarioD_args : Args :=
  mkArgs "COM7"%string 115200 "COM8"%string 9600 (mkDec 43 2) 50 None (Some 20).

Definition scenarioD_world : World :=
  mkWorld ["COM7"; "COM8"]%string (mkPort Unset ["OK"%string] [])
          (mkPort Unset ("boot" :: "boot" :: flat_readings scenarioD_pairs)%string []) [] [].

(** A log record is sound when its test number is positive and its
    pass rate a percentage. *)
Definition log_ok (e : LogEntry) : bool :=
  match e with
  | LogTest t _ stat => (1 <=? t)%Z && (0 <=? stat)%Z && (stat <=? 100)%Z
  | _ => true
  end.

Definition log_sound (w : World) : Prop := forallb log_ok (w_log w) = true.

(** The loop invariant at the start of iteration [t]: at most [t - 1]
    passes per channel. *)
Definition counters_ok (t : Z) (st : LoopState) : Prop :=
  (1 <= t)%Z /\ (0 <= PassCounterChannel1 st <= t - 1)%Z
  /\ (0 <= PassCounterChannel2 st <= t - 1)%Z.

(** ** One iteration *)

Lemma readline_port_Opened k w :
  p_state (port_of k w) = Opened ->
  readline_port k w
  = (Ok (hd EmptyString (p_rx (port_of k w))),
     set_port k (mkPort Opened (tl (p_rx (port_of k w))) (p_tx (port_of k w))) w).
Proof.
  intros Hs. destruct (p_rx (port_of k w)) as [|l rest] eqn:E.
  - rewrite readline_port_timeout by assumption. simpl.
    rewrite <- Hs, <- E. destruct (port_of k w) as [st rx tx] eqn:Ep. simpl.
    rewrite <- Ep. now rewrite set_port_id.
  - rewrite (readline_port_pop k w l rest Hs E). reflexivity.
Qed.

Lemma record_channel_spec t r passes devs con dut log sl :
  record_channel t r passes (mkWorld devs con dut log sl)
  = let '(p, s, e) := spec_channel t r passes in
    (Ok (p, s), mkWorld devs con dut (log ++ [e]) sl).
Proof. unfold record_channel, spec_channel. destruct r; reflexivity. Qed.

(** An iteration whose readiness gate leaves two readings at the head of
    the DUT queue: two log records and one sleep out. *)
Lemma loop_body_step args wait st t w a b rest devs con dtx log sl :
  first_iteration_handshake (MESSAGE_PING (Amplitude args) (Frequency args)) (TestBegin st) w
  = (Ok false, mkWorld devs con (mkPort Opened (render a :: render b :: rest) dtx) log sl) ->
  wf_reading a = true -> wf_reading b = true ->
  loop_body args wait st t w
  = let '(st', es) := spec_step (float_value (Amplitude args)) st t (a, b) in
    (Ok st', mkWorld devs con (mkPort Opened rest dtx) (log ++ es) (sl ++ [wait])).
Proof.
  intros Hh Ha Hb. unfold loop_body.
  rewrite (bind_Ok _ _ _ _ _ Hh), (bind_Ok _ _ _ _ _ (RunTest_readings _ a b rest devs con dtx log sl Ha Hb)).
  unfold record_channel, spec_step, spec_channel, sleep, log_info. simpl fst; simpl snd.
  destruct (verdict (float_value (Amplitude args)) a), (verdict (float_value (Amplitude args)) b);
    pym_unfold; cbn -[success_stat log_stat]; now rewrite <- !app_assoc.
Qed.

Lemma loop_body_next args wait st t a b rest devs con dtx log sl :
  TestBegin st = false -> wf_reading a = true -> wf_reading b = true ->
  loop_body args wait st t
    (mkWorld devs con (mkPort Opened (render a :: render b :: rest) dtx) log sl)
  = let '(st', es) := spec_step (float_value (Amplitude args)) st t (a, b) in
    (Ok st', mkWorld devs con (mkPort Opened rest dtx) (log ++ es) (sl ++ [wait])).
Proof.
  intros Htb. apply loop_body_step. unfold first_iteration_handshake. now rewrite Htb.
Qed.

(** The readiness gate of the first iteration: two DUT lines discarded,
    the stimulus command written, one controller line read (or the empty string). *)
Lemma handshake_first msg devs crx ctx b1 b2 rest dtx log sl :
  first_iteration_handshake msg true
    (mkWorld devs (mkPort Opened crx ctx) (mkPort Opened (b1 :: b2 :: rest) dtx) log sl)
  = (Ok false, mkWorld devs (mkPort Opened (tl crx) (ctx ++ [msg]))
                      (mkPort Opened rest dtx) log sl).
Proof. destruct crx; reflexivity. Qed.

Lemma spec_step_TestBegin fAMP st t ab : TestBegin (fst (spec_step fAMP st t ab)) = false.
Proof.
  unfold spec_step.
  destruct (spec_channel _ _ _) as [[? ?] ?], (spec_channel _ _ _) as [[? ?] ?]. reflexivity.
Qed.

(** ** The loop refines the abstract runner

    Once the readiness gate has passed, running the loop over the test
    counters [map fst tps] on the DUT lines of [tps] yields the final loop
    state and the log records of [spec_loop], consumes exactly those lines,
    and sleeps once per iteration. *)
Lemma loop_refines args wait tps st rest devs con dtx log sl :
  TestBegin st = false -> forallb wf_pair tps = true ->
  mfold (loop_body args wait) (map fst tps) st
    (mkWorld devs con (mkPort Opened (flat_readings (map snd tps) ++ rest) dtx) log sl)
  = let '(st', es) := spec_loop (float_value (Amplitude args)) st tps in
    (Ok st', mkWorld devs con (mkPort Opened rest dtx) (log ++ es)
                     (sl ++ repeat wait (length tps))).
Proof.
  revert st log sl. induction tps as [|[t [a b]] tps IH]; intros st log sl Htb Hwf.
  - simpl. now rewrite !app_nil_r.
  - simpl in Hwf. unfold wf_pair in Hwf. simpl in Hwf.
    apply andb_true_iff in Hwf as [Hab Hwf]. apply andb_true_iff in Hab as [Ha Hb].
    pose proof (loop_body_next args wait st t a b (flat_readings (map snd tps) ++ rest)
                  devs con dtx log sl Htb Ha Hb) as Hstep.
    pose proof (spec_step_TestBegin (float_value (Amplitude args)) st t (a, b)) as Htb'.
    cbn [map fst snd flat_readings app mfold spec_loop length repeat].
    destruct (spec_step (float_value (Amplitude args)) st t (a, b)) as [st' es].
    rewrite (bind_Ok _ _ _ _ _ Hstep), IH by assumption.
    destruct (spec_loop (float_value (Amplitude args)) st' tps) as [st'' es'].
    now rewrite <- !app_assoc.
Qed.

(** ** A complete run *)

(** The run on well-formed input, step by step. *)
Lemma LoopAndLog_run args devs crx ctx b1 b2 tps rest dtx log sl :
  existsb (String.eqb (uCOM args)) devs = true ->
  existsb (String.eqb (dutCOM args)) devs = true ->
  map fst tps = py_range 1 (CheckMaxTests args + 1) ->
  forallb wf_pair tps = true ->
  LoopAndLog args
    (mkWorld devs (mkPort Unset crx ctx)
             (mkPort Unset (b1 :: b2 :: flat_readings (map snd tps) ++ rest) dtx) log sl)
  = let '(st, es) := spec_loop (float_value (Amplitude args)) initial_loop tps in
    (Ok tt, mkWorld devs
              (mkPort Closed (tl crx) (ctx ++ [MESSAGE_PING (Amplitude args) (Frequency args)]))
              (mkPort Closed rest dtx)
              (log ++ [LogStarted (dutCOM args)] ++ es ++ [LogFinished])
              (sl ++ repeat (CheckInterval args) (length tps))).
Proof.
  intros Hcon Hdut Hts Hwf.
  pose proof (CheckMaxTests_pos args) as Hpos.
  unfold LoopAndLog. rewrite <- Hts.
  destruct tps as [|[t [a b]] tps].
  - rewrite py_range_cons in Hts by lia. discriminate.
  - rewrite py_range_cons in Hts by lia. injection Hts as -> _.
    simpl in Hwf. unfold wf_pair in Hwf. simpl in Hwf.
    apply andb_true_iff in Hwf as [Hab Hwf]. apply andb_true_iff in Hab as [Ha Hb].
    unfold openSerialPortCON, openSerialPortDUT, open_port, log_info.
    pym_unfold. cbn [w_devices port_of set_port p_rx p_tx w_log w_con w_dut w_sleeps].
    rewrite Hcon. cbn [w_devices port_of set_port p_rx p_tx w_log w_con w_dut w_sleeps].
    rewrite Hdut. cbn [w_devices port_of set_port p_rx p_tx w_log w_con w_dut w_sleeps].
    cbn [map fst snd flat_readings app mfold].
    fold (@bind World PyExn).
    pose proof (loop_body_step args (CheckInterval args) initial_loop 1 _ a b _ devs _ dtx _ sl
                  (handshake_first (MESSAGE_PING (Amplitude args) (Frequency args)) devs crx ctx
                     b1 b2 (render a :: render b :: flat_readings (map snd tps) ++ rest) dtx
                     (log ++ [LogStarted (dutCOM args)]) sl) Ha Hb) as Hstep.
    pose proof (spec_step_TestBegin (float_value (Amplitude args)) initial_loop 1 (a, b)) as Htb.
    cbn [spec_loop]. revert Hstep Htb.
    destruct (spec_step (float_value (Amplitude args)) initial_loop 1 (a, b)) as [st1 es1].
    intros Hstep Htb. simpl in Htb. rewrite (bind_Ok _ _ _ _ _ Hstep).
    rewrite (loop_refines args (CheckInterval args) tps st1 rest) by assumption.
    destruct (spec_loop (float_value (Amplitude args)) st1 tps) as [st es].
    unfold CloseSerialPortCON, CloseSerialPortDUT, close_port. pym_unfold. cbn.
    now rewrite <- !app_assoc.
Qed.

(** C1: a run on well-formed input completes.  When both ports can be
    opened and the DUT sends two boot lines followed by one pair of
    well-formed readings for each of the [CheckMaxTests args] iterations,
    [LoopAndLog] terminates without an exception and:
    - the log holds the start record, the records of the abstract runner
      [spec_loop] (two per iteration) and ['Finished'], in this order;
    - the controller received exactly one command, the stimulus
      [MESSAGE_PING], and one controller line was read;
    - both ports are closed and every DUT line was consumed;
    - the script slept [CheckInterval args] seconds once per iteration. *)
Theorem LoopAndLog_wellformed args devs crx ctx b1 b2 tps rest dtx log sl :
  existsb (String.eqb (uCOM args)) devs = true ->
  existsb (String.eqb (dutCOM args)) devs = true ->
  map fst tps = py_range 1 (CheckMaxTests args + 1) ->
  forallb wf_pair tps = true ->
  LoopAndLog args
    (mkWorld devs (mkPort Unset crx ctx)
             (mkPort Unset (b1 :: b2 :: flat_readings (map snd tps) ++ rest) dtx) log sl)
  = let '(st, es) := spec_loop (float_value (Amplitude args)) initial_loop tps in
    (Ok tt, mkWorld devs
              (mkPort Closed (tl crx) (ctx ++ [MESSAGE_PING (Amplitude args) (Frequency args)]))
              (mkPort Closed rest dtx)
              (log ++ [LogStarted (dutCOM args)] ++ es ++ [LogFinished])
              (sl ++ repeat (CheckInterval args) (length tps))).
Proof. apply LoopAndLog_run. Qed.

(** ** Lemmas on the abstract runner *)

Lemma spec_step_counts fAMP st t a b :
  PassCounterChannel1 (fst (spec_step fAMP st t (a, b)))
  = (PassCounterChannel1 st + passed (verdict fAMP a))%Z
  /\ PassCounterChannel2 (fst (spec_step fAMP st t (a, b)))
  = (PassCounterChannel2 st + passed (verdict fAMP b))%Z.
Proof.
  unfold spec_step, spec_channel, passed. simpl fst; simpl snd.
  destruct (verdict fAMP a), (verdict fAMP b); simpl; lia.
Qed.

Lemma count_true_cons b l : count_true (b :: l) = (Z.to_nat (passed b) + count_true l)%nat.
Proof. destruct b; reflexivity. Qed.

Lemma spec_loop_counts fAMP st tps :
  PassCounterChannel1 (fst (spec_loop fAMP st tps))
  = (PassCounterChannel1 st + Z.of_nat (count_true (map (fun tp => verdict fAMP (fst (snd tp))) tps)))%Z
  /\ PassCounterChannel2 (fst (spec_loop fAMP st tps))
  = (PassCounterChannel2 st + Z.of_nat (count_true (map (fun tp => verdict fAMP (snd (snd tp))) tps)))%Z.
Proof.
  revert st. induction tps as [|[t [a b]] tps IH]; intros st; [simpl; lia|].
  cbn [spec_loop map fst snd]. rewrite !count_true_cons.
  destruct (spec_step_counts fAMP st t a b) as [Ha Hb].
  destruct (spec_step fAMP st t (a, b)) as [st' es] eqn:E. simpl fst in Ha, Hb.
  destruct (IH st') as [H1 H2].
  destruct (spec_loop fAMP st' tps) as [st'' es']. simpl fst in *.
  unfold passed in *. destruct (verdict fAMP a), (verdict fAMP b); simpl Z.to_nat in *; lia.
Qed.

(** [%d] of [100.0 * passes / testCounter] is the integer quotient. *)
Lemma log_stat_div p t :
  (0 <= p)%Z -> (0 < t)%Z -> log_stat (success_stat p t) = (100 * p / t)%Z.
Proof.
  intros Hp Ht. unfold log_stat, success_stat, WaveformQ.Qtrunc.
  assert (Hq : (100 * inject_Z p / inject_Z t == inject_Z (100 * p) / inject_Z t)%Q).
  { rewrite inject_Z_mult. reflexivity. }
  replace (Qle_bool 0 (100 * inject_Z p / inject_Z t)) with true.
  - rewrite (Qfloor_comp _ _ Hq). symmetry. apply Zdiv_Qdiv.
  - symmetry. apply Qle_bool_iff. rewrite Hq.
    apply Qle_shift_div_l; [unfold Qlt; simpl; lia|].
    rewrite Qmult_0_l. change 0%Q with (inject_Z 0). rewrite <- Zle_Qle. lia.
Qed.

(** Logging the start and opening both ports. *)
Lemma LoopAndLog_opens args devs crx ctx drx dtx log sl :
  existsb (String.eqb (uCOM args)) devs = true ->
  existsb (String.eqb (dutCOM args)) devs = true ->
  LoopAndLog args (mkWorld devs (mkPort Unset crx ctx) (mkPort Unset drx dtx) log sl)
  = bind (mfold (loop_body args (CheckInterval args)) (py_range 1 (CheckMaxTests args + 1))
                initial_loop)
         (fun _ => CloseSerialPortCON ;;; CloseSerialPortDUT ;;; log_info LogFinished)
         (mkWorld devs (mkPort Opened crx ctx) (mkPort Opened drx dtx)
                  (log ++ [LogStarted (dutCOM args)]) sl).
Proof.
  intros Hcon Hdut. unfold LoopAndLog, openSerialPortCON, openSerialPortDUT, open_port, log_info.
  pym_unfold. cbn [w_devices port_of set_port p_rx p_tx w_log w_con w_dut w_sleeps].
  rewrite Hcon. cbn [w_devices port_of set_port p_rx p_tx w_log w_con w_dut w_sleeps].
  rewrite Hdut. reflexivity.
Qed.

(** ** The log records are sound on every run *)

Lemma log_ok_stat t r p :
  (1 <= t)%Z -> (0 <= p <= t)%Z -> log_ok (LogTest t r (log_stat (success_stat p t))) = true.
Proof.
  intros Ht Hp. simpl. rewrite log_stat_div by lia.
  assert (0 <= 100 * p / t)%Z by (apply Z.div_pos; lia).
  assert (100 * p / t <= 100)%Z by (apply Z.div_le_upper_bound; lia).
  apply andb_true_iff; split; [apply andb_true_iff; split|]; apply Z.leb_le; lia.
Qed.

Lemma handshake_log msg tb : frame w_log (first_iteration_handshake msg tb).
Proof. unfold first_iteration_handshake. serial_frame. Qed.

#[export] Hint Resolve handshake_log : pym.

(** The lemmas below hold for any predicate [Q] on log records that
    accepts the records [record_channel] writes and ['Finished']: a run
    that starts with a log of [Q]-records and logs a [Q]-start record ends,
    returning or raising, with a log of [Q]-records.  [log_ok] is one such
    predicate. *)
Definition log_all (Q : LogEntry -> bool) (w : World) : Prop := forallb Q (w_log w) = true.

Section LogInvariant.
Context (Q : LogEntry -> bool).
Hypothesis Q_test : forall t r p,
  (1 <= t)%Z -> (0 <= p <= t)%Z -> Q (LogTest t r (log_stat (success_stat p t))) = true.
Hypothesis Q_finished : Q LogFinished = true.

Lemma frame_log_all {A} (m : PyM A) :
  frame w_log m -> hoare (log_all Q) m (fun _ => log_all Q) (log_all Q).
Proof. apply (hoare_frame w_log (fun l => forallb Q l = true)). Qed.

Lemma log_info_all e :
  Q e = true -> hoare (log_all Q) (log_info e) (fun _ => log_all Q) (log_all Q).
Proof.
  intros He w r w' Hw H. injection H as <- <-. unfold log_all in *.
  cbn [w_log]; rewrite forallb_app, Hw; cbn [forallb]; now rewrite He.
Qed.

Lemma record_channel_all t r p :
  (1 <= t)%Z -> (0 <= p <= t - 1)%Z ->
  hoare (log_all Q) (record_channel t r p)
        (fun ps w => log_all Q w /\ (0 <= fst ps <= t)%Z) (log_all Q).
Proof.
  intros Ht Hp. unfold record_channel.
  destruct r; (eapply hoare_bind; [apply log_info_all, Q_test; lia|]);
    intros _ w r' w' Hw H; injection H as <- <-; simpl; split; auto; lia.
Qed.

(** One iteration keeps the invariant and the counters within bounds,
    whatever the devices send. *)
Lemma loop_body_all args wait t st :
  counters_ok t st ->
  hoare (log_all Q) (loop_body args wait st t)
        (fun st' w => log_all Q w /\ counters_ok (t + 1) st') (log_all Q).
Proof.
  intros (Ht & H1 & H2). unfold loop_body.
  eapply hoare_bind; [apply frame_log_all; auto with pym|]. intros tb.
  eapply hoare_bind; [apply frame_log_all; auto with pym|]. intros [c1 c2].
  eapply hoare_bind; [apply record_channel_all; eassumption|]. intros [p1 s1].
  apply hoare_pre_pure. intros Hp1.
  eapply hoare_bind; [apply record_channel_all; eassumption|]. intros [p2 s2].
  apply hoare_pre_pure. intros Hp2.
  eapply hoare_bind; [apply frame_log_all; auto with pym|]. intros u.
  intros w r w' Hw H. injection H as Hr Hw'. subst r w'. unfold counters_ok. simpl in *.
  split; [exact Hw | lia].
Qed.

(** The whole run keeps the invariant, returning or raising. *)
Lemma LoopAndLog_all args :
  Q (LogStarted (dutCOM args)) = true ->
  hoare (log_all Q) (LoopAndLog args) (fun _ => log_all Q) (log_all Q).
Proof.
  intros Hs. pose proof (CheckMaxTests_pos args) as Hpos.
  unfold LoopAndLog. cbv zeta.
  eapply hoare_bind; [apply log_info_all; exact Hs|]. intros u.
  eapply hoare_bind; [apply frame_log_all; serial_frame|]. intros u1.
  eapply hoare_bind; [apply frame_log_all; serial_frame|]. intros u2.
  eapply hoare_bind.
  - replace (CheckMaxTests args + 1)%Z with (1 + Z.of_nat (Z.to_nat (CheckMaxTests args)))%Z by lia.
    eapply hoare_conseq;
      [apply (mfold_py_range_inv _ counters_ok (log_all Q) (loop_body_all args _))
      | | intros st w [Hw _]; exact Hw | ]; auto.
    unfold counters_ok. simpl. lia.
  - intros st.
    eapply hoare_bind; [apply frame_log_all; serial_frame|]. intros u3.
    eapply hoare_bind; [apply frame_log_all; serial_frame|]. intros u4.
    apply log_info_all. exact Q_finished.
Qed.
End LogInvariant.

Lemma LoopAndLog_hoare args :
  hoare log_sound (LoopAndLog args) (fun _ => log_sound) log_sound.
Proof. apply (LoopAndLog_all log_ok); [intros; now apply log_ok_stat | reflexivity | reflexivity]. Qed.

(** ** What a run writes to the devices *)

Lemma record_channel_tx t r p : frame tx_of (record_channel t r p).
Proof. unfold record_channel. destruct r; solve_frame. Qed.

#[export] Hint Resolve record_channel_tx : pym.

Lemma hoare_ret_keep {A} (a : A) (P : World -> Prop) (R : World -> Prop) :
  hoare P (ret (E := PyExn) a) (fun b w => P w /\ b = a) R.
Proof. intros w r w' Hw H. injection H as <- <-. split; [exact Hw | reflexivity]. Qed.

(** A step that writes nothing keeps what was written. *)
Lemma frame_tx_keep {A} (m : PyM A) x (R : World -> Prop) :
  frame tx_of m -> (forall w, tx_of w = x -> R w) ->
  hoare (fun w => tx_of w = x) m (fun _ w => tx_of w = x) R.
Proof. intros Hm HR w r w' Hw H. rewrite <- (Hm _ _ _ H) in Hw. destruct r; auto. Qed.

Section Stimulus.
Context (args : Args) (c d : list string).
Let msg := MESSAGE_PING (Amplitude args) (Frequency args).
(** An aborted run has written at most the stimulus. *)
Let sent_at_most (w : World) : Prop := tx_of w = (c, d) \/ tx_of w = (c ++ [msg], d).

Ltac keep := apply frame_tx_keep; [first [solve [auto with pym] | serial_frame] | unfold sent_at_most; tauto].

Lemma send_stimulus_tx :
  hoare (fun w => tx_of w = (c, d)) (SendSerialCON msg false)
        (fun _ w => tx_of w = (c ++ [msg], d)) sent_at_most.
Proof.
  unfold SendSerialCON. eapply hoare_bind.
  - eapply hoare_conseq; [apply (write_port_tx CON msg c d) | | | ]; cbv beta.
    + exact (fun w H => H).
    + exact (fun u w H => H).
    + intros w H. left. exact H.
  - intros u. keep.
Qed.

(** The handshake of the first iteration writes the stimulus and clears
    [TestBegin]. *)
Lemma handshake_tx :
  hoare (fun w => tx_of w = (c, d)) (first_iteration_handshake msg true)
        (fun tb w => tx_of w = (c ++ [msg], d) /\ tb = false) sent_at_most.
Proof.
  unfold first_iteration_handshake, ReadSerialPortLineDUT, ReadSerialPortLineCON.
  eapply hoare_bind; [keep | intros ?]. eapply hoare_bind; [keep | intros ?].
  eapply hoare_bind; [exact send_stimulus_tx | intros ?].
  eapply hoare_bind; [keep | intros ?].
  intros w r w' Hw H. injection H as <- <-. split; [exact Hw | reflexivity].
Qed.

(** The rest of an iteration, after the handshake: [RunTest], the two
    records and the sleep write nothing. *)
Lemma iteration_rest_tx wait st t tb x (R : World -> Prop) :
  (forall w, tx_of w = x -> R w) ->
  hoare (fun w => tx_of w = x)
    ('(Channel1result, Channel2result) <- RunTest (float_value (Amplitude args)) ;;
     '(p1, s1) <- record_channel t Channel1result (PassCounterChannel1 st) ;;
     '(p2, s2) <- record_channel t Channel2result (PassCounterChannel2 st) ;;
     sleep wait ;;;
     ret (mkLoop tb p1 p2 s1 s2))
    (fun st' w => tx_of w = x /\ TestBegin st' = tb) R.
Proof.
  intros HR.
  eapply hoare_bind; [apply frame_tx_keep; [auto with pym | exact HR] | intros [r1 r2]].
  eapply hoare_bind; [apply frame_tx_keep; [auto with pym | exact HR] | intros [p1 s1]].
  eapply hoare_bind; [apply frame_tx_keep; [auto with pym | exact HR] | intros [p2 s2]].
  eapply hoare_bind; [apply frame_tx_keep; [auto with pym | exact HR] | intros u].
  intros w r w' Hw H. injection H as <- <-. split; [exact Hw | reflexivity].
Qed.

(** The first iteration writes the stimulus and clears [TestBegin]. *)
Lemma loop_body_first_tx wait :
  hoare (fun w => tx_of w = (c, d)) (loop_body args wait initial_loop 1)
        (fun st w => tx_of w = (c ++ [msg], d) /\ TestBegin st = false) sent_at_most.
Proof.
  unfold loop_body. cbv zeta.
  eapply hoare_bind; [exact handshake_tx | intros tb]. apply hoare_pre_pure. intros ->.
  apply iteration_rest_tx. unfold sent_at_most. tauto.
Qed.

(** A later iteration writes nothing: [TestBegin] stays cleared. *)
Lemma loop_body_later_tx wait st t :
  TestBegin st = false ->
  hoare (fun w => tx_of w = (c ++ [msg], d)) (loop_body args wait st t)
        (fun st' w => tx_of w = (c ++ [msg], d) /\ TestBegin st' = false)
        (fun w => tx_of w = (c ++ [msg], d)).
Proof.
  intros Htb. unfold loop_body, first_iteration_handshake. cbv zeta. rewrite Htb.
  eapply hoare_bind; [apply hoare_ret_keep | intros tb]. apply hoare_pre_pure. intros ->.
  apply iteration_rest_tx. auto.
Qed.

(** A run writes nothing to the DUT; when it returns it has written the
    stimulus once to the controller; when it raises, at most once. *)
Lemma LoopAndLog_tx :
  hoare (fun w => tx_of w = (c, d)) (LoopAndLog args)
        (fun _ w => tx_of w = (c ++ [msg], d)) sent_at_most.
Proof.
  pose proof (CheckMaxTests_pos args) as Hpos. unfold LoopAndLog. cbv zeta.
  eapply hoare_bind; [keep | intros ?]. eapply hoare_bind; [keep | intros ?].
  eapply hoare_bind; [keep | intros ?].
  rewrite py_range_cons by lia. cbn [mfold].
  eapply hoare_bind.
  - eapply hoare_bind; [apply loop_body_first_tx | intros st1]. apply hoare_pre_pure. intros Htb.
    replace (CheckMaxTests args + 1)%Z with (1 + 1 + Z.of_nat (Z.to_nat (CheckMaxTests args - 1)))%Z by lia.
    eapply hoare_conseq;
      [apply (mfold_py_range_inv _ (fun _ st => TestBegin st = false) (fun w => tx_of w = (c ++ [msg], d)))
      | | intros st w [Hw _]; exact Hw | unfold sent_at_most; tauto]; [|exact Htb|auto].
    intros t st Ht. apply loop_body_later_tx, Ht.
  - intros st. eapply hoare_bind; [keep | intros ?]. eapply hoare_bind; [keep | intros ?]. keep.
Qed.
End Stimulus.

(** The fields of the stimulus command. *)
Lemma MESSAGE_PING_split fAMP FREQ :
  py_split comma (rstrip (MESSAGE_PING fAMP FREQ)) = ["2"; py_str_float fAMP; str_Z FREQ]%string.
Proof.
  assert (E : MESSAGE_PING fAMP FREQ
              = (join comma (["2"%string; py_str_float fAMP] ++ [str_Z FREQ])%list ++ CR)%string).
  { unfold MESSAGE_PING. cbn [app join String.append]. now rewrite !append_assoc_str. }
  rewrite E, rstrip_app_space by reflexivity.
  rewrite rstrip_join_last by (apply rstrip_str_Z || apply str_Z_nonempty).
  apply py_split_join; [discriminate|].
  cbn [forallb app]. unfold comma. now rewrite py_str_float_sep_free, str_Z_sep_free.
Qed.

(** ** Properties of the runner *)

(** C2: the pass counters count the passes.  Over any sequence of
    iterations on well-formed readings, the loop ends with each channel's
    [PassCounter] increased by exactly the number of iterations whose
    verdict for that channel is a pass. *)
Theorem loop_pass_counts args wait tps st rest devs con dtx log sl :
  TestBegin st = false -> forallb wf_pair tps = true ->
  exists st' w',
    mfold (loop_body args wait) (map fst tps) st
      (mkWorld devs con (mkPort Opened (flat_readings (map snd tps) ++ rest) dtx) log sl)
    = (Ok st', w')
    /\ PassCounterChannel1 st' = (PassCounterChannel1 st + Z.of_nat (count_true
          (map (fun tp => verdict (float_value (Amplitude args)) (fst (snd tp))) tps)))%Z
    /\ PassCounterChannel2 st' = (PassCounterChannel2 st + Z.of_nat (count_true
          (map (fun tp => verdict (float_value (Amplitude args)) (snd (snd tp))) tps)))%Z.
Proof.
  intros Htb Hwf. rewrite loop_refines by assumption.
  destruct (spec_loop_counts (float_value (Amplitude args)) st tps) as [H1 H2].
  destruct (spec_loop (float_value (Amplitude args)) st tps) as [st' es].
  eexists _, _. split; [reflexivity | split; assumption].
Qed.

(** C20: what one channel record says.  For a non-negative pass count and
    a positive test counter, recording a channel's verdict returns the new
    count and the rate [100 * passes / testCounter], and logs that rate
    truncated, which is the integer quotient; when the count does not
    exceed the counter the logged rate lies between 0 and 100. *)
Theorem record_channel_logs_rate t r passes devs con dut log sl :
  (0 <= passes)%Z -> (0 < t)%Z ->
  record_channel t r passes (mkWorld devs con dut log sl)
  = (Ok ((passes + passed r)%Z, success_stat (passes + passed r) t),
     mkWorld devs con dut (log ++ [LogTest t r (100 * (passes + passed r) / t)]) sl)
  /\ ((passes + passed r <= t)%Z -> (0 <= 100 * (passes + passed r) / t <= 100)%Z).
Proof.
  intros Hp Ht. split.
  - unfold record_channel, passed.
    destruct r; pym_unfold; cbn -[success_stat log_stat];
      rewrite log_stat_div by (unfold passed; lia); now rewrite ?Z.add_0_r.
  - intros Hle. assert (0 <= passed r <= 1)%Z by (unfold passed; destruct r; lia).
    split; [apply Z.div_pos; lia|]. apply Z.div_le_upper_bound; lia.
Qed.

(** C9: a malformed reading ends the run.  When the first reading line
    after the two boot lines does not split into five fields, [LoopAndLog]
    propagates the [ValueError] of [RunTest]: nothing is logged after the
    start record, ['Finished'] is never logged, and both ports are left
    open, although the stimulus command was sent. *)
Theorem LoopAndLog_malformed_aborts args devs crx ctx b1 b2 l rest dtx log sl :
  existsb (String.eqb (uCOM args)) devs = true ->
  existsb (String.eqb (dutCOM args)) devs = true ->
  length (py_split comma (rstrip l)) <> 5%nat ->
  LoopAndLog args (mkWorld devs (mkPort Unset crx ctx) (mkPort Unset (b1 :: b2 :: l :: rest) dtx) log sl)
  = (Exn (UnpackError (length (py_split comma (rstrip l)))),
     mkWorld devs (mkPort Opened (tl crx) (ctx ++ [MESSAGE_PING (Amplitude args) (Frequency args)]))
             (mkPort Opened rest dtx) (log ++ [LogStarted (dutCOM args)]) sl).
Proof.
  intros Hcon Hdut Hlen. rewrite LoopAndLog_opens by assumption.
  pose proof (CheckMaxTests_pos args) as Hpos.
  rewrite py_range_cons by lia. cbn [mfold].
  apply bind_Exn, bind_Exn. unfold loop_body. simpl TestBegin.
  rewrite (bind_Ok _ _ _ _ _ (handshake_first _ _ _ _ _ _ _ _ _ _)).
  apply bind_Exn. rewrite (RunTest_first_unpack_error _ _ l rest); reflexivity || assumption.
Qed.

(** C3: the log is sound on every run.  Whatever the devices send and
    whether the run completes or ends with an exception, every record
    [LoopAndLog] adds to a sound log has a positive test number and a
    pass rate between 0 and 100: the pass counter of a channel never
    exceeds the number of tests run. *)
Theorem LoopAndLog_log_sound args w r w' :
  log_sound w -> LoopAndLog args w = (r, w') -> log_sound w'.
Proof.
  intros Hw H. pose proof (LoopAndLog_hoare args w r w' Hw H) as Hw'.
  destruct r; exact Hw'.
Qed.

(** C21: the stimulus command carries its fields.  Stripped of its
    carriage return and split at the commas, [MESSAGE_PING] gives back the
    command code ['2'], the text [str(fAMP)] of the amplitude and the text
    [str(FREQ)] of the frequency, for every amplitude and frequency: no
    field contains a comma or whitespace. *)
Theorem MESSAGE_PING_fields fAMP FREQ :
  py_split comma (rstrip (MESSAGE_PING fAMP FREQ)) = ["2"; py_str_float fAMP; str_Z FREQ]%string.
Proof. apply MESSAGE_PING_split. Qed.

(** C4: a run commands the controller once and never writes to the DUT.
    For every device behaviour, a run of [LoopAndLog] writes nothing to
    the DUT; when it returns it has written exactly one command to the
    controller, the stimulus [MESSAGE_PING], whatever the number of
    tests; when it raises it has written at most that command. *)
Theorem LoopAndLog_writes_once args w r w' :
  LoopAndLog args w = (r, w') ->
  p_tx (w_dut w') = p_tx (w_dut w) /\
  match r with
  | Ok _ => p_tx (w_con w') = p_tx (w_con w) ++ [MESSAGE_PING (Amplitude args) (Frequency args)]
  | Exn _ => p_tx (w_con w') = p_tx (w_con w)
             \/ p_tx (w_con w') = p_tx (w_con w) ++ [MESSAGE_PING (Amplitude args) (Frequency args)]
  end.
Proof.
  intros H. pose proof (LoopAndLog_tx args (p_tx (w_con w)) (p_tx (w_dut w)) w r w' eq_refl H) as Hp.
  unfold tx_of in Hp. destruct r as [u|e].
  - injection Hp as -> ->. split; reflexivity.
  - destruct Hp as [Hp|Hp]; injection Hp as -> ->; split; auto.
Qed.

(** ** Witnesses *)

Lemma LoopAndLog_wellformed_witness :
  let tps := combine (py_range 1 21) scenarioD_pairs in
  LoopAndLog scenarioD_args
    (mkWorld ["COM7"; "COM8"]%string (mkPort Unset ["OK"%string] [])
       (mkPort Unset ("boot" :: "boot" :: flat_readings (map snd tps) ++ [])%string []) [] [])
  = let '(st, es) := spec_loop (float_value (Amplitude scenarioD_args)) initial_loop tps in
    (Ok tt, mkWorld ["COM7"; "COM8"]%string
              (mkPort Closed (tl ["OK"%string])
                 ([] ++ [MESSAGE_PING (Amplitude scenarioD_args) (Frequency scenarioD_args)]))
              (mkPort Closed [] [])
              ([] ++ [LogStarted (dutCOM scenarioD_args)] ++ es ++ [LogFinished])
              ([] ++ repeat (CheckInterval scenarioD_args) (length tps))).
Proof. intros tps. apply LoopAndLog_wellformed; vm_compute; reflexivity. Defined.

Lemma loop_pass_counts_witness :
  let tps := combine [5; 6]%Z [(good_reading, good_reading); (bad_reading, good_reading)] in
  let st := mkLoop false 3 4 0 0 in
  exists st' w',
    mfold (loop_body scenarioD_args 1) (map fst tps) st
      (mkWorld [] (mkPort Opened [] []) (mkPort Opened (flat_readings (map snd tps) ++ []) []) [] [])
    = (Ok st', w')
    /\ PassCounterChannel1 st' = (PassCounterChannel1 st + Z.of_nat (count_true
          (map (fun tp => verdict (float_value (Amplitude scenarioD_args)) (fst (snd tp))) tps)))%Z
    /\ PassCounterChannel2 st' = (PassCounterChannel2 st + Z.of_nat (count_true
          (map (fun tp => verdict (float_value (Amplitude scenarioD_args)) (snd (snd tp))) tps)))%Z.
Proof. intros tps st. apply loop_pass_counts; vm_compute; reflexivity. Defined.

Lemma record_channel_logs_rate_witness :
  record_channel 20 false 18 (mkWorld [] (mkPort Opened [] []) (mkPort Opened [] []) [] [])
  = (Ok ((18 + passed false)%Z, success_stat (18 + passed false) 20),
     mkWorld [] (mkPort Opened [] []) (mkPort Opened [] [])
             ([] ++ [LogTest 20 false (100 * (18 + passed false) / 20)]) [])
  /\ ((18 + passed false <= 20)%Z -> (0 <= 100 * (18 + passed false) / 20 <= 100)%Z).
Proof. apply record_channel_logs_rate; lia. Defined.

Lemma LoopAndLog_malformed_aborts_witness :
  LoopAndLog scenarioD_args
    (mkWorld ["COM7"; "COM8"]%string (mkPort Unset ["OK"%string] [])
       (mkPort Unset ["boot"; "boot"; "ADC,1,405,3"]%string []) [] [])
  = (Exn (UnpackError (length (py_split comma (rstrip "ADC,1,405,3"%string)))),
     mkWorld ["COM7"; "COM8"]%string
       (mkPort Opened (tl ["OK"%string])
          ([] ++ [MESSAGE_PING (Amplitude scenarioD_args) (Frequency scenarioD_args)]))
       (mkPort Opened [] []) ([] ++ [LogStarted (dutCOM scenarioD_args)]) []).
Proof. apply LoopAndLog_malformed_aborts; vm_compute; (reflexivity || discriminate). Defined.

Lemma LoopAndLog_log_sound_witness :
  log_sound scenarioD_world /\
  LoopAndLog scenarioD_args scenarioD_world
  = (fst (LoopAndLog scenarioD_args scenarioD_world), snd (LoopAndLog scenarioD_args scenarioD_world)) /\
  log_sound (snd (LoopAndLog scenarioD_args scenarioD_world)).
Proof.
  split; [reflexivity|]. split; [apply surjective_pairing|].
  apply (LoopAndLog_log_sound scenarioD_args scenarioD_world
           (fst (LoopAndLog scenarioD_args scenarioD_world))); [reflexivity | apply surjective_pairing].
Defined.

Lemma LoopAndLog_writes_once_witness :
  LoopAndLog scenarioD_args scenarioD_world
  = (fst (LoopAndLog scenarioD_args scenarioD_world), snd (LoopAndLog scenarioD_args scenarioD_world)) /\
  p_tx (w_dut (snd (LoopAndLog scenarioD_args scenarioD_world))) = p_tx (w_dut scenarioD_world) /\
  match fst (LoopAndLog scenarioD_args scenarioD_world) with
  | Ok _ => p_tx (w_con (snd (LoopAndLog scenarioD_args scenarioD_world)))
            = p_tx (w_con scenarioD_world) ++ [MESSAGE_PING (Amplitude scenarioD_args) (Frequency scenarioD_args)]
  | Exn _ => p_tx (w_con (snd (LoopAndLog scenarioD_args scenarioD_world))) = p_tx (w_con scenarioD_world)
             \/ p_tx (w_con (snd (LoopAndLog scenarioD_args scenarioD_world)))
                = p_tx (w_con scenarioD_world) ++ [MESSAGE_PING (Amplitude scenarioD_args) (Frequency scenarioD_args)]
  end.
Proof.
  split; [apply surjective_pairing|].
  apply (LoopAndLog_writes_once scenarioD_args scenarioD_world
           (fst (LoopAndLog scenarioD_args scenarioD_world))). apply surjective_pairing.
Defined.
