(* ===== verification/LogFormat.v ===== *)
(** * The log file: what [logging] writes for each record

    [LoopAndLog] configures the root logger with
    [logging.basicConfig(filename='SamplingEngine_Results.log',
    level=logging.INFO, format='%(asctime)s %(message)s',
    datefmt='%d/%m/%Y %I:%M:%S %p')] (line 357 of
    [src/ADC_Test_V0_2.py], line 429 of [src/ADC_Test.py]) and logs the
    records [LogEntry] of file [Serial] with the format strings of lines
    358, 379, 383, 388, 392 and 399.  This file gives their text:
    - [message] is [record.getMessage()], [msg % args]: [%d] of an
      integer prints [str] of it, [%s] of a string the string;
    - [asctime] is [time.strftime(datefmt, localtime)] for a [Stamp],
      the local time of the record: two-digit day, month, hour of a
      12-hour clock ([%I]), minutes and seconds, the year, and [AM]/[PM];
    - [format_record] is the formatter's ['%(asctime)s %(message)s'], and
      [log_file] what the [FileHandler] appends: each formatted record
      followed by a newline.
    The clock itself is not modelled: the stamps of a run are a parameter.
    [parse_log] reads such a file back, as a results sink would.

    The file proves that the text of any records with valid stamps and
    one-line messages reads back ([log_file_roundtrip]), and, composed
    with the runner ([Runner.LoopAndLog_run]), that the file a complete
    run writes reads back as the records of the abstract runner
    [spec_loop] between the start record and ['Finished']
    ([LoopAndLog_log_file]). *)

From Stdlib Require Import String Ascii List ZArith Lia Bool.
From S2P Require Import Prelude PyStr Digits Floats Args Serial Runner.
Import ListNotations.
Local Open Scope string_scope.

(** A broken-down local time, as [time.localtime] gives it. *)
Record Stamp := mkStamp {
  st_day : Z; st_month : Z; st_year : Z;
  st_hour : Z; st_min : Z; st_sec : Z
}.

(** The ranges [time.strftime] accepts (seconds up to 61), with a
    four-digit year. *)
Definition valid_stamp (t : Stamp) : bool :=
  ((1 <=? st_day t) && (st_day t <=? 31) && (1 <=? st_month t) && (st_month t <=? 12)
   && (1000 <=? st_year t) && (st_year t <=? 9999) && (0 <=? st_hour t) && (st_hour t <=? 23)
   && (0 <=? st_min t) && (st_min t <=? 59) && (0 <=? st_sec t) && (st_sec t <=? 61))%Z.

(** [%d], [%m], [%I], [%M], [%S]: two digits, zero-padded. *)
Definition two_digits (n : Z) : string := zero_pad 2 (str_nat n).

(** [%I]: the hour on a 12-hour clock, [12] for midnight and noon. *)
Definition hour12 (h : Z) : Z := if (h mod 12 =? 0)%Z then 12 else h mod 12.

(** [%p] in the C locale. *)
Definition am_pm (h : Z) : string := if (h <? 12)%Z then "AM" else "PM".

(** [time.strftime('%d/%m/%Y %I:%M:%S %p', t)] *)
Definition asctime (t : Stamp) : string :=
  two_digits (st_day t) ++ "/" ++ two_digits (st_month t) ++ "/" ++ str_nat (st_year t) ++ " "
  ++ two_digits (hour12 (st_hour t)) ++ ":" ++ two_digits (st_min t) ++ ":"
  ++ two_digits (st_sec t) ++ " " ++ am_pm (st_hour t).

(** [record.getMessage()]: the format strings of lines 358, 379, 383,
    388, 392 and 399 with their arguments. *)
Definition message (e : LogEntry) : string :=
  match e with
  | LogStarted port => "Tests Started - Device COM port " ++ port
  | LogTest n true stat => "Test " ++ str_Z n ++ ",Passed," ++ str_Z stat
  | LogTest n false stat => "Test " ++ str_Z n ++ ", Failed," ++ str_Z stat
  | LogFinished => "Finished"
  end.

(** ['%(asctime)s %(message)s'] *)
Definition format_record (t : Stamp) (e : LogEntry) : string :=
  asctime t ++ " " ++ message e.

Definition nl : ascii := ascii_of_nat 10.

(** What the [FileHandler] appends for a run: each record and ["\n"]. *)
Fixpoint log_file (recs : list (Stamp * LogEntry)) : string :=
  match recs with
  | [] => EmptyString
  | (t, e) :: recs' => format_record t e ++ String nl (log_file recs')
  end.

(** ** Reading a log file back *)

Fixpoint strip_prefix (p s : string) : option string :=
  match p, s with
  | EmptyString, _ => Some s
  | String c p', String d s' => if Ascii.eqb c d then strip_prefix p' s' else None
  | String _ _, EmptyString => None
  end.

Definition parse_message (m : string) : option LogEntry :=
  if String.eqb m "Finished" then Some LogFinished else
  match strip_prefix "Tests Started - Device COM port " m with
  | Some port => Some (LogStarted port)
  | None =>
      match strip_prefix "Test " m with
      | Some r =>
          match py_split "," r with
          | [a; b; c] =>
              match py_int a, py_int c with
              | Some n, Some stat =>
                  if String.eqb b "Passed" then Some (LogTest n true stat)
                  else if String.eqb b " Failed" then Some (LogTest n false stat)
                  else None
              | _, _ => None
              end
          | _ => None
          end
      | None => None
      end
  end.

(** The 24-hour hour of a [%I] value and an [AM]/[PM] marker. *)
Definition hour24 (i : Z) (p : string) : option Z :=
  if String.eqb p "AM" then Some (if (i =? 12)%Z then 0 else i)%Z
  else if String.eqb p "PM" then Some (if (i =? 12)%Z then 12 else i + 12)%Z
  else None.

Definition parse_record (line : string) : option (Stamp * LogEntry) :=
  match py_split " " line with
  | date :: time :: p :: rest =>
      match py_split "/" date, py_split ":" time with
      | [d; m; y], [i; mi; s] =>
          match parse_digits d, parse_digits m, parse_digits y, parse_digits i,
                parse_digits mi, parse_digits s with
          | Some d, Some m, Some y, Some i, Some mi, Some s =>
              match hour24 i p, parse_message (join " " rest) with
              | Some h, Some e => Some (mkStamp d m y h mi s, e)
              | _, _ => None
              end
          | _, _, _, _, _, _ => None
          end
      | _, _ => None
      end
  | _ => None
  end.

Fixpoint parse_lines (ls : list string) : option (list (Stamp * LogEntry)) :=
  match ls with
  | [] => None
  | [l] => if String.eqb l EmptyString then Some [] else None
  | l :: ls' =>
      match parse_record l, parse_lines ls' with
      | Some r, Some rs => Some (r :: rs)
      | _, _ => None
      end
  end.

(** A log file: newline-terminated records. *)
Definition parse_log (f : string) : option (list (Stamp * LogEntry)) :=
  parse_lines (py_split nl f).

(** A message that stays on one line: a port name without a newline. *)
Definition entry_ok (e : LogEntry) : bool :=
  match e with LogStarted port => sep_free nl port | _ => true end.

(** A record the parser can read back: a valid stamp and a one-line
    message. *)
Definition wf_record (r : Stamp * LogEntry) : bool := valid_stamp (fst r) && entry_ok (snd r).

(** ** Lemmas on fields *)

Lemma py_split_sep_app sep p rest :
  sep_free sep p = true -> py_split sep (p ++ String sep rest) = p :: py_split sep rest.
Proof.
  intros Hp. rewrite py_split_free_app by exact Hp. cbn [py_split]. rewrite Ascii.eqb_refl.
  now rewrite append_nil_r.
Qed.

Lemma py_split_free sep s : sep_free sep s = true -> py_split sep s = [s].
Proof. intros H. rewrite <- (append_nil_r s), py_split_free_app by exact H. reflexivity. Qed.

Lemma digits_sep_free sep s : is_digit sep = false -> all_chars is_digit s = true -> sep_free sep s = true.
Proof.
  intros Hs. apply all_chars_impl. intros c Hc.
  now rewrite Ascii.eqb_sym, (is_digit_eqb c sep Hc Hs).
Qed.

Lemma str_nat_field n :
  (0 <= n)%Z -> all_chars is_digit (str_nat n) = true /\ parse_digits (str_nat n) = Some n
                /\ str_nat n <> EmptyString.
Proof.
  intros Hn. destruct (str_nat_digits n Hn) as (c & s & E & Hd & _).
  rewrite E in *. split; [exact Hd|]. split; [|discriminate].
  rewrite <- E. now apply parse_digits_str_nat.
Qed.

Lemma two_digits_field n :
  (0 <= n)%Z -> all_chars is_digit (two_digits n) = true /\ parse_digits (two_digits n) = Some n.
Proof.
  intros Hn. destruct (str_nat_field n Hn) as (Hd & Hp & Hne). unfold two_digits. split.
  - apply zero_pad_chars; [reflexivity | exact Hd].
  - destruct (str_nat n) as [|c s] eqn:E; [contradiction|].
    assert (Hz : zero_pad 2 (String c s) <> EmptyString).
    { unfold zero_pad. destruct (2 - String.length (String c s))%nat; discriminate. }
    destruct (zero_pad 2 (String c s)) as [|c' s'] eqn:Ez; [contradiction|].
    cbn [parse_digits] in Hp |- *. rewrite <- Ez, zero_pad_val. exact Hp.
Qed.

(** [%I] and [%p] give the hour back. *)
Lemma hour24_hour12 h : (0 <= h <= 23)%Z -> hour24 (hour12 h) (am_pm h) = Some h.
Proof.
  intros Hh. unfold hour12, am_pm, hour24.
  destruct (Z.ltb_spec h 12) as [Hlt|Hge].
  - replace (h mod 12)%Z with h by (symmetry; apply Z.mod_small; lia).
    destruct (Z.eqb_spec h 0) as [->|H0]; [reflexivity|].
    destruct (Z.eqb_spec h 12); [lia | reflexivity].
  - replace (h mod 12)%Z with (h - 12)%Z by (apply (Z.mod_unique h 12 1); lia).
    destruct (Z.eqb_spec (h - 12) 0) as [H0|H0]; [replace h with 12%Z by lia; reflexivity|].
    destruct (Z.eqb_spec (h - 12) 12); [lia|]. cbn -[Z.sub Z.add]. f_equal. lia.
Qed.

Lemma strip_prefix_app p s : strip_prefix p (p ++ s) = Some s.
Proof. induction p as [|c p IH]; cbn; [reflexivity | now rewrite Ascii.eqb_refl]. Qed.

(** The parser reads every message back. *)
Lemma parse_message_message e : parse_message (message e) = Some e.
Proof.
  destruct e as [port | n [|] stat |]; [reflexivity | | | reflexivity];
    unfold parse_message, message; cbn -[py_split py_int str_Z];
    rewrite py_split_sep_app by apply str_Z_sep_free; cbn [py_split];
    rewrite (py_split_free _ (str_Z stat)) by apply str_Z_sep_free; cbn -[py_int str_Z];
    rewrite !py_int_str_Z_plain; reflexivity.
Qed.

Lemma format_record_shape t e :
  format_record t e
  = (two_digits (st_day t) ++ String "/" (two_digits (st_month t) ++ String "/" (str_nat (st_year t))))
    ++ String " " ((two_digits (hour12 (st_hour t)) ++ String ":" (two_digits (st_min t)
                    ++ String ":" (two_digits (st_sec t))))
    ++ String " " (am_pm (st_hour t) ++ String " " (message e))).
Proof.
  unfold format_record, asctime.
  repeat first [rewrite append_assoc_str | progress cbn [append]]. reflexivity.
Qed.


(** Digits and the separators of the date and the time hold no space,
    slash or colon but the ones they are split at. *)
Ltac free_tac :=
  repeat first
    [ rewrite sep_free_app | rewrite sep_free_cons
    | match goal with
      | H : all_chars is_digit ?s = true |- context [sep_free ?sep ?s] =>
          rewrite (digits_sep_free sep s eq_refl H)
      end ];
  reflexivity.

Lemma valid_stamp_ranges t :
  valid_stamp t = true ->
  (0 <= st_day t /\ 0 <= st_month t /\ 0 <= st_year t /\ 0 <= st_hour t <= 23
   /\ 0 <= hour12 (st_hour t) /\ 0 <= st_min t /\ 0 <= st_sec t)%Z.
Proof.
  unfold valid_stamp, hour12. intros H. repeat rewrite andb_true_iff in H. rewrite !Z.leb_le in H.
  pose proof (Z.mod_pos_bound (st_hour t) 12 ltac:(lia)).
  destruct (_ =? 0)%Z; lia.
Qed.

(** The parser reads every formatted record back. *)
Lemma parse_record_format t e : valid_stamp t = true -> parse_record (format_record t e) = Some (t, e).
Proof.
  intros Hv. destruct (valid_stamp_ranges t Hv) as (Hd & Hm & Hy & Hh & Hi & Hmi & Hs).
  destruct (two_digits_field _ Hd) as [Dd Pd]. destruct (two_digits_field _ Hm) as [Dm Pm].
  destruct (str_nat_field _ Hy) as (Dy & Py & _). destruct (two_digits_field _ Hi) as [Di Pi].
  destruct (two_digits_field _ Hmi) as [Dmi Pmi]. destruct (two_digits_field _ Hs) as [Ds Ps].
  assert (Hp : sep_free " " (am_pm (st_hour t)) = true) by (unfold am_pm; match goal with |- context [if ?b then _ else _] => destruct b end; reflexivity).
  unfold parse_record. rewrite format_record_shape.
  rewrite (py_split_sep_app " "), (py_split_sep_app " "), (py_split_sep_app " ") by (exact Hp || free_tac).
  rewrite (py_split_sep_app "/"), (py_split_sep_app "/"), (py_split_free "/") by free_tac.
  rewrite (py_split_sep_app ":"), (py_split_sep_app ":"), (py_split_free ":") by free_tac.
  rewrite Pd, Pm, Py, Pi, Pmi, Ps, hour24_hour12 by exact Hh.
  rewrite join_py_split, parse_message_message. now destruct t.
Qed.

Lemma num_char_not_nl c : num_char c = true -> negb (Ascii.eqb c nl) = true.
Proof. intros H. destruct (Ascii.eqb_spec c nl) as [->|]; [discriminate | reflexivity]. Qed.

Lemma str_Z_nl_free z : sep_free nl (str_Z z) = true.
Proof.
  destruct (str_Z_shape z) as (c & s & -> & H). exact (all_chars_impl _ _ _ num_char_not_nl H).
Qed.

Lemma format_record_nl_free r : wf_record r = true -> sep_free nl (format_record (fst r) (snd r)) = true.
Proof.
  destruct r as [t e]. unfold wf_record, entry_ok. cbn [fst snd]. intros H. apply andb_true_iff in H as [Hv He].
  destruct (valid_stamp_ranges t Hv) as (Hd & Hm & Hy & Hh & Hi & Hmi & Hs).
  destruct (two_digits_field _ Hd) as [Dd _]. destruct (two_digits_field _ Hm) as [Dm _].
  destruct (str_nat_field _ Hy) as (Dy & _ & _). destruct (two_digits_field _ Hi) as [Di _].
  destruct (two_digits_field _ Hmi) as [Dmi _]. destruct (two_digits_field _ Hs) as [Ds _].
  assert (Hp : sep_free nl (am_pm (st_hour t)) = true) by (unfold am_pm; match goal with |- context [if ?b then _ else _] => destruct b end; reflexivity).
  assert (Hmsg : sep_free nl (message e) = true).
  { destruct e as [port | n [|] stat |]; cbn [message]; rewrite ?sep_free_app, ?sep_free_cons;
      rewrite ?str_Z_nl_free; try exact He; reflexivity. }
  rewrite format_record_shape. repeat (rewrite sep_free_app || rewrite sep_free_cons).
  rewrite Hp, Hmsg. free_tac.
Qed.

Lemma py_split_log_file recs :
  forallb wf_record recs = true ->
  py_split nl (log_file recs) = (map (fun r => format_record (fst r) (snd r)) recs ++ [EmptyString])%list.
Proof.
  induction recs as [|[t e] recs IH]; intros H; [reflexivity|].
  cbn [forallb] in H. apply andb_true_iff in H as [Hr H].
  cbn [log_file map app]. rewrite py_split_sep_app by exact (format_record_nl_free (t, e) Hr).
  now rewrite IH.
Qed.

Lemma parse_lines_cons l ls :
  ls <> [] ->
  parse_lines (l :: ls) =
  match parse_record l, parse_lines ls with Some r, Some rs => Some (r :: rs) | _, _ => None end.
Proof. destruct ls; [contradiction | reflexivity]. Qed.

Lemma parse_lines_records recs :
  forallb wf_record recs = true ->
  parse_lines (map (fun r => format_record (fst r) (snd r)) recs ++ [EmptyString])%list = Some recs.
Proof.
  induction recs as [|[t e] recs IH]; intros H; [reflexivity|].
  cbn [forallb] in H. apply andb_true_iff in H as [Hr H]. unfold wf_record in Hr.
  apply andb_true_iff in Hr as [Hv _]. cbn [map app].
  rewrite parse_lines_cons by (destruct (map _ recs); discriminate).
  rewrite IH by exact H. cbn [fst snd]. now rewrite parse_record_format.
Qed.

(** ** The log of a complete run *)
Lemma forallb_combine_wf stamps log :
  forallb valid_stamp stamps = true -> forallb entry_ok log = true ->
  forallb wf_record (combine stamps log) = true.
Proof.
  revert log. induction stamps as [|t stamps IH]; intros [|e log] Hs Hl; try reflexivity.
  cbn [forallb combine] in *. apply andb_true_iff in Hs as [Ht Hs]. apply andb_true_iff in Hl as [He Hl].
  unfold wf_record at 1. cbn [fst snd]. rewrite Ht, He. now apply IH.
Qed.

(** The abstract runner writes test records only. *)
Lemma spec_loop_entry_ok fAMP st tps : forallb entry_ok (snd (spec_loop fAMP st tps)) = true.
Proof.
  revert st. induction tps as [|[t ab] tps IH]; intros st; [reflexivity|].
  cbn [spec_loop]. destruct (spec_step fAMP st t ab) as [st' es] eqn:Es.
  destruct (spec_loop fAMP st' tps) as [st'' es'] eqn:E. cbn [snd].
  specialize (IH st'). rewrite E in IH. cbn [snd] in IH. rewrite forallb_app, IH, andb_true_r.
  unfold spec_step, spec_channel in Es. cbv zeta in Es. injection Es as _ <-. reflexivity.
Qed.

(** ** Properties *)

(** C6: the log file reads back.  For records with valid time stamps
    and a DUT port name without a newline, the text [logging] appends to
    ['SamplingEngine_Results.log'] parses back to the same stamps and
    records: the format ['%(asctime)s %(message)s'], the 12-hour clock of
    [%I %p] and the messages of the six [logging.info] calls lose no
    information a results sink needs. *)
Theorem log_file_roundtrip recs : forallb wf_record recs = true -> parse_log (log_file recs) = Some recs.
Proof. intros H. unfold parse_log. rewrite py_split_log_file by exact H. now apply parse_lines_records. Qed.

(** C5: the log file of a complete run.  Under the hypotheses of
    [LoopAndLog_wellformed] (both ports exist, the DUT sends two boot
    lines and one well-formed pair of readings per test), with an empty
    log at the start and a DUT port name without a newline, the file
    ['SamplingEngine_Results.log'] that [logging] writes, with one valid
    time stamp per record, reads back as the start record, the records
    of the abstract runner [spec_loop] (the verdict and the truncated
    pass rate of each channel, test by test) and ['Finished']. *)
Theorem LoopAndLog_log_file args devs crx ctx b1 b2 tps rest dtx sl stamps :
  existsb (String.eqb (uCOM args)) devs = true ->
  existsb (String.eqb (dutCOM args)) devs = true ->
  map fst tps = py_range 1 (CheckMaxTests args + 1) ->
  forallb wf_pair tps = true ->
  sep_free nl (dutCOM args) = true ->
  forallb valid_stamp stamps = true ->
  length stamps = (2 * length tps + 2)%nat ->
  parse_log (log_file (combine stamps (w_log (snd (LoopAndLog args
    (mkWorld devs (mkPort Unset crx ctx)
             (mkPort Unset (b1 :: b2 :: flat_readings (map snd tps) ++ rest) dtx) [] sl))))))
  = Some (combine stamps ([LogStarted (dutCOM args)]
                          ++ snd (spec_loop (float_value (Amplitude args)) initial_loop tps)
                          ++ [LogFinished])).
Proof.
  intros Hcon Hdut Hts Hwf Hd Hs Hlen.
  rewrite (LoopAndLog_run args devs crx ctx b1 b2 tps rest dtx [] sl Hcon Hdut Hts Hwf).
  destruct (spec_loop _ _ _) as [st es] eqn:E. cbn [snd w_log app].
  apply log_file_roundtrip, forallb_combine_wf; [exact Hs|].
  pose proof (spec_loop_entry_ok (float_value (Amplitude args)) initial_loop tps) as Hes.
  rewrite E in Hes. cbn [snd] in Hes.
  cbn [forallb entry_ok app]. rewrite Hd, forallb_app, Hes. reflexivity.
Qed.

(** ** Witnesses *)

Lemma log_file_roundtrip_witness :
  forallb wf_record [(mkStamp 9 11 2026 0 5 7, LogStarted "COM7"); (mkStamp 9 11 2026 12 5 8, LogTest 1 true 100);
                     (mkStamp 9 11 2026 13 5 9, LogTest 1 false 0); (mkStamp 9 11 2026 23 59 59, LogFinished)] = true /\
  parse_log (log_file [(mkStamp 9 11 2026 0 5 7, LogStarted "COM7"); (mkStamp 9 11 2026 12 5 8, LogTest 1 true 100);
                       (mkStamp 9 11 2026 13 5 9, LogTest 1 false 0); (mkStamp 9 11 2026 23 59 59, LogFinished)])
  = Some [(mkStamp 9 11 2026 0 5 7, LogStarted "COM7"); (mkStamp 9 11 2026 12 5 8, LogTest 1 true 100);
          (mkStamp 9 11 2026 13 5 9, LogTest 1 false 0); (mkStamp 9 11 2026 23 59 59, LogFinished)].
Proof. split; [vm_compute; reflexivity|]. apply log_file_roundtrip. vm_compute. reflexivity. Defined.

Lemma LoopAndLog_log_file_witness :
  parse_log (log_file (combine (repeat (mkStamp 9 11 2026 10 0 0) 42)
                               (w_log (snd (LoopAndLog scenarioD_args scenarioD_world)))))
  = Some (combine (repeat (mkStamp 9 11 2026 10 0 0) 42)
                  ([LogStarted (dutCOM scenarioD_args)]
                   ++ snd (spec_loop (float_value (Amplitude scenarioD_args)) initial_loop
                             (combine (py_range 1 21) scenarioD_pairs))
                   ++ [LogFinished])).
Proof.
  apply (LoopAndLog_log_file scenarioD_args ["COM7"; "COM8"]%string ["OK"%string] [] "boot" "boot"
           (combine (py_range 1 21) scenarioD_pairs) [] [] []);
    vm_compute; reflexivity.
Defined.
