(* ===== verification/FloatStr.v ===== *)
(** * [str(x)] of a float, read back with [float()]

    [PyStr.py_str_float] is Python 2.7's [str] of a float: twelve
    significant digits ([round12]), trailing zeros dropped
    ([strip_zeros]), and the layout of [format_float_short] ([fmt_g]).
    This file proves what [float()] reads from that text: a literal whose
    value is the rounded value [q * 10^k / 10^e], within half a unit of
    the twelfth digit of [x], and exactly [x] when [x] has at most twelve
    significant digits ([py_float_py_str_float]).  Composed with the
    layout of the stimulus command ([Runner.MESSAGE_PING_split]), this is
    what the controller reads from the amplitude field of [MESSAGE_PING]
    (line 446 of [src/ADC_Test.py]), while [RunTest] computes the expected
    counts from [fAMP] itself ([MESSAGE_PING_amplitude]). *)

From Stdlib Require Import String Ascii List ZArith QArith Qabs Lia Bool.
From S2P Require Import Prelude PyStr Digits Args Floats Session Runner.
Import ListNotations.
Local Open Scope string_scope.

(** The value [M * 10^E] of the literal [float()] parses into [(M, E)]. *)
Definition lit_value (M E : Z) : Q := float_value (dec_of M E).

(** [x] has at most twelve significant digits. *)
Definition sig12 (x : Dec) : Prop :=
  exists c j, (Z.abs c < 10 ^ 12)%Z /\ float_value x == float_value (mkDec c j).

(** ** Digit counts and rounding *)

Lemma num_digits_lower a : (0 < a)%Z -> (10 ^ (num_digits a - 1) <= a)%Z.
Proof.
  intros Ha. unfold num_digits. set (n := String.length (str_nat a)).
  destruct (Z.le_gt_cases (10 ^ (Z.of_nat n - 1)) a) as [H|H]; [exact H|exfalso].
  destruct n as [|[|n']] eqn:En; [cbn in H; lia | cbn in H; lia|].
  assert (Hl : (String.length (str_nat a) <= S n')%nat).
  { apply str_nat_length; [|lia]. split; [lia|].
    replace (Z.of_nat (S n')) with (Z.of_nat (S (S n')) - 1)%Z by lia. exact H. }
  fold n in Hl. lia.
Qed.

(** The rounding of [round12]: [q * 10^k] is within half of [10^k] of
    [a]; nothing is rounded off a number of at most twelve digits, and
    [10^k] is at most [a / 10^11]. *)
Lemma round12_spec a q k :
  (0 < a)%Z -> round12 a = (q, k) ->
  (0 <= k)%Z /\ (0 < q)%Z /\ (2 * Z.abs (q * 10 ^ k - a) <= 10 ^ k)%Z
  /\ (k = 0 -> q = a)%Z /\ (0 < k -> 10 ^ (k + 11) <= a)%Z
  /\ (0 < k -> a mod 10 ^ k = 0 -> q * 10 ^ k = a)%Z.
Proof.
  intros Ha. unfold round12. cbv zeta.
  destruct (Z.leb_spec (num_digits a - 12) 0) as [Hk|Hk].
  { intros E. injection E as <- <-. rewrite Z.pow_0_r, Z.mul_1_r, Z.sub_diag. repeat split; intros; lia. }
  set (p := (10 ^ (num_digits a - 12))%Z).
  assert (Hp : (0 < p)%Z) by (apply Z.pow_pos_nonneg; lia).
  assert (Hlow : (10 ^ (num_digits a - 12 + 11) <= a)%Z)
    by (replace (num_digits a - 12 + 11)%Z with (num_digits a - 1)%Z by lia; now apply num_digits_lower).
  assert (Hp11 : (10 ^ (num_digits a - 12 + 11) = p * 10 ^ 11)%Z) by (unfold p; now rewrite Z.pow_add_r by lia).
  pose proof (Z.div_mod a p ltac:(lia)) as Hdm. pose proof (Z.mod_pos_bound a p Hp) as Hr.
  assert (Hq : (10 ^ 11 <= a / p)%Z) by (apply Z.div_le_lower_bound; lia).
  set (q0 := (a / p)%Z) in *. set (r := (a mod p)%Z) in *.
  change (10 ^ 11)%Z with 100000000000%Z in *.
  destruct ((p <? 2 * r)%Z || ((2 * r =? p)%Z && Z.odd q0)) eqn:C; intros E; injection E as <- <-;
    fold p; rewrite Hp11; (split; [lia|]); (split; [lia|]).
  - apply orb_true_iff in C. rewrite Z.ltb_lt, andb_true_iff, Z.eqb_eq in C.
    split; [destruct C as [C|[C _]]; lia|]. split; [lia|]. split; [intros _; lia|].
    intros _ Hr0. fold r in Hr0. destruct C as [C|[C _]]; lia.
  - apply orb_false_iff in C as [C1 C2]. apply Z.ltb_ge in C1.
    split; [lia|]. split; [lia|]. split; [intros _; lia|].
    intros _ Hr0. fold r in Hr0. lia.
Qed.

(** [strip_zeros] keeps the value [q * 10^k]. *)
Lemma strip_zeros_spec f q k s k' :
  (0 < q)%Z -> strip_zeros f q k = (s, k') ->
  (0 < s)%Z /\ (k <= k')%Z /\ (s * 10 ^ (k' - k) = q)%Z.
Proof.
  revert q k. induction f as [|f IH]; intros q k Hq E; cbn [strip_zeros] in E.
  { injection E as <- <-. rewrite Z.sub_diag. cbn. lia. }
  destruct (Z.eqb_spec (q mod 10) 0) as [Hz|Hz]; [|injection E as <- <-; rewrite Z.sub_diag; cbn; lia].
  pose proof (Z.div_mod q 10 ltac:(lia)) as Hd.
  assert (H10 : (0 < q / 10)%Z) by (apply Z.div_str_pos; lia).
  destruct (IH _ _ H10 E) as (Hs & Hk & Hv). split; [exact Hs|]. split; [lia|].
  replace (k' - k)%Z with ((k' - (k + 1)) + 1)%Z by lia.
  rewrite Z.pow_add_r, Z.mul_assoc, Hv by lia. lia.
Qed.

(** ** Values of literals *)

Lemma float_value_shift A e j :
  float_value (mkDec (A * 10 ^ Z.of_nat j) (e + j)) == float_value (mkDec A e).
Proof.
  unfold float_value. cbn [dec_mant dec_exp].
  rewrite Nat2Z.inj_add, Z.pow_add_r, !inject_Z_mult by lia.
  pose proof (pow10_nonzero e). pose proof (pow10_nonzero j). field. split; assumption.
Qed.

Lemma lit_value_shift M E j : (0 <= j)%Z -> lit_value (M * 10 ^ j) E == lit_value M (E + j).
Proof.
  intros Hj. unfold lit_value, dec_of.
  destruct (Z.leb_spec 0 E) as [HE|HE]; destruct (Z.leb_spec 0 (E + j)) as [HEj|HEj]; try lia.
  - rewrite <- Z.mul_assoc, <- Z.pow_add_r, (Z.add_comm j E) by lia. reflexivity.
  - rewrite <- (float_value_shift (M * 10 ^ (E + j)) 0 (Z.to_nat (- E))). cbn [Nat.add].
    rewrite Z2Nat.id, <- Z.mul_assoc, <- Z.pow_add_r by lia.
    now replace (E + j + - E)%Z with j by lia.
  - rewrite <- (float_value_shift M (Z.to_nat (- (E + j))) (Z.to_nat j)).
    rewrite !Z2Nat.id by lia. now replace (Z.to_nat (- (E + j)) + Z.to_nat j)%nat with (Z.to_nat (- E)) by lia.
Qed.

(** ** Reading the layouts of [fmt_g] *)

Lemma parse_digits_of s m : s <> EmptyString -> digits_val s 0 = Some m -> parse_digits s = Some m.
Proof. destruct s; [contradiction | intros _ H; exact H]. Qed.

Lemma zero_pad_nonempty k s : s <> EmptyString -> zero_pad k s <> EmptyString.
Proof. unfold zero_pad. destruct (zeros _); [auto | discriminate]. Qed.

Lemma parse_exponent_suffix X :
  parse_exponent ((if (X <? 0)%Z then "-" else "+") ++ zero_pad 2 (str_nat (Z.abs X))) = Some X.
Proof.
  destruct (str_nat_digits (Z.abs X) (Z.abs_nonneg X)) as (c & s & E & _ & Hv).
  assert (Hd : parse_digits (zero_pad 2 (str_nat (Z.abs X))) = Some (Z.abs X)).
  { apply parse_digits_of; [apply zero_pad_nonempty; rewrite E; discriminate|].
    now rewrite zero_pad_val. }
  destruct (Z.ltb_spec X 0); cbn [append parse_exponent Ascii.eqb Bool.eqb andb].
  - rewrite Hd. cbn. f_equal. lia.
  - rewrite Hd. f_equal. lia.
Qed.

Lemma stops_digits_point s : stops_digits (String "." s) = true.
Proof. reflexivity. Qed.

(** [d1.d2] and [d1.d2e<X>], digits [d1 ++ d2] of value [m]. *)
Lemma parse_decimal_point d1 d2 m :
  all_chars is_digit d1 = true -> all_chars is_digit d2 = true -> d1 <> EmptyString ->
  digits_val (d1 ++ d2) 0 = Some m ->
  parse_decimal (d1 ++ String "." d2) = Some (m, - Z.of_nat (String.length d2))%Z
  /\ forall X, parse_decimal (d1 ++ String "." (d2 ++ exp_suffix X))
               = Some (m, - Z.of_nat (String.length d2) + X)%Z.
Proof.
  intros H1 H2 N1 Hm.
  assert (Hp : parse_digits (d1 ++ d2) = Some m)
    by (apply parse_digits_of; [destruct d1; [contradiction | discriminate] | exact Hm]).
  split; [|intros X]; unfold parse_decimal; rewrite span_digits_app by (exact H1 || reflexivity);
    cbn [Ascii.eqb Bool.eqb andb].
  - rewrite <- (append_nil_r d2) at 1. rewrite span_digits_app by (exact H2 || reflexivity).
    now rewrite Hp.
  - rewrite span_digits_app by (exact H2 || reflexivity). rewrite Hp. unfold exp_suffix.
    cbn [Ascii.eqb Bool.eqb andb orb]. now rewrite parse_exponent_suffix.
Qed.

Lemma parse_decimal_exp d1 m X :
  all_chars is_digit d1 = true -> d1 <> EmptyString -> digits_val d1 0 = Some m ->
  parse_decimal (d1 ++ exp_suffix X) = Some (m, X).
Proof.
  intros H1 N1 Hm. unfold parse_decimal. rewrite span_digits_app by (exact H1 || reflexivity).
  unfold exp_suffix. cbn [Ascii.eqb Bool.eqb andb]. rewrite append_nil_r.
  rewrite (parse_digits_of _ _ N1 Hm). cbn [Ascii.eqb Bool.eqb andb orb].
  rewrite parse_exponent_suffix. cbn. reflexivity.
Qed.

Lemma substring_full s k : (String.length s <= k)%nat -> substring 0 k s = s.
Proof.
  revert k. induction s as [|c s IH]; intros [|k] H; cbn [String.length] in H; try reflexivity; [lia|].
  rewrite <- (IH k) at 2 by lia. reflexivity.
Qed.

Lemma substring_split s n k :
  (n <= String.length s)%nat -> (String.length s <= n + k)%nat ->
  substring 0 n s ++ substring n k s = s.
Proof.
  revert n. induction s as [|c s IH]; intros [|n] H1 H2; cbn [String.length] in H1, H2;
    try (destruct k; reflexivity); try lia.
  - cbn [substring append]. destruct k as [|k]; [lia|]. rewrite <- (substring_full s k) at 2 by lia. reflexivity.
  - rewrite <- (IH n) at 3 by lia. reflexivity.
Qed.

Lemma substring_prefix_length t m :
  (m <= String.length t)%nat -> String.length (substring 0 m t) = m.
Proof.
  revert m. induction t as [|c t IHt]; intros [|m] Hm; cbn [String.length] in Hm; try reflexivity; try lia.
  cbn [substring String.length]. rewrite IHt; lia.
Qed.

Lemma substring_length s n k :
  (n <= String.length s)%nat -> (String.length s <= n + k)%nat ->
  String.length (substring n k s) = (String.length s - n)%nat.
Proof.
  intros H1 H2. pose proof (f_equal String.length (substring_split s n k H1 H2)) as E.
  rewrite length_app_str, substring_prefix_length in E by exact H1. lia.
Qed.

Lemma digits_val_zeros n acc : digits_val (zeros n) acc = Some (acc * 10 ^ Z.of_nat n)%Z.
Proof.
  revert acc. induction n as [|n IH]; intros acc.
  - cbn. f_equal. lia.
  - change (digits_val (zeros (S n)) acc) with (digits_val (zeros n) (acc * 10 + 0)%Z).
    rewrite IH. f_equal. rewrite Nat2Z.inj_succ, Z.pow_succ_r by lia. lia.
Qed.

Lemma digits_val_zeros_app n t : digits_val (zeros n ++ t) 0 = digits_val t 0.
Proof. rewrite digits_val_app, digits_val_zeros. now rewrite Z.mul_0_l. Qed.

Lemma length_zeros n : String.length (zeros n) = n.
Proof. induction n; cbn; auto. Qed.

Lemma digits_val_zero_char a : digits_val "0" a = Some (a * 10)%Z.
Proof. change (digits_val "0" a) with (Some (a * 10 + 0)%Z). now rewrite Z.add_0_r. Qed.

Lemma all_digit_zeros n : all_chars is_digit (zeros n) = true.
Proof. apply all_chars_zeros. reflexivity. Qed.

Section FmtG.
(** The digits [D] of a positive [s], as [str_nat s] prints them. *)
Context (D : string) (s : Z).
Hypothesis D_digits : all_chars is_digit D = true.
Hypothesis D_nonempty : D <> EmptyString.
Hypothesis D_value : digits_val D 0 = Some s.

Let nd := Z.of_nat (String.length D).

(** The exponent layout [d.ddde<X>] or [de<X>]. *)
Lemma fmt_exp_parse dp :
  parse_decimal (match D with
                 | String c EmptyString => String c (exp_suffix (dp - 1))
                 | String c rest => String c (String "." rest ++ exp_suffix (dp - 1))
                 | EmptyString => EmptyString
                 end) = Some (s, dp - nd)%Z.
Proof.
  unfold nd. pose proof D_digits as Hd. pose proof D_value as Hv.
  destruct D as [|c [|c' r]]; [contradiction| |].
  - change (String c (exp_suffix (dp - 1))) with (String c EmptyString ++ exp_suffix (dp - 1)).
    rewrite (parse_decimal_exp _ s (dp - 1) Hd ltac:(discriminate) Hv). cbn [String.length].
    do 2 f_equal; lia.
  - change (String c (String "." (String c' r) ++ exp_suffix (dp - 1)))
      with (String c EmptyString ++ String "." (String c' r ++ exp_suffix (dp - 1))).
    rewrite all_chars_cons in Hd. apply andb_true_iff in Hd as [Hc Hr].
    rewrite (proj2 (parse_decimal_point (String c EmptyString) (String c' r) s
                      ltac:(now rewrite all_chars_cons, Hc) Hr ltac:(discriminate) Hv)).
    cbn [String.length]. do 2 f_equal; lia.
Qed.

(** [0.000ddd] *)
Lemma fmt_small_parse dp :
  (dp <= 0)%Z ->
  parse_decimal ("0." ++ zeros (Z.to_nat (- dp)) ++ D) = Some (s, dp - nd)%Z.
Proof.
  intros Hdp. change ("0." ++ zeros (Z.to_nat (- dp)) ++ D)
    with ("0" ++ String "." (zeros (Z.to_nat (- dp)) ++ D)).
  rewrite (proj1 (parse_decimal_point "0" (zeros (Z.to_nat (- dp)) ++ D) s
                    ltac:(reflexivity) ltac:(now rewrite all_chars_app, all_digit_zeros)
                    ltac:(discriminate) ltac:(change (digits_val ("0" ++ (zeros (Z.to_nat (- dp)) ++ D)) 0) with (digits_val (zeros (Z.to_nat (- dp)) ++ D) 0); rewrite digits_val_zeros_app; exact D_value))).
  unfold nd. rewrite length_app_str, length_zeros. do 2 f_equal; lia.
Qed.

(** [ddd.ddd] *)
Lemma fmt_mid_parse dp :
  (0 < dp < nd)%Z ->
  parse_decimal (substring 0 (Z.to_nat dp) D ++ "." ++ substring (Z.to_nat dp) (String.length D) D)
  = Some (s, dp - nd)%Z.
Proof.
  unfold nd. intros Hdp. set (n := Z.to_nat dp).
  assert (Hn : (n <= String.length D)%nat) by lia.
  pose proof (substring_split D n (String.length D) Hn ltac:(lia)) as Hsplit.
  assert (N1 : substring 0 n D <> EmptyString).
  { intros E. apply (f_equal String.length) in E. rewrite substring_prefix_length in E by exact Hn.
    cbn in E. lia. }
  change ("." ++ substring n (String.length D) D) with (String "." (substring n (String.length D) D)).
  rewrite (proj1 (parse_decimal_point _ _ s (all_chars_substring _ _ _ _ D_digits)
                    (all_chars_substring _ _ _ _ D_digits) N1 ltac:(now rewrite Hsplit))).
  rewrite substring_length by lia. do 2 f_equal; lia.
Qed.

(** [ddd000.0] *)
Lemma fmt_large_parse dp :
  (nd <= dp)%Z ->
  exists M E, parse_decimal (D ++ zeros (Z.to_nat (dp - nd)) ++ ".0") = Some (M, E)
              /\ lit_value M E == lit_value s (dp - nd).
Proof.
  intros Hdp. set (j := Z.to_nat (dp - nd)).
  rewrite <- append_assoc_str. change ".0" with (String "." "0").
  exists (s * 10 ^ (Z.of_nat j + 1))%Z, (-1)%Z. split.
  - assert (Hv : digits_val ((D ++ zeros j) ++ "0") 0 = Some (s * 10 ^ (Z.of_nat j + 1))%Z).
    { rewrite digits_val_app, digits_val_app, D_value. cbn iota beta.
      rewrite digits_val_zeros. cbn iota beta. rewrite digits_val_zero_char.
      f_equal. rewrite Z.pow_add_r, Z.pow_1_r by lia. ring. }
    rewrite (proj1 (parse_decimal_point (D ++ zeros j) "0" _
                      ltac:(now rewrite all_chars_app, D_digits, all_digit_zeros) ltac:(reflexivity)
                      ltac:(destruct D; [contradiction | discriminate]) Hv)). reflexivity.
  - rewrite lit_value_shift by lia. unfold j. rewrite Z2Nat.id by lia.
    now replace (-1 + (dp - nd + 1))%Z with (dp - nd)%Z by lia.
Qed.

(** Every layout of [fmt_g] reads back as [s * 10^(dp - nd)]. *)
Lemma fmt_g_parse dp :
  exists M E, parse_decimal (fmt_g D dp) = Some (M, E) /\ lit_value M E == lit_value s (dp - nd).
Proof.
  unfold fmt_g. cbv zeta. fold nd.
  destruct ((dp <=? -4)%Z || (11 <? dp)%Z); [exists s, (dp - nd)%Z; split; [apply fmt_exp_parse | reflexivity]|].
  destruct (Z.leb_spec dp 0) as [H0|H0];
    [exists s, (dp - nd)%Z; split; [apply fmt_small_parse, H0 | reflexivity]|].
  destruct (Z.ltb_spec dp nd) as [H1|H1];
    [exists s, (dp - nd)%Z; split; [apply fmt_mid_parse; lia | reflexivity]|].
  apply fmt_large_parse, H1.
Qed.
End FmtG.

Lemma fmt_g_head D dp :
  all_chars is_digit D = true -> D <> EmptyString ->
  exists c t, fmt_g D dp = String c t /\ is_digit c = true.
Proof.
  intros Hd N. destruct D as [|c r]; [contradiction|].
  rewrite all_chars_cons in Hd. apply andb_true_iff in Hd as [Hc _].
  unfold fmt_g. cbv zeta.
  destruct (_ || _).
  { destruct r; eexists _, _; (split; [reflexivity | exact Hc]). }
  destruct (Z.leb_spec dp 0) as [H0|H0]; [eexists _, _; split; [reflexivity | reflexivity]|].
  destruct (_ <? _)%Z; [|eexists _, _; split; [reflexivity | exact Hc]].
  destruct (Z.to_nat dp) as [|n] eqn:En; [lia|].
  eexists _, _; split; [reflexivity | exact Hc].
Qed.

(** [float()] of an optional minus sign and an unsigned literal. *)
Lemma py_float_signed (neg : bool) S M E :
  all_chars (fun c => negb (is_space c)) ((if neg then "-" else EmptyString) ++ S) = true ->
  (exists c t, S = String c t /\ is_digit c = true) ->
  parse_decimal S = Some (M, E) ->
  py_float ((if neg then "-" else EmptyString) ++ S)
  = Some (if Qle_bool dbl_overflow (lit_value M E) then FInf neg else FNum neg (dec_of M E)).
Proof.
  intros Hns (c & t & -> & Hc) Hp. unfold py_float.
  assert (Hl : lstrip ((if neg then "-" else EmptyString) ++ String c t)
               = (if neg then "-" else EmptyString) ++ String c t)
    by (destruct neg; cbn [append lstrip]; [reflexivity | now rewrite digit_not_space]).
  rewrite Hl, (rstrip_no_space _ Hns).
  destruct neg; cbn [append]; [|digit_neq Hc]; cbn [Ascii.eqb Bool.eqb andb]; now rewrite Hp.
Qed.

(** ** Values of decimals *)

Lemma lit_value_dec A e : lit_value A (- Z.of_nat e) == float_value (mkDec A e).
Proof.
  unfold lit_value, dec_of. destruct e as [|e].
  - change (- Z.of_nat 0)%Z with 0%Z. change (0 <=? 0)%Z with true. cbv iota.
    rewrite Z.pow_0_r, Z.mul_1_r. reflexivity.
  - replace (0 <=? - Z.of_nat (S e))%Z with false by (symmetry; apply Z.leb_gt; lia).
    rewrite Z.opp_involutive, Nat2Z.id. reflexivity.
Qed.

Lemma float_value_sub A B e :
  float_value (mkDec A e) - float_value (mkDec B e) == float_value (mkDec (A - B) e).
Proof.
  unfold float_value. cbn [dec_mant dec_exp]. unfold Z.sub. rewrite inject_Z_plus, inject_Z_opp.
  pose proof (pow10_nonzero e). field. assumption.
Qed.

Lemma float_value_mul c A e : inject_Z c * float_value (mkDec A e) == float_value (mkDec (c * A) e).
Proof.
  unfold float_value. cbn [dec_mant dec_exp]. rewrite inject_Z_mult.
  pose proof (pow10_nonzero e). field. assumption.
Qed.

Lemma float_value_le A B e : (A <= B)%Z -> float_value (mkDec A e) <= float_value (mkDec B e).
Proof.
  intros H. pose proof (float_value_nonneg (B - A) e ltac:(lia)) as H'.
  rewrite <- float_value_sub in H'. apply Qle_minus_iff. exact H'.
Qed.

Lemma float_value_eq A e B f :
  float_value (mkDec A e) == float_value (mkDec B f) -> (A * 10 ^ Z.of_nat f = B * 10 ^ Z.of_nat e)%Z.
Proof.
  unfold float_value. cbn [dec_mant dec_exp]. intros H. apply inject_Z_injective.
  rewrite !inject_Z_mult. pose proof (pow10_nonzero e) as He. pose proof (pow10_nonzero f) as Hf.
  setoid_replace (inject_Z A) with (inject_Z A / inject_Z (10 ^ Z.of_nat e) * inject_Z (10 ^ Z.of_nat e))
    by (field; exact He).
  rewrite H. field. exact Hf.
Qed.

(** ** Rounding, in integers *)

(** The rounded [q * 10^k] is within [a / (2 * 10^11)] of [a], and at
    most [2 * a]. *)
Lemma round12_close a q k :
  (0 < a)%Z -> round12 a = (q, k) ->
  (2 * 10 ^ 11 * Z.abs (q * 10 ^ k - a) <= a)%Z /\ (0 <= q * 10 ^ k <= 2 * a)%Z.
Proof.
  intros Ha Er. destruct (round12_spec a q k Ha Er) as (Hk & Hq & Herr & Hk0 & Hlow & _).
  assert (Hp : (0 < 10 ^ k)%Z) by (apply Z.pow_pos_nonneg; lia).
  destruct (Z.eq_dec k 0) as [->|Hk'].
  - rewrite (Hk0 eq_refl), Z.pow_0_r, Z.mul_1_r, Z.sub_diag, Z.abs_0, Z.mul_0_r. lia.
  - specialize (Hlow ltac:(lia)). rewrite Z.pow_add_r in Hlow by lia.
    change (10 ^ 11)%Z with 100000000000%Z in *. split; [nia|].
    split; [nia|]. nia.
Qed.

(** A value of at most twelve significant digits loses nothing. *)
Lemma round12_sig12 m e q k :
  (m <> 0)%Z -> round12 (Z.abs m) = (q, k) -> sig12 (mkDec m e) -> (q * 10 ^ k = Z.abs m)%Z.
Proof.
  intros Hm Er (c & j & Hc & Hx).
  destruct (round12_spec (Z.abs m) q k ltac:(lia) Er) as (Hk & _ & _ & Hk0 & Hlow & Hex).
  destruct (Z.eq_dec k 0) as [->|Hk']; [rewrite (Hk0 eq_refl), Z.pow_0_r; lia|].
  apply Hex; [lia|]. specialize (Hlow ltac:(lia)).
  apply float_value_eq in Hx. apply (f_equal Z.abs) in Hx. rewrite !Z.abs_mul in Hx.
  rewrite !(Z.abs_eq (10 ^ _)) in Hx by (apply Z.pow_nonneg; lia).
  set (E := Z.of_nat e) in *. set (J := Z.of_nat j) in *.
  assert (HkjE : (k + J <= E)%Z).
  { destruct (Z.le_gt_cases (k + J) E) as [H|H]; [exact H|exfalso].
    assert (H1 : (10 ^ (k + 11) * 10 ^ J <= Z.abs m * 10 ^ J)%Z)
      by (apply Z.mul_le_mono_nonneg_r; [apply Z.pow_nonneg|]; lia).
    assert (H2 : (Z.abs c * 10 ^ E < 10 ^ 12 * 10 ^ E)%Z)
      by (apply Z.mul_lt_mono_pos_r; [apply Z.pow_pos_nonneg|]; lia).
    rewrite <- !Z.pow_add_r in H1, H2 by lia.
    assert (H3 : (10 ^ (12 + E) <= 10 ^ (k + 11 + J))%Z) by (apply Z.pow_le_mono_r; lia).
    lia. }
  replace E with (J + (E - J - k) + k)%Z in Hx by lia.
  rewrite !Z.pow_add_r, !Z.mul_assoc in Hx by lia.
  assert (HJ : (0 < 10 ^ J)%Z) by (apply Z.pow_pos_nonneg; lia).
  assert (Ha : (Z.abs m = Z.abs c * 10 ^ (E - J - k) * 10 ^ k)%Z).
  { apply (Z.mul_cancel_r _ _ (10 ^ J)); [lia|]. rewrite Hx. ring. }
  rewrite Ha. apply Z.mod_mul. apply Z.pow_nonzero; lia.
Qed.

(** ** [float(str(x))] *)

Lemma Qabs_sgn_mul m z : (m <> 0)%Z -> Z.abs (Z.sgn m * z) = Z.abs z.
Proof.
  intros Hm. rewrite Z.abs_mul.
  destruct (Z.lt_trichotomy m 0) as [H|[H|H]]; [rewrite Z.sgn_neg | lia | rewrite Z.sgn_pos]; lia.
Qed.

Lemma sgn_abs_mul m : (Z.sgn m * Z.abs m = m)%Z.
Proof. destruct (Z.lt_trichotomy m 0) as [H|[->|H]]; [rewrite Z.sgn_neg, Z.abs_neq | | rewrite Z.sgn_pos, Z.abs_eq]; lia. Qed.

(** What [float()] reads from [str(x)]: a finite float within
    [|x| / (2 * 10^11)] of [x], and [x] itself when [x] has at most
    twelve significant digits. *)
Lemma py_float_py_str_float x :
  Qabs (float_value x) <= inject_Z (10 ^ 300) ->
  exists neg d, py_float (py_str_float x) = Some (FNum neg d)
    /\ inject_Z (2 * 10 ^ 11) * Qabs (num_value neg d - float_value x) <= Qabs (float_value x)
    /\ (sig12 x -> num_value neg d == float_value x).
Proof.
  intros Hb. destruct x as [m e].
  assert (Hx_abs : Qabs (float_value (mkDec m e)) == float_value (mkDec (Z.abs m) e)) by apply float_value_abs.
  assert (Hxs : float_value (mkDec m e) == float_value (mkDec (Z.sgn m * Z.abs m) e))
    by now rewrite sgn_abs_mul.
  destruct (Z.eq_dec m 0) as [->|Hm].
  { exists false, (dec_of 0 (-1)). split; [vm_compute; reflexivity|].
    assert (H0 : forall f, float_value (mkDec 0 f) == 0)
      by (intros f; unfold float_value; cbn [dec_mant]; unfold Qdiv; apply Qmult_0_l).
    change (num_value false (dec_of 0 (-1))) with (float_value (mkDec 0 1)). rewrite !H0.
    split; [apply Qle_bool_iff; vm_compute; reflexivity | intros _; reflexivity]. }
  set (a := Z.abs m) in *. assert (Ha : (0 < a)%Z) by (unfold a; lia).
  destruct (round12 a) as [q k] eqn:Er.
  destruct (round12_spec a q k Ha Er) as (Hk & Hq & _).
  destruct (round12_close a q k Ha Er) as (Hclose & Hle2).
  destruct (strip_zeros 12 q k) as [s k'] eqn:Es.
  destruct (strip_zeros_spec 12 q k s k' Hq Es) as (Hs & Hkk & Hsv).
  destruct (str_nat_digits s ltac:(lia)) as (c & t & ED & Hd & Hv).
  set (dp := (Z.of_nat (String.length (str_nat s)) + k' - Z.of_nat e)%Z).
  assert (Hshape : py_str_float (mkDec m e)
                   = (if (m <? 0)%Z then "-" else EmptyString) ++ fmt_g (str_nat s) dp).
  { unfold py_str_float. cbn [dec_mant dec_exp].
    replace (m =? 0)%Z with false by (symmetry; apply Z.eqb_neq, Hm). fold a. now rewrite Er, Es. }
  assert (HdD : all_chars is_digit (str_nat s) = true) by (rewrite ED; exact Hd).
  assert (HnD : str_nat s <> EmptyString) by (rewrite ED; discriminate).
  destruct (fmt_g_parse (str_nat s) s HdD HnD Hv dp) as (M & E & Hp & Hval).
  (* the value read is the rounded [q * 10^k / 10^e] *)
  assert (Hv' : lit_value M E == float_value (mkDec (q * 10 ^ k) e)).
  { rewrite Hval, <- lit_value_dec, lit_value_shift by lia. rewrite <- Hsv, lit_value_shift by lia.
    replace (- Z.of_nat e + k + (k' - k))%Z with (dp - Z.of_nat (String.length (str_nat s)))%Z
      by (unfold dp; lia). reflexivity. }
  assert (Hov : Qle_bool dbl_overflow (lit_value M E) = false).
  { destruct (Qle_bool _ _) eqn:Eo; [|reflexivity]. exfalso. apply Qle_bool_iff in Eo.
    assert (H1 : lit_value M E <= inject_Z 2 * inject_Z (10 ^ 300)).
    { rewrite Hv'. apply Qle_trans with (float_value (mkDec (2 * a) e)); [apply float_value_le; lia|].
      rewrite <- float_value_mul, <- Hx_abs. apply Qmult_le_l; [reflexivity | exact Hb]. }
    assert (H2 : inject_Z 2 * inject_Z (10 ^ 300) < dbl_overflow) by (vm_compute; reflexivity).
    exact (Qlt_not_le _ _ H2 (Qle_trans _ _ _ Eo H1)). }
  exists (m <? 0)%Z, (dec_of M E).
  pose proof (py_str_float_no_space (mkDec m e)) as Hns. rewrite Hshape in Hns.
  rewrite Hshape, (py_float_signed _ _ M E Hns (fmt_g_head _ dp HdD HnD) Hp), Hov.
  split; [reflexivity|].
  assert (Hnv : num_value (m <? 0)%Z (dec_of M E) == float_value (mkDec (Z.sgn m * (q * 10 ^ k)) e)).
  { unfold num_value. fold (lit_value M E).
    destruct (Z.ltb_spec m 0); rewrite Hv'.
    - rewrite Z.sgn_neg by lia. replace (-1 * (q * 10 ^ k))%Z with (- (q * 10 ^ k))%Z by ring.
      now rewrite float_value_opp.
    - rewrite Z.sgn_pos by lia. now rewrite Z.mul_1_l. }
  split.
  - rewrite Hx_abs, Hnv, Hxs, float_value_sub, float_value_abs, <- Z.mul_sub_distr_l, Qabs_sgn_mul by exact Hm.
    rewrite float_value_mul. apply float_value_le. exact Hclose.
  - intros Hsig. rewrite Hnv, Hxs. now rewrite (round12_sig12 m e q k Hm Er Hsig).
Qed.

(** ** The amplitude field of the stimulus command *)

(** A 13-digit amplitude reaches the controller with 11 digits: the
    twelfth digit rounds to 0 and is dropped. *)
Lemma MESSAGE_PING_thirteen_digits :
  MESSAGE_PING (mkDec 4312345678901 13) 50 = ("2,0.43123456789,50" ++ CR)%string.
Proof. vm_compute. reflexivity. Qed.

(** ** Properties *)

(** C13: the controller receives the amplitude to twelve significant
    digits.  For every amplitude up to [10^300] and every frequency, the
    second comma-separated field of [MESSAGE_PING] reads back with
    [float()] as a finite float [v] with [|v - fAMP| <= |fAMP| / (2 * 10^11)],
    and [v = fAMP] when [fAMP] has at most twelve significant digits. *)
Theorem MESSAGE_PING_amplitude fAMP FREQ :
  Qabs (float_value fAMP) <= inject_Z (10 ^ 300) ->
  exists f neg d,
    py_split comma (rstrip (MESSAGE_PING fAMP FREQ)) = ["2"; f; str_Z FREQ]%string
    /\ py_float f = Some (FNum neg d)
    /\ inject_Z (2 * 10 ^ 11) * Qabs (num_value neg d - float_value fAMP) <= Qabs (float_value fAMP)
    /\ (sig12 fAMP -> num_value neg d == float_value fAMP).
Proof.
  intros Hb. destruct (py_float_py_str_float fAMP Hb) as (neg & d & Hp & Herr & Hex).
  exists (py_str_float fAMP), neg, d. split; [apply MESSAGE_PING_split|]. auto.
Qed.

(** ** Witnesses *)

Lemma MESSAGE_PING_amplitude_witness :
  Qabs (float_value (mkDec 43 2)) <= inject_Z (10 ^ 300) /\
  exists f neg d,
    py_split comma (rstrip (MESSAGE_PING (mkDec 43 2) 50)) = ["2"; f; str_Z 50]%string
    /\ py_float f = Some (FNum neg d)
    /\ inject_Z (2 * 10 ^ 11) * Qabs (num_value neg d - float_value (mkDec 43 2))
       <= Qabs (float_value (mkDec 43 2))
    /\ (sig12 (mkDec 43 2) -> num_value neg d == float_value (mkDec 43 2)).
Proof.
  split; [apply Qle_bool_iff; vm_compute; reflexivity|].
  apply MESSAGE_PING_amplitude. apply Qle_bool_iff. vm_compute. reflexivity.
Defined.
