(* ===== verification/Draft.v ===== *)
(** * The draft V0.2: its command line

    [src/ADC_Test_V0_2.py] does not compile: line 261 ([iADCPkMin = ]
    with no right-hand side) and lines 413-414 ([global fVrefCON = 3.5],
    [global BitRes = 0.59]) are syntax errors, so Python rejects the whole
    module before running any of it, and the draft's own [RunTest],
    [LoopAndLog] and [main] never run.  The code the draft shares with
    V1.0 is modelled once, by the V1.0 definitions, which the map places
    on the draft's lines: [SerialConnecter] ([Serial]), [CheckMaxTests]
    and [CheckInterval] ([Args]), the per-channel records and the start
    and end of [LoopAndLog] ([Runner], [LogFormat]), the second reading of
    [RunTest] ([Session]).

    This file holds what the draft's command-line parser produces, which
    differs from V1.0's: [GetInput] declares the amplitude and the
    frequency with [type=str] (lines 83-84), so the namespace [V02.Args]
    keeps both as strings.  [Cli] parses a command line into it. *)

From Stdlib Require Import String List ZArith.
Local Open Scope string_scope.
From S2P Require Import Prelude PyStr Args.
Import ListNotations.

Module V02.

(** The namespace of the draft (lines 79-86): [Amplitude] and
    [Frequency] are parsed with [type=str]. *)
Record Args := mkArgs {
  dutCOM : string;
  dutBaud : Z;
  uCOM : string;
  uBaud : Z;
  Amplitude : string;
  Frequency : string;
  interval : option Z;
  maxtest : option Z
}.

#[export] Instance Args_parsed : ParsedArgs Args :=
  {| interval_arg := interval; maxtest_arg := maxtest |}.

(** Lines 88-89: [args = parser.parse_args()] and the six positional
    arguments. *)
Definition GetInput (args : Args) : string * Z * string * Z * string * string :=
  (dutCOM args, dutBaud args, uCOM args, uBaud args, Amplitude args, Frequency args).

(** A namespace of the reference session, for the witnesses of [Cli]. *)
Definition demo_args : Args := mkArgs "COM7" 115200 "COM8" 9600 "0.43" "50" None None.

End V02.
