(* ===== verification/Cli.v ===== *)
(** * The command line of both versions

    [InputParse.GetInput] (lines 58-89 of [src/ADC_Test_V0_2.py])
    registers six positional arguments ([dutCOM] and [uCOM], [Amplitude]
    and [Frequency] with [type=str], [dutBaud] and [uBaud] with
    [type=int]) and the options [-i/--interval] and [-m/--maxtest]
    ([type=int]), parses [sys.argv] with the [argparse] model of file
    [ArgParse], stores the namespace in the global [args] and returns the
    six positional values.  [namespace_args] reads a namespace whose
    values have their declared types as the record [V02.Args] that the
    rest of the draft's model takes.  [Module V1] does the same for
    V1.0 (lines 61-92 of [src/ADC_Test.py]), whose amplitude is read with
    [float()] (file [Floats]) and whose frequency with [int()], into the
    record [Args].

    The theorems: both command lines parse back to the namespace they
    are built from, wherever the options stand; a non-integer baud rate
    exits with status 2; [-m=--] stores a list; and non-positive [-i] and
    [-m] values reach [SamplingTest] as the defaults 1 and 20. *)

From Stdlib Require Import String Ascii List ZArith QArith Qabs Lia Bool.
From S2P Require Import Prelude PyStr Digits Args Floats Serial ArgParse Draft.
Import ListNotations.
Local Open Scope string_scope.

#[local] Existing Instance V02.Args_parsed.

Module CommandLine.

(** The positional arguments' types, in the order of lines 79-84. *)
Definition arguments : list ArgType := [TStr; TInt; TStr; TInt; TStr; TStr].

(** Lines 58-89: [args = parser.parse_args()] (the global namespace) and
    [return args.dutCOM, args.dutBaud, args.uCOM, args.uBaud,
    args.Amplitude, args.Frequency]. *)
Definition GetInput (argv : list string) : res PyExn (NS * list PyArg) :=
  match parse_args arguments argv with
  | Ok ns => Ok (ns, ns_pos ns)
  | Exn e => Exn e
  end.

Definition int_option (v : option PyArg) : option (option Z) :=
  match v with
  | None => Some None
  | Some (AInt z) => Some (Some z)
  | Some _ => None
  end.

(** The namespace as a [V02.Args], when every value has its declared
    type: a value bound to [[]] (a positional given a lone ["--"], or
    [-m=--]) has none. *)
Definition namespace_args (ns : NS) : option V02.Args :=
  match ns_pos ns, int_option (ns_interval ns), int_option (ns_maxtest ns) with
  | [AStr c1; AInt b1; AStr c2; AInt b2; AStr amp; AStr freq], Some i, Some m =>
      Some (V02.mkArgs c1 b1 c2 b2 amp freq i m)
  | _, _, _ => None
  end.

(** ** A command line for a namespace *)

Definition option_words (a : V02.Args) : list string :=
  match V02.interval a with Some i => ["-i"; str_Z i] | None => [] end ++
  match V02.maxtest a with Some m => ["-m"; str_Z m] | None => [] end.

Definition positional_words (a : V02.Args) : list string :=
  [V02.dutCOM a; str_Z (V02.dutBaud a); V02.uCOM a; str_Z (V02.uBaud a);
   V02.Amplitude a; V02.Frequency a].

(** The namespace [parse_args] builds for [a]. *)
Definition namespace_of (a : V02.Args) : NS :=
  mkNS [AStr (V02.dutCOM a); AInt (V02.dutBaud a); AStr (V02.uCOM a); AInt (V02.uBaud a);
        AStr (V02.Amplitude a); AStr (V02.Frequency a)]
       (option_map AInt (V02.interval a)) (option_map AInt (V02.maxtest a)) [].

(** The options inserted after the first [k] positional words. *)
Definition argv_of (k : nat) (a : V02.Args) : list string :=
  firstn k (positional_words a) ++ option_words a ++ skipn k (positional_words a).

(** ** V1.0: [src/ADC_Test.py], lines 62-92

    The same parser with [Amplitude] declared [type=float] and [Frequency]
    [type=int]; its namespace is the record [Args] of file [Args]. *)
Module V1.

(** The positional arguments' types, in the order of lines 82-87. *)
Definition arguments : list ArgType := [TStr; TInt; TStr; TInt; TFloat; TInt].

(** Lines 62-92: [args = parser.parse_args()] and the returned
    positionals. *)
Definition GetInput (argv : list string) : res PyExn (NS * list PyArg) :=
  match parse_args arguments argv with
  | Ok ns => Ok (ns, ns_pos ns)
  | Exn e => Exn e
  end.

(** A float as the decimal the rest of the model takes: [inf], [nan] and
    [-0.0] have none. *)
Definition dec_of_float (x : PyFloat) : option Dec :=
  match x with
  | FNum false d => Some d
  | FNum true d => if (dec_mant d =? 0)%Z then None else Some (mkDec (- dec_mant d) (dec_exp d))
  | _ => None
  end.

Definition namespace_args (ns : NS) : option Args :=
  match ns_pos ns, int_option (ns_interval ns), int_option (ns_maxtest ns) with
  | [AStr c1; AInt b1; AStr c2; AInt b2; AFloat amp; AInt freq], Some i, Some m =>
      option_map (fun d => mkArgs c1 b1 c2 b2 d freq i m) (dec_of_float amp)
  | _, _, _ => None
  end.

Definition option_words (a : Args) : list string :=
  match interval a with Some i => ["-i"; str_Z i] | None => [] end ++
  match maxtest a with Some m => ["-m"; str_Z m] | None => [] end.

Definition positional_words (a : Args) : list string :=
  [dutCOM a; str_Z (dutBaud a); uCOM a; str_Z (uBaud a); dec_literal (Amplitude a); str_Z (Frequency a)].

Definition argv_of (k : nat) (a : Args) : list string :=
  firstn k (positional_words a) ++ option_words a ++ skipn k (positional_words a).

End V1.

(** ** Lemmas *)

(** Rewrite the facts [bare] gives about every word of a command line. *)
Ltac bare_facts :=
  repeat match goal with
  | H : bare ?s = true |- _ =>
      let E := fresh "E" in let C := fresh "C" in
      destruct (bare_classify s H) as [E C]; clear H
  end.

Lemma classify_options :
  classify "-i" = WOpt AInterval "-i" None /\ classify "-m" = WOpt AMaxtest "-m" None
  /\ classify "-m=--" = WOpt AMaxtest "-m" (Some "--").
Proof. repeat split; reflexivity. Qed.

Ltac parse_crunch :=
  destruct classify_options as (Ci & Cm & Cd);
  repeat (progress (cbn -[str_Z dec_literal py_int py_float classify get_values];
                    repeat match goal with
                    | H : String.eqb ?s "--" = false |- _ => rewrite H
                    | H : classify ?s = _ |- _ => rewrite H
                    | H : py_float ?s = _ |- _ => rewrite H
                    | H : String.eqb ?s "--" = false |- _ => rewrite (get_values_single _ s H)
                    end;
                    rewrite ?Ci, ?Cm, ?Cd, ?py_int_str_Z_plain)).

(** ** Properties *)

(** A command line built from a namespace parses back to it. *)
Lemma GetInput_argv_of k a :
  bare (V02.dutCOM a) && bare (V02.uCOM a) && bare (V02.Amplitude a) && bare (V02.Frequency a) = true ->
  GetInput (argv_of k a) = Ok (namespace_of a, ns_pos (namespace_of a))
  /\ namespace_args (namespace_of a) = Some a.
Proof.
  destruct a as [c1 b1 c2 b2 amp freq i m]; cbn [V02.dutCOM V02.uCOM V02.Amplitude V02.Frequency].
  intros H. do 3 (apply andb_true_iff in H as [H ?]).
  pose proof (bare_str_Z b1). pose proof (bare_str_Z b2).
  destruct i as [i|]; [pose proof (bare_str_Z i)|]; destruct m as [m|]; [pose proof (bare_str_Z m)| |pose proof (bare_str_Z m)|];
  bare_facts; unfold GetInput, parse_args, argv_of, positional_words, option_words;
  cbn [V02.dutCOM V02.uCOM V02.Amplitude V02.Frequency V02.dutBaud V02.uBaud V02.interval V02.maxtest];
  (destruct k as [|[|[|[|[|[|k]]]]]]; cbn [firstn skipn]; rewrite ?firstn_nil, ?skipn_nil);
  parse_crunch; split; reflexivity.
Qed.

(** C22: a command line built from a namespace is parsed back to it:
    for any placement [k] of the options among the six positional words,
    and any integers, [GetInput] returns the namespace whose values are
    the namespace's fields, with their declared types, and its six
    positional values, as long as the four string fields are plain
    words (a negative number such as ["-0.5"] is one). *)
Theorem GetInput_roundtrip k a :
  bare (V02.dutCOM a) && bare (V02.uCOM a) && bare (V02.Amplitude a) && bare (V02.Frequency a) = true ->
  GetInput (argv_of k a) = Ok (namespace_of a, ns_pos (namespace_of a))
  /\ namespace_args (namespace_of a) = Some a.
Proof. apply GetInput_argv_of. Qed.

(** C24: a command line of six plain words whose second or fourth word
    ([dutBaud], [uBaud]) is not an integer literal for [int()] makes
    [GetInput] exit with status 2 ([invalid int value]). *)
Theorem GetInput_invalid_int w0 w1 w2 w3 w4 w5 :
  forallb bare [w0; w1; w2; w3; w4; w5] = true ->
  py_int w1 = None \/ py_int w3 = None ->
  GetInput [w0; w1; w2; w3; w4; w5] = Exn argparse_error.
Proof.
  intros Hb Hint. unfold GetInput, parse_args.
  rewrite classify_all_bare_map, no_ambiguous_WPos by exact Hb.
  cbn in Hb. repeat (apply andb_true_iff in Hb as [? Hb]). bare_facts.
  destruct (py_int w1) eqn:H1; [destruct Hint as [Hint|Hint]; [discriminate|]|];
    parse_crunch; rewrite ?H1, ?Hint; reflexivity.
Qed.

(** C26: [type=int] does not make the value an integer: [-m=--] (or
    [--maxtest=--]) stores the empty list in [args.maxtest], since
    [_get_values] removes the ["--"] before converting, so the parse
    succeeds with a namespace that no [V02.Args] describes. *)
Theorem GetInput_maxtest_empty_list a :
  bare (V02.dutCOM a) && bare (V02.uCOM a) && bare (V02.Amplitude a) && bare (V02.Frequency a) = true ->
  GetInput (positional_words a ++ ["-m=--"])%list
  = Ok (mkNS (ns_pos (namespace_of a)) None (Some (AList [])) [], ns_pos (namespace_of a))
  /\ namespace_args (mkNS (ns_pos (namespace_of a)) None (Some (AList [])) []) = None.
Proof.
  destruct a as [c1 b1 c2 b2 amp freq i m]; cbn [V02.dutCOM V02.uCOM V02.Amplitude V02.Frequency].
  intros H. do 3 (apply andb_true_iff in H as [H ?]).
  pose proof (bare_str_Z b1). pose proof (bare_str_Z b2). bare_facts.
  unfold GetInput, parse_args, positional_words.
  cbn [V02.dutCOM V02.uCOM V02.Amplitude V02.Frequency V02.dutBaud V02.uBaud app].
  parse_crunch. split; reflexivity.
Qed.

(** C27: V1.0's command line parses back to its namespace.  A command
    line built from a V1.0 namespace, with the amplitude written as its
    exact decimal literal ([dec_literal]) and the options at any place,
    is parsed by V1.0's [GetInput] to the same ports, baud rates,
    frequency and options, and to an amplitude of the same value, for any
    amplitude below the overflow bound (negative ones included, which
    [argparse] takes as positionals). *)
Theorem GetInput_V1_roundtrip k a :
  bare (dutCOM a) && bare (uCOM a) = true -> Qabs (float_value (Amplitude a)) < dbl_overflow ->
  exists ns a', V1.GetInput (V1.argv_of k a) = Ok (ns, ns_pos ns) /\ V1.namespace_args ns = Some a'
    /\ a' = mkArgs (dutCOM a) (dutBaud a) (uCOM a) (uBaud a) (Amplitude a') (Frequency a)
                   (interval a) (maxtest a)
    /\ float_value (Amplitude a') == float_value (Amplitude a).
Proof.
  destruct a as [c1 b1 c2 b2 amp f i m]; cbn [dutCOM uCOM Amplitude].
  intros H Hov. apply andb_true_iff in H as [H ?].
  destruct (py_float_dec_literal amp Hov) as (neg & d & Ep & Ev & Hs).
  pose proof (bare_str_Z b1). pose proof (bare_str_Z b2). pose proof (bare_str_Z f).
  pose proof (bare_dec_literal amp).
  exists (mkNS [AStr c1; AInt b1; AStr c2; AInt b2; AFloat (FNum neg d); AInt f]
            (option_map AInt i) (option_map AInt m) []).
  exists (mkArgs c1 b1 c2 b2 (if neg then mkDec (- dec_mant d) (dec_exp d) else d) f i m).
  assert (Hd : neg = true -> (dec_mant d =? 0)%Z = false).
  { intros ->. apply Z.eqb_neq. intros Hz. specialize (Hs eq_refl). cbn in Ev.
    destruct d as [md ed]; cbn in Hz; subst md.
    assert (Hz0 : float_value (mkDec 0 ed) == 0) by (unfold float_value; cbn; reflexivity).
    rewrite Hz0 in Ev. rewrite <- Ev in Hs. discriminate Hs. }
  refine (conj _ (conj _ (conj eq_refl _))).
  - destruct i as [i|]; [pose proof (bare_str_Z i)|]; destruct m as [m|];
      [pose proof (bare_str_Z m)| |pose proof (bare_str_Z m)|];
      bare_facts; unfold V1.GetInput, parse_args, V1.argv_of, V1.positional_words, V1.option_words;
      cbn [dutCOM uCOM Amplitude Frequency dutBaud uBaud interval maxtest];
      (destruct k as [|[|[|[|[|[|k]]]]]]; cbn [firstn skipn]; rewrite ?firstn_nil, ?skipn_nil);
      parse_crunch; reflexivity.
  - unfold V1.namespace_args, V1.dec_of_float. cbn [ns_pos ns_interval ns_maxtest].
    destruct i, m, neg; cbn; rewrite ?Hd by reflexivity; reflexivity.
  - cbn [Amplitude]. destruct neg; cbn in Ev; [|exact Ev].
    destruct d as [md ed]. rewrite float_value_opp. exact Ev.
Qed.

(** ** Witnesses *)

Definition cli_args : V02.Args :=
  V02.mkArgs "/dev/ttyUSB0" 115200 "COM8" (-9600) "-0.43" "50" (Some 5%Z) (Some (-3)%Z).

Lemma GetInput_roundtrip_witness :
  bare (V02.dutCOM cli_args) && bare (V02.uCOM cli_args) && bare (V02.Amplitude cli_args)
    && bare (V02.Frequency cli_args) = true /\
  GetInput (argv_of 2 cli_args) = Ok (namespace_of cli_args, ns_pos (namespace_of cli_args))
  /\ namespace_args (namespace_of cli_args) = Some cli_args.
Proof. split; [vm_compute; reflexivity|]. apply GetInput_roundtrip. vm_compute. reflexivity. Defined.

Lemma GetInput_invalid_int_witness :
  forallb bare ["COM7"; "fast"; "COM8"; "9600"; "0.43"; "50"] = true /\
  (py_int "fast" = None \/ py_int "9600" = None) /\
  GetInput ["COM7"; "fast"; "COM8"; "9600"; "0.43"; "50"] = Exn argparse_error.
Proof.
  split; [vm_compute; reflexivity|]. split; [left; vm_compute; reflexivity|].
  apply GetInput_invalid_int; [vm_compute; reflexivity | left; vm_compute; reflexivity].
Defined.

Lemma GetInput_maxtest_empty_list_witness :
  bare (V02.dutCOM V02.demo_args) && bare (V02.uCOM V02.demo_args) && bare (V02.Amplitude V02.demo_args)
    && bare (V02.Frequency V02.demo_args) = true /\
  GetInput (positional_words V02.demo_args ++ ["-m=--"])%list
  = Ok (mkNS (ns_pos (namespace_of V02.demo_args)) None (Some (AList [])) [], ns_pos (namespace_of V02.demo_args))
  /\ namespace_args (mkNS (ns_pos (namespace_of V02.demo_args)) None (Some (AList [])) []) = None.
Proof. split; [vm_compute; reflexivity|]. apply GetInput_maxtest_empty_list. vm_compute. reflexivity. Defined.

Definition cli_args_V1 : Args :=
  mkArgs "COM7" 115200 "/dev/ttyUSB1" 9600 (mkDec (-43) 2) 50 (Some 2%Z) None.

Lemma GetInput_V1_roundtrip_witness :
  bare (dutCOM cli_args_V1) && bare (uCOM cli_args_V1) = true /\
  Qabs (float_value (Amplitude cli_args_V1)) < dbl_overflow /\
  exists ns a', V1.GetInput (V1.argv_of 3 cli_args_V1) = Ok (ns, ns_pos ns)
    /\ V1.namespace_args ns = Some a'
    /\ a' = mkArgs (dutCOM cli_args_V1) (dutBaud cli_args_V1) (uCOM cli_args_V1) (uBaud cli_args_V1)
                   (Amplitude a') (Frequency cli_args_V1) (interval cli_args_V1) (maxtest cli_args_V1)
    /\ float_value (Amplitude a') == float_value (Amplitude cli_args_V1).
Proof.
  split; [vm_compute; reflexivity|]. split; [vm_compute; reflexivity|].
  apply GetInput_V1_roundtrip; vm_compute; reflexivity.
Defined.

End CommandLine.
